(** * Muninn: the hot-reload build orchestrator ([build_hot_reload.py])

    A shallow embedding of the watch-build-reload loop and the properties
    its specification states about it.

    - Paths are [pathlib.Path] values, kept as their tuple of parts
      ([Path.parts]); [last_mtimes] is a dictionary keyed by such paths.
    - [st_mtime] is a float that the script only ever compares with [!=];
      it is kept as an integer number of ticks.
    - The file system below the working directory is a tree whose
      directories list their entries in [scandir] order.
    - The module-level global [last_mtimes], the process environment and
      everything the script does to the outside (printing, subprocesses,
      sleeping) live in an explicit [world] that is threaded through a small
      state-and-exception monad. *)

From Stdlib Require Import ZArith Lia Ascii String.
From stdpp Require Import base strings list gmap.

Local Open Scope string_scope.
Local Open Scope list_scope.
Local Open Scope nat_scope.

(** ** Strings and paths *)

Abbreviation path := (list string).

(** [s.endswith(suffix)] *)
Definition endswith (s suffix : string) : bool :=
  let n := String.length s in
  let k := String.length suffix in
  (k <=? n)%nat && String.eqb (String.substring (n - k) k s) suffix.

(** [needle in haystack] on [str] *)
Fixpoint str_contains (needle haystack : string) : bool :=
  String.prefix needle haystack ||
  match haystack with
  | EmptyString => false
  | String _ rest => str_contains needle rest
  end.

(** [str(p)] for a relative POSIX path *)
Definition str_of_path (p : path) : string := String.concat "/" p.

(** Splitting at ["/"], the first half of [Path(s)]. *)
Fixpoint split_slash (cur : string) (s : string) : list string :=
  match s with
  | EmptyString => [String.rev cur]
  | String c rest =>
      if Ascii.eqb c "/"%char then String.rev cur :: split_slash "" rest
      else split_slash (String c cur) rest
  end.

(** [Path(s)] for a relative [s]: empty and ["."] parts are dropped. *)
Definition path_of_string (s : string) : path :=
  filter (λ part, part ≠ "" ∧ part ≠ ".") (split_slash "" s).

Definition OUT_DIR : path := ["build"; "hot_reload"].
Definition EXE : string := "game_hot_reload.bin".
Definition EXIT_SIGNAL_FILE : string := "exit_signal.tmp".

(** ** The file system *)

#[warnings="-register-all"]
Inductive node : Type :=
| File (mtime : Z) (data : string)
| Dir (mtime : Z) (entries : list (string * node)).

Definition node_mtime (n : node) : Z :=
  match n with File m _ => m | Dir m _ => m end.

Definition is_dir (n : node) : bool :=
  match n with Dir _ _ => true | File _ _ => false end.

Fixpoint entry (name : string) (es : list (string * node)) : option node :=
  match es with
  | [] => None
  | (n, c) :: rest => if String.eqb n name then Some c else entry name rest
  end.

(** The node a path names, starting from the working directory. *)
Fixpoint resolve (p : path) (n : node) : option node :=
  match p with
  | [] => Some n
  | name :: rest =>
      match n with
      | Dir _ es =>
          match entry name es with
          | Some c => resolve rest c
          | None => None
          end
      | File _ _ => None
      end
  end.

(** [p.stat().st_mtime]; [None] is [FileNotFoundError]. *)
Definition stat_mtime (t : node) (p : path) : option Z :=
  node_mtime <$> resolve p t.

(** [p.exists()] *)
Definition path_exists (t : node) (p : path) : bool :=
  bool_decide (is_Some (resolve p t)).

(** Dropping the entry a path names (the effect of [unlink] and of the
    source side of [rename]). *)
Fixpoint remove (p : path) (n : node) : node :=
  match p with
  | [] => n
  | name :: rest =>
      match n with
      | Dir m es =>
          match rest with
          | [] => Dir m (filter (λ e, negb (String.eqb e.1 name)) es)
          | _ => Dir m (map (λ e, if String.eqb e.1 name
                                  then (e.1, remove rest e.2) else e) es)
          end
      | File _ _ => n
      end
  end.

(** Placing a node at a path whose parent directory exists, replacing what
    was there. *)
Fixpoint put (p : path) (c : node) (n : node) : node :=
  match p with
  | [] => c
  | name :: rest =>
      match n with
      | Dir m es =>
          match entry name es with
          | Some _ => Dir m (map (λ e, if String.eqb e.1 name
                                       then (e.1, put rest c e.2) else e) es)
          | None =>
              match rest with
              | [] => Dir m (es ++ [(name, c)])
              | _ => n
              end
          end
      | File _ _ => n
      end
  end.

(** [os.walk(top)], top-down: each directory yields
    [(root, dirnames, filenames)] and is followed by its subdirectories.
    A [top] that is not a directory yields nothing. *)
Fixpoint walk (top : path) (n : node) : list (path * list string * list string) :=
  match n with
  | File _ _ => []
  | Dir _ es =>
      (top, (filter (λ e, is_dir e.2 = true) es).*1,
            (filter (λ e, is_dir e.2 = false) es).*1)
      :: flat_map (λ e, walk (top ++ [e.1]) e.2) es
  end.

Definition os_walk (t : node) (top : path) : list (path * list string * list string) :=
  match resolve top t with
  | Some n => walk top n
  | None => []
  end.

(** ** The change detector, as a function of what the operating system
    answers

    [check_files] is the inner [for file in files] loop of
    [check_for_changes] and [check_dirs] the outer
    [for root, _, files in os.walk(source_dir)] loop.  They take the
    directory listing and the [stat] answers as arguments, so they also
    cover a scan during which a listed file has vanished.  The result is
    [changes_detected], the updated [last_mtimes] and the lines printed. *)

Definition detected_msg (filepath : path) : string :=
  "Detected change in " +:+ str_of_path filepath +:+ ".".

Fixpoint check_files (stat : path → option Z) (root : path) (files : list string)
    (last_mtimes : gmap path Z) : bool * gmap path Z * list string :=
  match files with
  | [] => (false, last_mtimes, [])
  | file :: rest =>
      if negb (endswith file ".odin") then
        check_files stat root rest last_mtimes
      else
        let filepath := root ++ [file] in
        match stat filepath with
        | Some mtime =>
            let not_checked := bool_decide (last_mtimes !! filepath = None) in
            let changed := bool_decide (last_mtimes !! filepath ≠ Some mtime) in
            if not_checked || changed then
              (true, <[filepath := mtime]> last_mtimes, [detected_msg filepath])
            else check_files stat root rest last_mtimes
        | None =>
            check_files stat root rest (delete filepath last_mtimes)
        end
  end.

Fixpoint check_dirs (stat : path → option Z)
    (listing : list (path * list string * list string))
    (last_mtimes : gmap path Z) : bool * gmap path Z * list string :=
  match listing with
  | [] => (false, last_mtimes, [])
  | (root, _, files) :: rest =>
      let '(changes_detected, last_mtimes', out) :=
        check_files stat root files last_mtimes in
      if changes_detected then (true, last_mtimes', out)
      else check_dirs stat rest last_mtimes'
  end.

(** The dictionary comprehension of [populate_last_mtimes]; [None] when a
    [stat] raises [FileNotFoundError], which the function does not catch. *)
Fixpoint populate_files (stat : path → option Z) (root : path) (files : list string)
    (acc : gmap path Z) : option (gmap path Z) :=
  match files with
  | [] => Some acc
  | file :: rest =>
      if endswith file ".odin" then
        match stat (root ++ [file]) with
        | Some mtime => populate_files stat root rest (<[root ++ [file] := mtime]> acc)
        | None => None
        end
      else populate_files stat root rest acc
  end.

Fixpoint populate_dirs (stat : path → option Z)
    (listing : list (path * list string * list string))
    (acc : gmap path Z) : option (gmap path Z) :=
  match listing with
  | [] => Some acc
  | (root, _, files) :: rest =>
      match populate_files stat root files acc with
      | Some acc' => populate_dirs stat rest acc'
      | None => None
      end
  end.

(** ** The world and the monad *)

Inductive exn : Type :=
| FileNotFoundError
| IsADirectoryError
| NotADirectoryError
| PermissionError
| CalledProcessError (returncode : Z)
| OtherError (what : string).

(** What the script does to the outside, in order. *)
Inductive event : Type :=
| EPrint (line : string)
| ERun (argv : list string)
| ECheckOutput (argv : list string)
| EPopen (argv : list string) (env : gmap string string)
| ESleep (seconds : Z).

Record world : Type := World {
  w_tree : node;
  w_environ : gmap string string;
  w_last_mtimes : gmap path Z;
  w_trace : list event;
}.

Definition set_tree (t : node) (w : world) : world :=
  World t (w_environ w) (w_last_mtimes w) (w_trace w).
Definition set_last_mtimes (m : gmap path Z) (w : world) : world :=
  World (w_tree w) (w_environ w) m (w_trace w).
Definition emit (es : list event) (w : world) : world :=
  World (w_tree w) (w_environ w) (w_last_mtimes w) (w_trace w ++ es).

Inductive outcome (A : Type) : Type :=
| Ok (a : A) (w : world)
| Raise (e : exn) (w : world).
Arguments Ok {A} a w.
Arguments Raise {A} e w.

Definition world_of {A} (o : outcome A) : world :=
  match o with Ok _ w => w | Raise _ w => w end.

Definition M (A : Type) : Type := world → outcome A.

Definition ret {A} (a : A) : M A := λ w, Ok a w.
Definition raise {A} (e : exn) : M A := λ w, Raise e w.
Definition bind {A B} (c : M A) (k : A → M B) : M B :=
  λ w, match c w with
       | Ok a w' => k a w'
       | Raise e w' => Raise e w'
       end.

(** [try: c except ...: h]; [handler e = None] when no clause matches [e]. *)
Definition try_except {A} (c : M A) (handler : exn → option (M A)) : M A :=
  λ w, match c w with
       | Ok a w' => Ok a w'
       | Raise e w' =>
           match handler e with
           | Some h => h w'
           | None => Raise e w'
           end
       end.

Notation "'let!' x := c 'in' k" := (bind c (λ x, k))
  (at level 10, x name, c at level 100, k at level 200, only parsing).
Notation "c >> k" := (bind c (λ _, k))
  (at level 100, k at level 200, right associativity, only parsing).

Definition print (line : string) : M unit := λ w, Ok tt (emit [EPrint line] w).

(** [os.rename] on the tree. *)
Definition os_rename (src dst : path) (t : node) : exn + node :=
  match resolve src t with
  | None => inl FileNotFoundError
  | Some c =>
      match resolve (removelast dst) t with
      | Some (Dir _ _) =>
          match resolve dst t, c with
          | Some (Dir _ _), File _ _ => inl IsADirectoryError
          | Some (File _ _), Dir _ _ => inl NotADirectoryError
          | _, _ => inr (put dst c (remove src t))
          end
      | Some (File _ _) => inl NotADirectoryError
      | None => inl FileNotFoundError
      end
  end.

(** [src.rename(dst)] *)
Definition rename (src dst : path) : M unit := λ w,
  match os_rename src dst (w_tree w) with
  | inl e => Raise e w
  | inr t => Ok tt (set_tree t w)
  end.

(** [p.unlink()] *)
Definition unlink (p : path) : M unit := λ w,
  match resolve p (w_tree w) with
  | None => Raise FileNotFoundError w
  | Some (Dir _ _) => Raise IsADirectoryError w
  | Some (File _ _) => Ok tt (set_tree (remove p (w_tree w)) w)
  end.

(** [p.exists()] *)
Definition exists_ (p : path) : M bool := λ w, Ok (path_exists (w_tree w) p) w.

(** [os.environ.copy()] *)
Definition environ_copy : M (gmap string string) := λ w, Ok (w_environ w) w.

(** [subprocess.Popen(argv, env=env)]: the child is started and not waited
    for.  Starting fails when [argv[0]] does not name a file. *)
Definition Popen (argv : list string) (env : gmap string string) : M unit := λ w,
  let w' := emit [EPopen argv env] w in
  match resolve (path_of_string (hd "" argv)) (w_tree w) with
  | Some (File _ _) => Ok tt w'
  | Some (Dir _ _) => Raise PermissionError w'
  | None => Raise FileNotFoundError w'
  end.

(** ** The orchestrator

    The programs the script starts are parameters: [odin], the compiler, maps
    its command line and the tree to an exit status and the tree it leaves;
    [process_table] is what [ps aux] or [tasklist] answers, or the error
    raised by running it; [idle] is what happens to the tree while the
    script sleeps. *)

Section Orchestrator.

Variable platform_system : string.
Variable odin : list string → node → Z * node.
Variable process_table : list string → world → exn + string.
Variable idle : node → node.

(** [subprocess.run(argv, check=True)] *)
Definition subprocess_run (argv : list string) : M unit := λ w,
  let '(returncode, t) := odin argv (w_tree w) in
  let w' := emit [ERun argv] (set_tree t w) in
  if (returncode =? 0)%Z then Ok tt w' else Raise (CalledProcessError returncode) w'.

(** [subprocess.check_output(argv, text=True)] *)
Definition check_output (argv : list string) : M string := λ w,
  let w' := emit [ECheckOutput argv] w in
  match process_table argv w with
  | inl e => Raise e w'
  | inr out => Ok out w'
  end.

(** [time.sleep(seconds)] *)
Definition time_sleep (seconds : Z) : M unit := λ w,
  Ok tt (emit [ESleep seconds] (set_tree (idle (w_tree w)) w)).

Definition build_cmd (dll_ext extra_linker_flags : string) : list string :=
  ["odin"; "build"; "source";
   "-extra-linker-flags:" +:+ extra_linker_flags;
   "-define:RAYLIB_SHARED=true";
   "-build-mode:dll";
   "-out:" +:+ str_of_path OUT_DIR +:+ "/game_tmp" +:+ dll_ext;
   "-strict-style";
   "-vet";
   "-debug"].

Definition build_dll (dll_ext extra_linker_flags : string) : M bool :=
  print ("Building game" +:+ dll_ext) >>
  try_except
    (subprocess_run (build_cmd dll_ext extra_linker_flags) >>
     rename (OUT_DIR ++ ["game_tmp" +:+ dll_ext]) (OUT_DIR ++ ["game" +:+ dll_ext]) >>
     ret true)
    (λ e, match e with
          | CalledProcessError _ =>
              Some (print "Shared library build failed." >> ret false)
          | _ => None
          end).

Definition exe_cmd : list string :=
  ["odin"; "build"; "source/main_hot_reload";
   "-out:" +:+ EXE; "-strict-style"; "-vet"; "-debug"].

Definition build_and_run_binary : M bool :=
  print ("Building " +:+ EXE) >>
  try_except
    (subprocess_run exe_cmd >> ret true)
    (λ e, match e with
          | CalledProcessError _ =>
              Some (print "Executable build failed." >> ret false)
          | _ => None
          end).

Definition is_binary_running : M bool :=
  try_except
    (if String.eqb platform_system "Windows" then
       let! result := check_output ["tasklist"] in
       ret (str_contains EXE result)
     else
       let! result := check_output ["ps"; "aux"] in
       ret (str_contains EXE result))
    (λ _, Some (ret false)).

Definition run_binary : M unit :=
  let! running := is_binary_running in
  if negb running then
    print ("Starting " +:+ EXE +:+ "...") >>
    let! env := environ_copy in
    let env := <["LD_LIBRARY_PATH" :=
                   str_of_path OUT_DIR +:+ "/linux:" +:+
                   default "" (env !! "LD_LIBRARY_PATH")]> env in
    Popen ["./" +:+ EXE] env
  else
    print ("Hot reloading " +:+ EXE +:+ "...").

Definition build_and_run_project (dll_ext extra_linker_flags : string) : M unit :=
  let! dll_built := build_dll dll_ext extra_linker_flags in
  let! binary_built := build_and_run_binary in
  if dll_built && binary_built then run_binary else ret tt.

Definition populate_last_mtimes (source_dir : path) : M unit := λ w,
  match populate_dirs (stat_mtime (w_tree w)) (os_walk (w_tree w) source_dir) ∅ with
  | Some m => Ok tt (set_last_mtimes m w)
  | None => Raise FileNotFoundError w
  end.

Definition check_for_changes (source_dir : path) : M bool := λ w,
  let '(changes_detected, last_mtimes, out) :=
    check_dirs (stat_mtime (w_tree w)) (os_walk (w_tree w) source_dir)
               (w_last_mtimes w) in
  Ok changes_detected (emit (EPrint <$> out) (set_last_mtimes last_mtimes w)).

(** One turn of the [while True] loop of [watch_for_changes], in the two
    halves the source has: the rebuild step, then the stop check.  The turn
    returns [true] when it leaves the loop through [break]. *)
Definition rebuild_step (dll_ext extra_linker_flags : string) : M unit :=
  let! changed := check_for_changes ["source"] in
  if changed then
    print "Rebuilding due to detected changes..." >>
    build_and_run_project dll_ext extra_linker_flags
  else ret tt.

Definition stop_step : M bool :=
  let! stop := exists_ [EXIT_SIGNAL_FILE] in
  if stop then
    print "Exit signal detected. Exiting..." >>
    unlink [EXIT_SIGNAL_FILE] >>
    ret true
  else
    time_sleep 1 >> ret false.

Definition watch_turn (dll_ext extra_linker_flags : string) : M bool :=
  rebuild_step dll_ext extra_linker_flags >> stop_step.

(** The loop itself, for at most [fuel] turns; [None] when the loop is still
    running after that many. *)
Fixpoint watch_for_changes (fuel : nat) (dll_ext extra_linker_flags : string)
    (w : world) : option (outcome unit) :=
  match fuel with
  | O => None
  | S fuel' =>
      match watch_turn dll_ext extra_linker_flags w with
      | Ok true w' => Some (Ok tt w')
      | Ok false w' => watch_for_changes fuel' dll_ext extra_linker_flags w'
      | Raise e w' => Some (Raise e w')
      end
  end.

End Orchestrator.

(** ** Vocabulary of the change-detector properties *)

(** The tracked files of a listing, in the order the scan meets them. *)
Definition tracked_in (root : path) (files : list string) : list path :=
  (λ file, root ++ [file]) <$> filter (λ file, endswith file ".odin" = true) files.

Definition tracked_paths (listing : list (path * list string * list string)) : list path :=
  flat_map (λ d, tracked_in d.1.1 d.2) listing.

(** The scan over the flattened sequence of tracked paths. *)
Fixpoint check_paths (stat : path → option Z) (ps : list path)
    (last_mtimes : gmap path Z) : bool * gmap path Z * list string :=
  match ps with
  | [] => (false, last_mtimes, [])
  | filepath :: rest =>
      match stat filepath with
      | Some mtime =>
          if bool_decide (last_mtimes !! filepath ≠ Some mtime) then
            (true, <[filepath := mtime]> last_mtimes, [detected_msg filepath])
          else check_paths stat rest last_mtimes
      | None => check_paths stat rest (delete filepath last_mtimes)
      end
  end.

(** The comprehension of [populate_last_mtimes] over the same sequence. *)
Fixpoint populate_paths (stat : path → option Z) (ps : list path)
    (acc : gmap path Z) : option (gmap path Z) :=
  match ps with
  | [] => Some acc
  | filepath :: rest =>
      match stat filepath with
      | Some mtime => populate_paths stat rest (<[filepath := mtime]> acc)
      | None => None
      end
  end.

(** A file whose current modification time the snapshot does not hold: it
    is new or modified. *)
Definition stale (stat : path → option Z) (last_mtimes : gmap path Z) (p : path) : Prop :=
  ∃ mtime, stat p = Some mtime ∧ last_mtimes !! p ≠ Some mtime.

(** The snapshot agrees with the disk on every tracked file. *)
Definition in_sync (stat : path → option Z) (ps : list path)
    (last_mtimes : gmap path Z) : Prop :=
  Forall (λ p, last_mtimes !! p = stat p) ps.

(** The files one scan actually inspects (calls [stat] on): every tracked
    file up to and including the first one found changed. *)
Fixpoint inspected (stat : path → option Z) (ps : list path)
    (last_mtimes : gmap path Z) : list path :=
  match ps with
  | [] => []
  | filepath :: rest =>
      match stat filepath with
      | Some mtime =>
          if bool_decide (last_mtimes !! filepath ≠ Some mtime) then [filepath]
          else filepath :: inspected stat rest last_mtimes
      | None => filepath :: inspected stat rest (delete filepath last_mtimes)
      end
  end.

(** The snapshot after [k] scans in a row of an unchanging disk. *)
Fixpoint after_polls (stat : path → option Z)
    (listing : list (path * list string * list string)) (k : nat)
    (last_mtimes : gmap path Z) : gmap path Z :=
  match k with
  | O => last_mtimes
  | S k' => after_polls stat listing k' (check_dirs stat listing last_mtimes).1.2
  end.

#[local] Instance stale_dec (stat : path → option Z) (last_mtimes : gmap path Z) (p : path) :
  Decision (stale stat last_mtimes p).
Proof.
  unfold stale. destruct (stat p) as [m|].
  - destruct (decide (last_mtimes !! p = Some m)) as [H|H].
    + right. intros (m' & [= <-] & Hne). done.
    + left. by exists m.
  - right. intros (m' & [=] & _).
Defined.

(** ** Vocabulary of the build and process properties *)

Definition returned {A} (o : outcome A) : option A :=
  match o with Ok a _ => Some a | Raise _ _ => None end.

Fixpoint str_drop (n : nat) (s : string) : string :=
  match n, s with
  | O, _ => s
  | S n', String _ rest => str_drop n' rest
  | S _, EmptyString => EmptyString
  end.

(** The paths a compiler command line names with [-out:]. *)
Definition out_paths (argv : list string) : list path :=
  omap (λ arg, if String.prefix "-out:" arg
               then Some (path_of_string (str_drop 5 arg)) else None) argv.

Definition apart (p q : path) : Prop := ¬ p `prefix_of` q ∧ ¬ q `prefix_of` p.

(** The compiler contract the script relies on: a compiler run leaves alone
    every path that is apart from the outputs its command line names. *)
Definition writes_only_outputs (odin : list string → node → Z * node) : Prop :=
  ∀ argv t q, Forall (apart q) (out_paths argv) →
              resolve q (odin argv t).2 = resolve q t.

(** The two suffixes [setup_environment] returns. *)
Definition known_dll_ext (dll_ext : string) : Prop :=
  dll_ext = ".so" ∨ dll_ext = ".dylib".

(** The process-listing command [is_binary_running] runs. *)
Definition listing_cmd (platform_system : string) : list string :=
  if String.eqb platform_system "Windows" then ["tasklist"] else ["ps"; "aux"].

(** The environment [run_binary] hands to the child. *)
Definition child_env (environ : gmap string string) : gmap string string :=
  <["LD_LIBRARY_PATH" :=
      "build/hot_reload/linux:" +:+ default "" (environ !! "LD_LIBRARY_PATH")]> environ.

(** ** Sample worlds *)

Definition src_a : path := ["source"; "a.odin"].
Definition src_b : path := ["source"; "sub"; "b.odin"].
Definition src_c : path := ["source"; "sub"; "c.odin"].

Definition demo_tree : node :=
  Dir 0 [("source", Dir 0 [("a.odin", File 10 "a"); ("notes.txt", File 11 "n");
                           ("sub", Dir 0 [("b.odin", File 12 "b");
                                          ("c.odin", File 13 "c")])]);
         ("build", Dir 0 [("hot_reload", Dir 0 [("game.so", File 5 "old module")])]);
         ("exit_signal.tmp", File 20 "")].

(** [demo_tree] after [source/sub/b.odin] was deleted. *)
Definition tree_without_b : node :=
  Dir 0 [("source", Dir 0 [("a.odin", File 10 "a"); ("notes.txt", File 11 "n");
                           ("sub", Dir 0 [("c.odin", File 13 "c")])]);
         ("build", Dir 0 [("hot_reload", Dir 0 [("game.so", File 5 "old module")])])].

Definition demo_snapshot : gmap path Z :=
  <[src_a := 10%Z]> (<[src_b := 12%Z]> (<[src_c := 13%Z]> ∅)).

Definition fresh_world : world := World demo_tree ∅ ∅ [].
Definition synced_world : world := World demo_tree ∅ demo_snapshot [].
Definition world_after_delete : world := World tree_without_b ∅ demo_snapshot [].

(** A listing taken just before [source/sub/b.odin] vanished, and the
    [stat] answers just after. *)
Definition racy_listing : list (path * list string * list string) :=
  os_walk demo_tree ["source"].
Definition racy_stat : path → option Z := stat_mtime tree_without_b.

(** A compiler that fails on every module build after leaving a partial
    file at its output path, and builds executables fine. *)
Definition flaky_odin (argv : list string) (t : node) : Z * node :=
  match out_paths argv with
  | [out] =>
      if bool_decide ("-build-mode:dll" ∈ argv)
      then (1%Z, put out (File 30 "partial") t)
      else (0%Z, put out (File 31 "ELF executable") t)
  | _ => (2%Z, t)
  end.

(** A compiler that always succeeds. *)
Definition good_odin (argv : list string) (t : node) : Z * node :=
  match out_paths argv with
  | [out] => (0%Z, put out (File 31 "ELF") t)
  | _ => (2%Z, t)
  end.

Definition no_ps (argv : list string) (w : world) : exn + string :=
  inl (OtherError "ps: command not found").

Definition is_popen (e : event) : bool :=
  match e with EPopen _ _ => true | _ => false end.

(** A process table that shows the host process once it has been spawned. *)
Definition live_ps (argv : list string) (w : world) : exn + string :=
  inr (if existsb is_popen (w_trace w)
       then "user 4242 ./game_hot_reload.bin"
       else "user 1 /sbin/init").

(** [demo_tree] after a note was edited and a text file added: nothing that
    is tracked has changed. *)
Definition tree_notes_edited : node :=
  Dir 0 [("source", Dir 0 [("README.md", File 40 "r"); ("a.odin", File 10 "a");
                           ("notes.txt", File 41 "n2");
                           ("sub", Dir 0 [("b.odin", File 12 "b");
                                          ("c.odin", File 13 "c")])]);
         ("build", Dir 0 [("hot_reload", Dir 0 [("game.so", File 5 "old module")])]);
         ("exit_signal.tmp", File 20 "")].

(** A compiler that reports success without writing anything. *)
Definition lazy_odin (argv : list string) (t : node) : Z * node := (0%Z, t).

(** A process table in which only an editor has the executable's name on
    its command line. *)
Definition editor_ps (argv : list string) (w : world) : exn + string :=
  inr "user 77 vim notes/game_hot_reload.bin.txt".

(** [demo_tree] without the stop marker, and a world in step with it. *)
Definition tree_no_marker : node :=
  Dir 0 [("source", Dir 0 [("a.odin", File 10 "a"); ("notes.txt", File 11 "n");
                           ("sub", Dir 0 [("b.odin", File 12 "b");
                                          ("c.odin", File 13 "c")])]);
         ("build", Dir 0 [("hot_reload", Dir 0 [("game.so", File 5 "old module")])])].

Definition quiet_world : world := World tree_no_marker ∅ demo_snapshot [].

(** The same disk seen with an empty snapshot: every tracked file is new. *)
Definition unseen_world : world := World tree_no_marker ∅ ∅ [].

(** ** Start-up: [setup_environment] and [main]

    [mkdir_p] is [p.mkdir(parents=True, exist_ok=True)]; [now] is the time
    the operating system stamps on what is created.  The vendor directory
    [{ROOT}/vendor/raylib/linux] lies outside the working directory: its
    entries, in the order [glob] meets them, are a parameter (empty when the
    directory does not exist). *)

Fixpoint mkdir_p (now : Z) (p : path) (n : node) : exn + node :=
  match p with
  | [] =>
      match n with
      | Dir _ _ => inr n
      | File _ _ => inl (OtherError "FileExistsError")
      end
  | name :: rest =>
      match n with
      | File _ _ => inl NotADirectoryError
      | Dir m es =>
          match entry name es with
          | Some c =>
              match mkdir_p now rest c with
              | inl e => inl e
              | inr c' =>
                  inr (Dir m (map (λ e, if String.eqb e.1 name then (e.1, c') else e) es))
              end
          | None =>
              match mkdir_p now rest (Dir now []) with
              | inl e => inl e
              | inr c' => inr (Dir m (es ++ [(name, c')]))
              end
          end
      end
  end.

Definition mkdir (now : Z) (p : path) : M unit := λ w,
  match mkdir_p now p (w_tree w) with
  | inl e => Raise e w
  | inr t => Ok tt (set_tree t w)
  end.

(** [p.write_bytes(data)] *)
Definition write_bytes (now : Z) (p : path) (data : string) : M unit := λ w,
  match resolve (removelast p) (w_tree w) with
  | Some (Dir _ _) =>
      match resolve p (w_tree w) with
      | Some (Dir _ _) => Raise IsADirectoryError w
      | _ => Ok tt (set_tree (put p (File now data) (w_tree w)) w)
      end
  | Some (File _ _) => Raise NotADirectoryError w
  | None => Raise FileNotFoundError w
  end.

(** [fnmatch(name, "libraylib*.so*")] *)
Definition matches_raylib (name : string) : bool :=
  String.prefix "libraylib" name && str_contains ".so" (str_drop 9 name).

(** The loop [for file in raylib_files] of [setup_environment];
    [file.read_bytes()] raises on a directory. *)
Fixpoint stage_files (now : Z) (linux_dir : path) (raylib_files : list (string * node))
    : M unit :=
  match raylib_files with
  | [] => ret tt
  | (name, file) :: rest =>
      match file with
      | File _ data =>
          write_bytes now (linux_dir ++ [name]) data >>
          stage_files now linux_dir rest
      | Dir _ _ => raise IsADirectoryError
      end
  end.

Section Startup.

Variable platform_system : string.
Variable platform_machine : string.
Variable ROOT : string.
Variable vendor_linux : list (string * node).
Variable now : Z.
Variable odin : list string → node → Z * node.
Variable process_table : list string → world → exn + string.
Variable idle : node → node.

Definition setup_environment : M (string * string) :=
  let system := platform_system in
  let machine := platform_machine in
  if String.eqb system "Darwin" then
    let lib_path := if String.eqb machine "arm64" then "macos-arm66" else "macos" in
    let dll_ext := ".dylib" in
    let extra_linker_flags := "-Wl,-rpath " +:+ ROOT +:+ "/vendor/raylib/" +:+ lib_path in
    ret (dll_ext, extra_linker_flags)
  else
    let dll_ext := ".so" in
    let extra_linker_flags := "-Wl,-rpath=$ORIGIN/linux" in
    let linux_dir := OUT_DIR ++ ["linux"] in
    let! present := exists_ linux_dir in
    (if negb present then
       mkdir now linux_dir >>
       let raylib_files := filter (λ e, matches_raylib e.1 = true) vendor_linux in
       stage_files now linux_dir raylib_files
     else ret tt) >>
    ret (dll_ext, extra_linker_flags).

(** [main] up to the point where it enters the loop. *)
Definition startup : M (string * string) :=
  mkdir now OUT_DIR >>
  let! cfg := setup_environment in
  build_and_run_project platform_system odin process_table cfg.1 cfg.2 >>
  print "Populating initial file modification times..." >>
  populate_last_mtimes ["source"] >>
  print "Watching for changes in .odin files..." >>
  ret cfg.

(** [main], with the loop of [watch_for_changes] run for at most [fuel]
    turns. *)
Definition main (fuel : nat) (w : world) : option (outcome unit) :=
  match startup w with
  | Ok cfg w' =>
      watch_for_changes platform_system odin process_table idle fuel cfg.1 cfg.2 w'
  | Raise e w' => Some (Raise e w')
  end.

End Startup.

(** A vendor directory as Odin ships it, with a stray directory that the
    pattern does not match. *)
Definition demo_vendor : list (string * node) :=
  [("libraylib.a", File 1 "archive");
   ("libraylib.so", File 2 "so");
   ("libraylib.so.5.5.0", File 3 "so550");
   ("libraygui.so", File 4 "gui");
   ("docs", Dir 5 [])].

(** A vendor directory in which a directory matches the pattern. *)
Definition bad_vendor : list (string * node) :=
  [("libraylib.so", File 2 "so");
   ("libraylib.so.d", Dir 6 []);
   ("libraylib.so.5.5.0", File 3 "so550")].

(** ** The web build ([build_web.py])

    Every command of this script runs through the shell
    ([subprocess.run(..., shell=True)]), that is as [/bin/sh -c command].
    [sh] is what such a run does: from the command, the environment it is
    given and the tree, the exit status, what it prints on standard output
    and the tree it leaves.  The Emscripten directory
    ([os.path.expanduser("~/.emsdk")]), whether its [emsdk_env.sh] is a
    file, the absolute path of the working directory and the two [str]
    methods [splitlines] and [strip] are parameters. *)

Module Web.

(** [line.partition("=")] *)
Fixpoint partition_eq (before : string) (line : string) : option (string * string) :=
  match line with
  | EmptyString => None
  | String c rest =>
      if Ascii.eqb c "="%char then Some (String.rev before, rest)
      else partition_eq (String c before) rest
  end.

Definition partition (line : string) : string * string * string :=
  match partition_eq "" line with
  | Some (key, value) => (key, "=", value)
  | None => (line, "", "")
  end.

(** The loop [for line in result.stdout.splitlines()] of [main]. *)
Fixpoint load_env (lines : list string) (env : gmap string string)
    : gmap string string :=
  match lines with
  | [] => env
  | line :: rest =>
      let '(key, _, value) := partition line in
      load_env rest (<[key := value]> env)
  end.

Section Script.

Variable sh : string → gmap string string → node → Z * string * node.
Variable emsdk_dir : string.
Variable emsdk_script_is_file : bool.
Variable cwd : string.
Variable splitlines : string → list string.
Variable strip : string → string.
Variable now : Z.

(** [subprocess.run(command, shell=True, env=env, capture_output=True,
    text=True)]: the return code and the captured output. *)
Definition shell_run (command : string) (env : option (gmap string string))
    : M (Z * string) := λ w,
  let '(returncode, stdout, t) := sh command (default (w_environ w) env) (w_tree w) in
  Ok (returncode, stdout) (emit [ERun ["/bin/sh"; "-c"; command]] (set_tree t w)).

(** The same with [check=True]. *)
Definition shell_run_checked (command : string) (env : option (gmap string string))
    : M (Z * string) :=
  let! result := shell_run command env in
  if (result.1 =? 0)%Z then ret result else raise (CalledProcessError result.1).

Definition run_command (command : string) (env : option (gmap string string))
    : M (Z * string) :=
  let! result := shell_run_checked command env in
  ret result.

Definition odin_command : string :=
  "odin build source/main_web " +:+
  "-target:freestanding_wasm32 " +:+
  "-build-mode:obj " +:+
  "-define:RAYLIB_WASM_LIB=env.o " +:+
  "-vet -strict-style " +:+
  "-o:speed " +:+
  "-out:" +:+ "build/web" +:+ "/game".

Definition emcc_command (ODIN_PATH : string) : string :=
  let OUT_DIR := "build/web" in
  let files := ["source/main_web/main_web.c";
                OUT_DIR +:+ "/game.wasm.o";
                ODIN_PATH +:+ "/vendor/raylib/wasm/libraylib.a"] in
  let flags := ["-sUSE_GLFW=3";
                "-sMIN_WEBGL_VERSION=2";
                "-sMAX_WEBGL_VERSION=2";
                "-sASSERTIONS";
                "-sSINGLE_FILE";
                "--embed-file assets";
                "--shell-file source/main_web/index_template.html"] in
  let files_str := String.concat " " files in
  let flags_str := String.concat " " flags in
  "emcc -o " +:+ OUT_DIR +:+ "/index.html " +:+ files_str +:+ " " +:+ flags_str.

Definition main : M unit :=
  let CURRENT_DIR := cwd in
  let OUT_DIR := "build/web" in
  let EMSCRIPTEN_SDK_DIR := emsdk_dir in
  print ("Emscripten path: " +:+ EMSCRIPTEN_SDK_DIR) >>
  mkdir now (path_of_string OUT_DIR) >>
  let! env := environ_copy in
  let env := <["EMSDK_QUIET" := "1"]> env in
  let emsdk_env_script := EMSCRIPTEN_SDK_DIR +:+ "/emsdk_env.sh" in
  let! env :=
    (if emsdk_script_is_file then
       let command := "source " +:+ emsdk_env_script +:+ " && env" in
       let! result := shell_run command None in
       if (result.1 =? 0)%Z then ret (load_env (splitlines result.2) env)
       else ret env
     else ret env) in
  run_command odin_command None >>
  let odin_root_command := "odin root" in
  let! root := shell_run_checked odin_root_command None in
  let ODIN_PATH := strip root.2 in
  run_command (emcc_command ODIN_PATH) None >>
  let intermediate_file := OUT_DIR +:+ "/game.wasm.o" in
  let! present := exists_ (path_of_string intermediate_file) in
  (if present then unlink (path_of_string intermediate_file) else ret tt) >>
  let FILE := "file://" +:+ CURRENT_DIR +:+ "/" +:+ OUT_DIR +:+ "/index.html" in
  print ("Web build created in " +:+ OUT_DIR) >>
  print ("file: " +:+ FILE).

(** [main] in two halves, for stating what it does: up to the Odin build,
    and from there on. *)
Definition before_build : M unit :=
  print ("Emscripten path: " +:+ emsdk_dir) >>
  mkdir now ["build"; "web"] >>
  (if emsdk_script_is_file then
     shell_run ("source " +:+ (emsdk_dir +:+ "/emsdk_env.sh") +:+ " && env") None >>
     ret tt
   else ret tt).

Definition build_steps : M unit :=
  run_command odin_command None >>
  let! root := shell_run_checked "odin root" None in
  run_command (emcc_command (strip root.2)) None >>
  let! present := exists_ ["build"; "web"; "game.wasm.o"] in
  (if present then unlink ["build"; "web"; "game.wasm.o"] else ret tt) >>
  print "Web build created in build/web" >>
  print ("file: file://" +:+ cwd +:+ "/build/web/index.html").

End Script.

End Web.

Definition newline : string := String (Ascii.ascii_of_nat 10) "".

(** A shell in which every tool works: the Odin build leaves the object
    file, [emcc] the page. *)
Definition demo_sh (command : string) (env : gmap string string) (t : node)
    : Z * string * node :=
  if String.prefix "odin build" command then
    (0%Z, "", put ["build"; "web"; "game.wasm.o"] (File 60 "wasm object") t)
  else if String.prefix "odin root" command then (0%Z, "/opt/odin" +:+ newline, t)
  else if String.prefix "emcc" command then
    (0%Z, "", put ["build"; "web"; "index.html"] (File 61 "<html>") t)
  else (0%Z, "EMSDK=/home/dev/.emsdk" +:+ newline +:+
             "PATH=/home/dev/.emsdk:/usr/bin" +:+ newline, t).

(** The same shell with an Odin build that fails. *)
Definition broken_sh (command : string) (env : gmap string string) (t : node)
    : Z * string * node :=
  if String.prefix "odin build" command then (1%Z, "", t) else demo_sh command env t.

(** The same shell again, in which sourcing [emsdk_env.sh] prints something
    else. *)
Definition other_sh (command : string) (env : gmap string string) (t : node)
    : Z * string * node :=
  if String.prefix "source " command then (0%Z, "CC=emcc" +:+ newline, t)
  else demo_sh command env t.

(** A stand-in for [str.splitlines] and [str.strip] on the outputs above. *)
Fixpoint split_newline (cur : string) (s : string) : list string :=
  match s with
  | EmptyString => if String.eqb cur "" then [] else [String.rev cur]
  | String c rest =>
      if Ascii.eqb c (Ascii.ascii_of_nat 10) then String.rev cur :: split_newline "" rest
      else split_newline (String c cur) rest
  end.

Definition drop_newlines (s : string) : string :=
  String.concat "" (split_newline "" s).

(** ** The change detector: lemmas *)

Section Detector.

Variable stat : path → option Z.

Lemma changed_test (last_mtimes : gmap path Z) (p : path) (mtime : Z) :
  bool_decide (last_mtimes !! p = None) || bool_decide (last_mtimes !! p ≠ Some mtime)
  = bool_decide (last_mtimes !! p ≠ Some mtime).
Proof.
  destruct (last_mtimes !! p) as [m|] eqn:E.
  - rewrite (bool_decide_eq_false_2 (Some m = None)); [done | discriminate].
  - rewrite !bool_decide_eq_true_2; [done | discriminate | done].
Qed.

Lemma check_files_flat (root : path) (files : list string) (last_mtimes : gmap path Z) :
  check_files stat root files last_mtimes
  = check_paths stat (tracked_in root files) last_mtimes.
Proof.
  unfold tracked_in. revert last_mtimes.
  induction files as [|file rest IH]; intros lm; [done|].
  cbn [check_files]. destruct (endswith file ".odin") eqn:E; cbn [negb].
  - rewrite filter_cons_True by done. cbn [fmap list_fmap check_paths].
    destruct (stat (root ++ [file])) as [mtime|]; [|apply IH].
    cbn zeta. rewrite changed_test.
    destruct (bool_decide _); [done | apply IH].
  - rewrite filter_cons_False by (rewrite E; discriminate). apply IH.
Qed.

Lemma check_paths_app (ps qs : list path) (last_mtimes : gmap path Z) :
  check_paths stat (ps ++ qs) last_mtimes
  = let r := check_paths stat ps last_mtimes in
    if r.1.1 then r else check_paths stat qs r.1.2.
Proof.
  revert last_mtimes. induction ps as [|p ps IH]; intros lm; [done|].
  cbn [app check_paths]. destruct (stat p) as [mtime|]; [|apply IH].
  destruct (bool_decide _); [done | apply IH].
Qed.

Lemma check_dirs_flat (listing : list (path * list string * list string)) (last_mtimes : gmap path Z) :
  check_dirs stat listing last_mtimes
  = check_paths stat (tracked_paths listing) last_mtimes.
Proof.
  revert last_mtimes.
  induction listing as [|[[root dirs] files] rest IH]; intros lm; [done|].
  cbn [check_dirs tracked_paths flat_map]. rewrite check_paths_app.
  rewrite check_files_flat. cbn [fst snd].
  destruct (check_paths stat (tracked_in root files) lm) as [[[] lm'] out]; cbn.
  - done.
  - apply IH.
Qed.

(** A scan writes [stat p] under the key [p] or leaves the key alone. *)
Lemma check_paths_lookup (ps : list path) (last_mtimes : gmap path Z) (p : path) :
  (check_paths stat ps last_mtimes).1.2 !! p = last_mtimes !! p ∨
  (check_paths stat ps last_mtimes).1.2 !! p = stat p.
Proof.
  revert last_mtimes. induction ps as [|q ps IH]; intros lm; [by left|].
  cbn [check_paths]. destruct (stat q) as [mtime|] eqn:Eq.
  - destruct (bool_decide _); [|apply IH]. cbn.
    destruct (decide (q = p)) as [->|Hne].
    + right. by rewrite lookup_insert_eq.
    + left. by rewrite lookup_insert_ne.
  - destruct (IH (delete q lm)) as [H|H]; [|by right].
    rewrite H. destruct (decide (q = p)) as [->|Hne].
    + right. by rewrite lookup_delete_eq.
    + left. by rewrite lookup_delete_ne.
Qed.

Lemma stale_delete (last_mtimes : gmap path Z) (p q : path) :
  stat q = None → stale stat (delete q last_mtimes) p ↔ stale stat last_mtimes p.
Proof.
  intros Hq. unfold stale. split; intros (m & Hp & Hne); exists m; split; try done.
  - rewrite lookup_delete_ne in Hne; [done | congruence].
  - rewrite lookup_delete_ne; [done | congruence].
Qed.

Lemma check_paths_in_sync (ps : list path) (last_mtimes : gmap path Z) :
  in_sync stat ps last_mtimes →
  check_paths stat ps last_mtimes = (false, last_mtimes, []).
Proof.
  induction ps as [|q ps IH]; intros Hs; [done|].
  apply Forall_cons in Hs as [Hq Hrest].
  cbn [check_paths]. destruct (stat q) as [mtime|].
  - rewrite bool_decide_eq_false_2; [by apply IH | congruence].
  - rewrite delete_id by done. by apply IH.
Qed.

(** The scan answers [True] exactly when some tracked file is stale. *)
Lemma check_paths_true (ps : list path) (last_mtimes : gmap path Z) :
  (check_paths stat ps last_mtimes).1.1 = true ↔
  ∃ p, p ∈ ps ∧ stale stat last_mtimes p.
Proof.
  revert last_mtimes. induction ps as [|q ps IH]; intros lm.
  - cbn. split; [discriminate|]. intros (p & Hp & _). by apply elem_of_nil in Hp.
  - cbn [check_paths]. destruct (stat q) as [mtime|] eqn:Eq.
    + destruct (bool_decide (lm !! q ≠ Some mtime)) eqn:Eb.
      * cbn. split; [|done]. intros _. exists q. split; [left|].
        exists mtime. split; [done|]. by apply bool_decide_eq_true_1 in Eb.
      * apply bool_decide_eq_false_1 in Eb. rewrite IH.
        split; intros (p & Hp & Hst).
        -- exists p. split; [by right | done].
        -- apply elem_of_cons in Hp as [->|Hp]; [|by exists p].
           destruct Hst as (m & Hm & Hne). exfalso. apply Hne.
           destruct (decide (lm !! q = Some mtime)); [congruence | by destruct Eb].
    + rewrite IH. split; intros (p & Hp & Hst).
      * exists p. split; [by right|]. by apply (stale_delete lm p q).
      * apply elem_of_cons in Hp as [->|Hp].
        -- destruct Hst as (m & Hm & _). congruence.
        -- exists p. split; [done|]. by apply stale_delete.
Qed.

(** When the scan answers [True], exactly one stale file was committed and
    no other file that exists has its entry touched. *)
Lemma check_paths_trigger (ps : list path) (last_mtimes : gmap path Z) :
  (check_paths stat ps last_mtimes).1.1 = true →
  ∃ q, q ∈ ps ∧ stale stat last_mtimes q ∧
       (check_paths stat ps last_mtimes).1.2 !! q = stat q ∧
       ∀ p, is_Some (stat p) → p ≠ q →
            (check_paths stat ps last_mtimes).1.2 !! p = last_mtimes !! p.
Proof.
  revert last_mtimes. induction ps as [|q ps IH]; intros lm; [discriminate|].
  cbn [check_paths]. destruct (stat q) as [mtime|] eqn:Eq.
  - destruct (bool_decide (lm !! q ≠ Some mtime)) eqn:Eb.
    + intros _. exists q. apply bool_decide_eq_true_1 in Eb. cbn.
      split; [left|]. split; [by exists mtime|]. split.
      * by rewrite lookup_insert_eq.
      * intros p _ Hne. by rewrite lookup_insert_ne.
    + intros Ht. destruct (IH lm Ht) as (t & Ht1 & Ht2 & Ht3 & Ht4).
      exists t. split; [by right | done].
  - intros Ht. destruct (IH _ Ht) as (t & Ht1 & Ht2 & Ht3 & Ht4).
    exists t. split; [by right|]. split; [by apply (stale_delete lm t q)|].
    split; [done|]. intros p Hp Hne. rewrite Ht4 by done.
    rewrite lookup_delete_ne; [done|]. intros ->. rewrite Eq in Hp.
    by destruct Hp.
Qed.

(** Every inspected file that exists leaves the scan with its entry equal
    to its current modification time. *)
Lemma inspected_committed (ps : list path) (last_mtimes : gmap path Z) (p : path) (mtime : Z) :
  p ∈ inspected stat ps last_mtimes → stat p = Some mtime →
  (check_paths stat ps last_mtimes).1.2 !! p = Some mtime.
Proof.
  revert last_mtimes. induction ps as [|q ps IH]; intros lm Hin Hp.
  - by apply elem_of_nil in Hin.
  - cbn [inspected check_paths] in *. destruct (stat q) as [m|] eqn:Eq.
    + destruct (bool_decide (lm !! q ≠ Some m)) eqn:Eb.
      * apply list_elem_of_singleton in Hin as ->. cbn.
        rewrite lookup_insert_eq. congruence.
      * apply elem_of_cons in Hin as [->|Hin]; [|by apply IH].
        apply bool_decide_eq_false_1 in Eb.
        assert (lm !! q = Some m) as Hq
          by (destruct (decide (lm !! q = Some m)); [done | by destruct Eb]).
        destruct (check_paths_lookup ps lm q) as [H|H]; rewrite H; congruence.
    + apply elem_of_cons in Hin as [->|Hin]; [congruence | by apply IH].
Qed.

(** Every inspected file that has vanished leaves the scan without an
    entry. *)
Lemma inspected_vanished (ps : list path) (last_mtimes : gmap path Z) (p : path) :
  p ∈ inspected stat ps last_mtimes → stat p = None →
  (check_paths stat ps last_mtimes).1.2 !! p = None.
Proof.
  revert last_mtimes. induction ps as [|q ps IH]; intros lm Hin Hp.
  - by apply elem_of_nil in Hin.
  - cbn [inspected check_paths] in *. destruct (stat q) as [m|] eqn:Eq.
    + destruct (bool_decide (lm !! q ≠ Some m)) eqn:Eb.
      * apply list_elem_of_singleton in Hin as ->. congruence.
      * apply elem_of_cons in Hin as [->|Hin]; [congruence | by apply IH].
    + apply elem_of_cons in Hin as [->|Hin]; [|by apply IH].
      destruct (check_paths_lookup ps (delete q lm) q) as [H|H]; rewrite H.
      * apply lookup_delete_eq.
      * done.
Qed.

Lemma length_filter_shrinks {A} (P Q : A → Prop)
    `{∀ x, Decision (P x)} `{∀ x, Decision (Q x)} (l : list A) (x : A) :
  (∀ y, P y → Q y) → x ∈ l → Q x → ¬ P x →
  length (filter P l) < length (filter Q l).
Proof.
  intros HPQ. induction l as [|y l IH]; intros Hin HQ HP.
  - by apply elem_of_nil in Hin.
  - assert (Hle : length (filter P l) ≤ length (filter Q l)).
    { clear -HPQ. induction l as [|z l IH]; [done|].
      destruct (decide (P z)) as [Hz|Hz].
      - rewrite (filter_cons_True P) by done.
        rewrite (filter_cons_True Q) by auto. cbn. lia.
      - rewrite (filter_cons_False P) by done.
        destruct (decide (Q z)).
        + rewrite (filter_cons_True Q) by done. cbn. lia.
        + by rewrite (filter_cons_False Q). }
    apply elem_of_cons in Hin as [<-|Hin].
    + rewrite (filter_cons_False P) by done.
      rewrite (filter_cons_True Q) by done. cbn. lia.
    + specialize (IH Hin HQ HP). destruct (decide (P y)) as [Hy|Hy].
      * rewrite (filter_cons_True P) by done.
        rewrite (filter_cons_True Q) by auto. cbn. lia.
      * rewrite (filter_cons_False P) by done.
        destruct (decide (Q y)).
        -- rewrite (filter_cons_True Q) by done. cbn. lia.
        -- by rewrite (filter_cons_False Q).
Qed.

(** On an unchanging disk every stale tracked file is committed after
    finitely many scans, each of which answers [True]. *)
Lemma stale_eventually_committed (listing : list (path * list string * list string))
    (n : nat) (last_mtimes : gmap path Z) (p : path) :
  length (filter (stale stat last_mtimes) (tracked_paths listing)) ≤ n →
  p ∈ tracked_paths listing → stale stat last_mtimes p →
  ∃ k, 1 ≤ k ≤ n ∧
       (∀ j, j < k →
          (check_dirs stat listing (after_polls stat listing j last_mtimes)).1.1 = true) ∧
       after_polls stat listing k last_mtimes !! p = stat p.
Proof.
  revert last_mtimes. induction n as [|n IH]; intros lm Hlen Hin Hst.
  - exfalso. assert (p ∈ filter (stale stat lm) (tracked_paths listing)) as Hf
      by (by apply list_elem_of_filter).
    destruct (filter _ _); [by apply elem_of_nil in Hf | cbn in Hlen; lia].
  - assert (Ht : (check_paths stat (tracked_paths listing) lm).1.1 = true)
      by (apply check_paths_true; by exists p).
    destruct (check_paths_trigger _ _ Ht) as (q & Hq & Hqs & Hqc & Hoth).
    set (lm1 := (check_paths stat (tracked_paths listing) lm).1.2) in *.
    destruct (decide (p = q)) as [->|Hne].
    + exists 1. split; [lia|]. split.
      * intros j Hj. assert (j = 0) as -> by lia. cbn. by rewrite check_dirs_flat.
      * cbn. by rewrite check_dirs_flat.
    + assert (Hp1 : stale stat lm1 p).
      { destruct Hst as (m & Hm & Hlm). exists m. split; [done|].
        rewrite Hoth; [done | by rewrite Hm | done]. }
      assert (Hlt : length (filter (stale stat lm1) (tracked_paths listing))
                    < length (filter (stale stat lm) (tracked_paths listing))).
      { apply (length_filter_shrinks _ _ _ q); [|done|done|].
        - intros r (m & Hm & Hr). exists m. split; [done|].
          destruct (decide (r = q)) as [->|Hrq]; [congruence|].
          rewrite <- Hoth; [done | by rewrite Hm | done].
        - intros (m & Hm & Hr). congruence. }
      destruct (IH lm1) as (k & Hk & Htrue & Hfin); [lia | done | done |].
      exists (S k). split; [lia|]. split.
      * intros [|j] Hj; cbn [after_polls].
        -- by rewrite check_dirs_flat.
        -- rewrite (check_dirs_flat listing lm). apply Htrue. lia.
      * cbn [after_polls]. by rewrite (check_dirs_flat listing lm).
Qed.

End Detector.

(** What [check_for_changes] does to the world, in terms of the scan. *)
Lemma check_for_changes_scan (source_dir : path) (w : world) :
  let r := check_dirs (stat_mtime (w_tree w)) (os_walk (w_tree w) source_dir)
                      (w_last_mtimes w) in
  check_for_changes source_dir w
  = Ok r.1.1 (emit (EPrint <$> r.2) (set_last_mtimes r.1.2 w)).
Proof.
  unfold check_for_changes.
  by destruct (check_dirs _ _ _) as [[b lm] out].
Qed.

Lemma emit_nothing (w : world) : emit [] w = w.
Proof. destruct w. unfold emit. cbn. by rewrite app_nil_r. Qed.

Lemma set_last_mtimes_same (w : world) : set_last_mtimes (w_last_mtimes w) w = w.
Proof. by destruct w. Qed.

Lemma populate_files_flat (stat : path → option Z) (root : path)
    (files : list string) (acc : gmap path Z) :
  populate_files stat root files acc = populate_paths stat (tracked_in root files) acc.
Proof.
  unfold tracked_in. revert acc. induction files as [|file rest IH]; intros acc; [done|].
  cbn [populate_files]. destruct (endswith file ".odin") eqn:E.
  - rewrite filter_cons_True by done. cbn [fmap list_fmap populate_paths].
    destruct (stat (root ++ [file])); [apply IH | done].
  - rewrite filter_cons_False by (rewrite E; discriminate). apply IH.
Qed.

Lemma populate_paths_app (stat : path → option Z) (ps qs : list path)
    (acc : gmap path Z) :
  populate_paths stat (ps ++ qs) acc
  = match populate_paths stat ps acc with
    | Some acc' => populate_paths stat qs acc'
    | None => None
    end.
Proof.
  revert acc. induction ps as [|p ps IH]; intros acc; [done|].
  cbn [app populate_paths]. destruct (stat p); [apply IH | done].
Qed.

Lemma populate_dirs_flat (stat : path → option Z)
    (listing : list (path * list string * list string)) (acc : gmap path Z) :
  populate_dirs stat listing acc = populate_paths stat (tracked_paths listing) acc.
Proof.
  revert acc. induction listing as [|[[root dirs] files] rest IH]; intros acc; [done|].
  cbn [populate_dirs tracked_paths flat_map fst snd].
  rewrite populate_paths_app, populate_files_flat.
  destruct (populate_paths stat (tracked_in root files) acc); [apply IH | done].
Qed.

Lemma populate_paths_sound (stat : path → option Z) (ps : list path)
    (acc m : gmap path Z) :
  populate_paths stat ps acc = Some m →
  (∀ p, p ∈ ps → m !! p = stat p) ∧ (∀ p, p ∉ ps → m !! p = acc !! p).
Proof.
  revert acc. induction ps as [|q ps IH]; intros acc H.
  - injection H as <-. split; [|done]. intros p Hp. by apply elem_of_nil in Hp.
  - cbn [populate_paths] in H. destruct (stat q) as [mtime|] eqn:Eq; [|done].
    destruct (IH _ H) as [Hin Hout]. split.
    + intros p Hp. destruct (decide (p ∈ ps)) as [Hps|Hps]; [by apply Hin|].
      apply elem_of_cons in Hp as [->|Hp]; [|done].
      by rewrite (Hout _ Hps), lookup_insert_eq.
    + intros p Hp. apply not_elem_of_cons in Hp as [Hne Hps].
      by rewrite (Hout _ Hps), lookup_insert_ne.
Qed.

(** The snapshot that [populate_last_mtimes] takes agrees with the disk on
    every tracked file, and holds nothing else. *)
Lemma populate_in_sync (source_dir : path) (w w' : world) :
  populate_last_mtimes source_dir w = Ok tt w' →
  w_tree w' = w_tree w ∧
  in_sync (stat_mtime (w_tree w')) (tracked_paths (os_walk (w_tree w') source_dir))
          (w_last_mtimes w') ∧
  (∀ p, p ∉ tracked_paths (os_walk (w_tree w') source_dir) →
        w_last_mtimes w' !! p = None).
Proof.
  unfold populate_last_mtimes. rewrite populate_dirs_flat.
  destruct (populate_paths _ _ ∅) as [m|] eqn:E; [|done].
  intros [= <-]. cbn [w_tree w_last_mtimes set_last_mtimes].
  destruct (populate_paths_sound _ _ _ _ E) as [Hin Hout].
  split; [done|]. split; [by apply Forall_forall|].
  intros p Hp. by rewrite (Hout _ Hp).
Qed.

(** ** The change detector: the specification's properties *)

(** X24: the [except FileNotFoundError] branch (lines 135-137).  A file the
    walk lists and whose [stat] then raises [FileNotFoundError] has no entry
    in the snapshot when the scan returns; the branch does not set
    [changes_detected], so the answer of the scan is [True] exactly when
    some listed file that exists is new or modified. *)
Theorem vanished_file_dropped (stat : path → option Z)
    (listing : list (path * list string * list string))
    (last_mtimes : gmap path Z) (p : path) :
  p ∈ inspected stat (tracked_paths listing) last_mtimes →
  stat p = None →
  let r := check_dirs stat listing last_mtimes in
  r.1.2 !! p = None ∧
  (r.1.1 = true ↔ ∃ q, q ∈ tracked_paths listing ∧ stale stat last_mtimes q).
Proof.
  intros Hin Hp r. subst r. rewrite check_dirs_flat. split.
  - by apply inspected_vanished.
  - apply check_paths_true.
Qed.

Lemma vanished_file_dropped_witness :
  (check_dirs racy_stat racy_listing demo_snapshot).1.2 !! src_b = None ∧
  ((check_dirs racy_stat racy_listing demo_snapshot).1.1 = true ↔
   ∃ q, q ∈ tracked_paths racy_listing ∧ stale racy_stat demo_snapshot q).
Proof.
  apply (vanished_file_dropped racy_stat racy_listing demo_snapshot src_b).
  - vm_compute. repeat constructor.
  - vm_compute. reflexivity.
Defined.

(** The scan of the witness: the entry is dropped and the answer is
    [False]. *)
Example vanished_file_scan :
  check_dirs racy_stat racy_listing demo_snapshot
  = (false, delete src_b demo_snapshot, []).
Proof. vm_compute. reflexivity. Qed.

(** C1, at the input where the code misses it: [source/sub/b.odin] is in
    the snapshot and has been deleted from the disk.  The branch that is
    meant to handle deleted files (lines 135-137) is never reached, since
    the scan only visits the files the walk lists: the next
    [check_for_changes] answers [False] and leaves the world, the entry of
    the deleted file included, as it was. *)
Lemma deleted_file_unnoticed :
  stat_mtime tree_without_b src_b = None ∧
  w_last_mtimes world_after_delete !! src_b = Some 12%Z ∧
  check_for_changes ["source"] world_after_delete = Ok false world_after_delete.
Proof. vm_compute. repeat split. Qed.

(** X23: short-circuiting loses no addition and no modification (lines
    120-139).  Whether or not the scan stops at the first change, every file
    it inspected that exists has its snapshot entry equal to its current
    modification time when the scan returns; and a listed file that is new
    or modified at the time of a scan is not skipped: that scan answers
    [True], and either it committed the file or, the disk staying as it is,
    a later scan does, every scan up to that one answering [True]. *)
Theorem inspected_files_committed (stat : path → option Z)
    (listing : list (path * list string * list string))
    (last_mtimes : gmap path Z) :
  let r := check_dirs stat listing last_mtimes in
  (∀ p mtime, p ∈ inspected stat (tracked_paths listing) last_mtimes →
              stat p = Some mtime → r.1.2 !! p = Some mtime) ∧
  (∀ p, p ∈ tracked_paths listing → stale stat last_mtimes p →
        r.1.1 = true ∧
        (r.1.2 !! p = stat p ∨
         ∃ k, 1 ≤ k ∧
              (∀ j, j < k →
                 (check_dirs stat listing (after_polls stat listing j r.1.2)).1.1 = true) ∧
              after_polls stat listing k r.1.2 !! p = stat p)).
Proof.
  intros r. subst r. rewrite check_dirs_flat. split.
  - intros p mtime. apply inspected_committed.
  - intros p Hin Hst.
    assert (Ht : (check_paths stat (tracked_paths listing) last_mtimes).1.1 = true)
      by (apply check_paths_true; by exists p).
    split; [done|].
    destruct (check_paths_trigger _ _ _ Ht) as (q & Hq & Hqs & Hqc & Hoth).
    destruct (decide (p = q)) as [->|Hne]; [by left|]. right.
    set (lm1 := (check_paths stat (tracked_paths listing) last_mtimes).1.2) in *.
    assert (Hp1 : stale stat lm1 p).
    { destruct Hst as (m & Hm & Hlm). exists m. split; [done|].
      rewrite Hoth; [done | by rewrite Hm | done]. }
    destruct (stale_eventually_committed stat listing _ lm1 p (le_n _) Hin Hp1)
      as (k & Hk & Htrue & Hfin).
    exists k. split; [lia | done].
Qed.

Lemma inspected_files_committed_witness :
  let r := check_dirs (stat_mtime demo_tree) (os_walk demo_tree ["source"])
                      {[src_a := 10%Z]} in
  r.1.2 !! src_b = Some 12%Z ∧ r.1.1 = true.
Proof.
  destruct (inspected_files_committed (stat_mtime demo_tree)
              (os_walk demo_tree ["source"]) {[src_a := 10%Z]}) as [H1 H2].
  split.
  - apply (H1 src_b 12%Z).
    + vm_compute. repeat constructor.
    + vm_compute. reflexivity.
  - apply (H2 src_c).
    + vm_compute. repeat constructor.
    + exists 13%Z. split; vm_compute; [reflexivity | discriminate].
Defined.

(** C3, at the input where the code misses it: the deletion of a tracked
    file is a change that no poll reports.  With [source/sub/b.odin] in the
    snapshot and deleted from the disk, the scan answers [False], prints
    nothing and leaves the snapshot as it was; so however many scans
    follow, the snapshot is still the same, the entry of the deleted file
    is still there, and every one of those scans answers [False] again. *)
Lemma deletion_never_reported :
  let stat := stat_mtime tree_without_b in
  let listing := os_walk tree_without_b ["source"] in
  stat src_b = None ∧
  demo_snapshot !! src_b = Some 12%Z ∧
  check_dirs stat listing demo_snapshot = (false, demo_snapshot, []) ∧
  (∀ k, after_polls stat listing k demo_snapshot = demo_snapshot ∧
        (check_dirs stat listing (after_polls stat listing k demo_snapshot)).1.1
        = false).
Proof.
  cbn zeta.
  assert (H : check_dirs (stat_mtime tree_without_b) (os_walk tree_without_b ["source"])
                demo_snapshot = (false, demo_snapshot, []))
    by (vm_compute; reflexivity).
  split; [vm_compute; reflexivity|]. split; [vm_compute; reflexivity|].
  split; [exact H|].
  assert (Hk : ∀ k, after_polls (stat_mtime tree_without_b)
                      (os_walk tree_without_b ["source"]) k demo_snapshot
                    = demo_snapshot).
  { induction k as [|k IH]; [reflexivity|]. cbn [after_polls]. by rewrite H. }
  intros k. rewrite Hk. split; [reflexivity|]. by rewrite H.
Qed.

(** C4: when nothing on disk has changed since the snapshot was brought up
    to date (the snapshot agrees with the disk on every tracked file), two
    calls of [check_for_changes] in a row both answer [False], and each
    leaves the world, the snapshot included, exactly as it found it. *)
Theorem poll_twice_without_change (source_dir : path) (w : world) :
  in_sync (stat_mtime (w_tree w)) (tracked_paths (os_walk (w_tree w) source_dir))
          (w_last_mtimes w) →
  check_for_changes source_dir w = Ok false w ∧
  (let! first := check_for_changes source_dir in
   let! second := check_for_changes source_dir in
   ret (first, second)) w = Ok (false, false) w.
Proof.
  intros Hs.
  assert (H1 : check_for_changes source_dir w = Ok false w).
  { rewrite check_for_changes_scan. cbn zeta. rewrite check_dirs_flat.
    rewrite check_paths_in_sync by done. cbn.
    by rewrite set_last_mtimes_same, emit_nothing. }
  split; [done|]. unfold bind. by rewrite !H1.
Qed.

Lemma poll_twice_without_change_witness :
  check_for_changes ["source"] synced_world = Ok false synced_world ∧
  (let! first := check_for_changes ["source"] in
   let! second := check_for_changes ["source"] in
   ret (first, second)) synced_world = Ok (false, false) synced_world.
Proof.
  apply (poll_twice_without_change ["source"] synced_world).
  unfold in_sync. apply (bool_decide_unpack _). vm_compute. exact I.
Defined.

(** The first scan after [populate_last_mtimes] starts from such a
    snapshot. *)
Example populate_then_poll :
  populate_last_mtimes ["source"] fresh_world = Ok tt synced_world ∧
  check_for_changes ["source"] synced_world = Ok false synced_world.
Proof. vm_compute. by split. Qed.

(** A scan that meets one stale file, everything else being in sync,
    commits exactly that file. *)
Lemma check_paths_single (stat : path → option Z) (ps : list path)
    (last_mtimes : gmap path Z) (p : path) (mtime : Z) :
  p ∈ ps → stat p = Some mtime → last_mtimes !! p ≠ Some mtime →
  (∀ q, q ∈ ps → q ≠ p → last_mtimes !! q = stat q) →
  check_paths stat ps last_mtimes
  = (true, <[p := mtime]> last_mtimes, [detected_msg p]).
Proof.
  intros Hin Hp Hst. induction ps as [|q ps IH]; intros Hoth.
  - by apply elem_of_nil in Hin.
  - cbn [check_paths]. destruct (decide (q = p)) as [->|Hne].
    + rewrite Hp. by rewrite bool_decide_eq_true_2.
    + apply elem_of_cons in Hin as [->|Hin]; [done|].
      assert (Hq : last_mtimes !! q = stat q) by (apply Hoth; [left | done]).
      assert (Hrest : ∀ q', q' ∈ ps → q' ≠ p → last_mtimes !! q' = stat q')
        by (intros q' ? ?; apply Hoth; [by right | done]).
      destruct (stat q) as [m|].
      * rewrite bool_decide_eq_false_2 by congruence. by apply IH.
      * rewrite delete_id by done. by apply IH.
Qed.

(** C6, as the code has it: a tracked file that is on disk and absent from
    the snapshot makes [check_for_changes] answer [True]; when every other
    tracked file is in sync with the snapshot, that scan records the file's
    modification time and the next scan of the unchanged disk answers
    [False] and leaves the snapshot alone. *)
Theorem new_file_detected (stat : path → option Z)
    (listing : list (path * list string * list string))
    (last_mtimes : gmap path Z) (p : path) (mtime : Z) :
  p ∈ tracked_paths listing → stat p = Some mtime → last_mtimes !! p = None →
  let r := check_dirs stat listing last_mtimes in
  r.1.1 = true ∧
  ((∀ q, q ∈ tracked_paths listing → q ≠ p → last_mtimes !! q = stat q) →
   r.1.2 = <[p := mtime]> last_mtimes ∧
   check_dirs stat listing r.1.2 = (false, r.1.2, [])).
Proof.
  intros Hin Hp Hnew r. subst r. rewrite !check_dirs_flat.
  assert (Hst : last_mtimes !! p ≠ Some mtime) by (rewrite Hnew; discriminate).
  split.
  - apply check_paths_true. exists p. split; [done|]. by exists mtime.
  - intros Hoth. rewrite (check_paths_single stat _ _ p mtime) by done. cbn.
    split; [done|]. apply check_paths_in_sync.
    apply Forall_forall. intros q Hq. destruct (decide (q = p)) as [->|Hne].
    + by rewrite lookup_insert_eq.
    + rewrite lookup_insert_ne by done. by apply Hoth.
Qed.

Lemma new_file_detected_witness :
  let lm : gmap path Z := <[src_a := 10%Z]> {[src_b := 12%Z]} in
  let r := check_dirs (stat_mtime demo_tree) (os_walk demo_tree ["source"]) lm in
  r.1.1 = true ∧
  r.1.2 = <[src_c := 13%Z]> lm ∧
  check_dirs (stat_mtime demo_tree) (os_walk demo_tree ["source"]) r.1.2
  = (false, r.1.2, []).
Proof.
  intros lm.
  destruct (new_file_detected (stat_mtime demo_tree) (os_walk demo_tree ["source"])
              lm src_c 13%Z) as [H1 H2].
  - vm_compute. repeat constructor.
  - vm_compute. reflexivity.
  - vm_compute. reflexivity.
  - split; [exact H1|]. apply H2. intros q Hq Hne. vm_compute in Hq.
    repeat (apply elem_of_cons in Hq as [->|Hq]);
      first [ by apply elem_of_nil in Hq
            | (vm_compute; reflexivity)
            | (exfalso; apply Hne; reflexivity) ].
Defined.

(** C6 fails as stated: with two new files on disk, the scan answers [True]
    but records only the first; [source/sub/b.odin], on disk and absent from
    the snapshot before the scan, is still absent after it, and the next
    scan of the unchanged disk answers [True] again. *)
Lemma second_new_file_not_recorded :
  let o1 := check_for_changes ["source"] fresh_world in
  let o2 := check_for_changes ["source"] (world_of o1) in
  stat_mtime demo_tree src_b = Some 12%Z ∧
  w_last_mtimes fresh_world !! src_b = None ∧
  returned o1 = Some true ∧
  w_last_mtimes (world_of o1) !! src_b = None ∧
  returned o2 = Some true.
Proof. vm_compute. repeat split. Qed.

(** ** The file-system tree: lemmas *)

Lemma entry_filter_self (name : string) (es : list (string * node)) :
  entry name (filter (λ e, negb (String.eqb e.1 name)) es) = None.
Proof.
  induction es as [|[n c] es IH]; [done|].
  destruct (String.eqb n name) eqn:E.
  - rewrite filter_cons_False; [done|]. cbn. rewrite E. by intros [].
  - rewrite filter_cons_True by (cbn; by rewrite E). cbn. by rewrite E.
Qed.

Lemma entry_filter_other (name other : string) (es : list (string * node)) :
  other ≠ name →
  entry other (filter (λ e, negb (String.eqb e.1 name)) es) = entry other es.
Proof.
  intros Hne. induction es as [|[n c] es IH]; [done|].
  destruct (String.eqb n name) eqn:E.
  - rewrite filter_cons_False by (cbn; rewrite E; by intros []).
    cbn. apply String.eqb_eq in E as ->.
    destruct (String.eqb name other) eqn:E'; [|done].
    apply String.eqb_eq in E'. congruence.
  - rewrite filter_cons_True by (cbn; by rewrite E). cbn. by rewrite IH.
Qed.

Lemma entry_map_other (name other : string) (f : node → node)
    (es : list (string * node)) :
  other ≠ name →
  entry other (map (λ e, if String.eqb e.1 name then (e.1, f e.2) else e) es)
  = entry other es.
Proof.
  intros Hne. induction es as [|[n c] es IH]; [done|].
  cbn. destruct (String.eqb n name) eqn:E; cbn; rewrite IH; [|done].
  apply String.eqb_eq in E as ->.
  destruct (String.eqb name other) eqn:E'; [|done].
  apply String.eqb_eq in E'. congruence.
Qed.

Lemma entry_map_self (name : string) (f : node → node) (es : list (string * node)) :
  entry name (map (λ e, if String.eqb e.1 name then (e.1, f e.2) else e) es)
  = f <$> entry name es.
Proof.
  induction es as [|[n c] es IH]; [done|].
  cbn. destruct (String.eqb n name) eqn:E; cbn; by rewrite E.
Qed.

Lemma entry_app_other (name other : string) (c : node) (es : list (string * node)) :
  other ≠ name → entry other (es ++ [(name, c)]) = entry other es.
Proof.
  intros Hne. induction es as [|[n c'] es IH]; cbn.
  - destruct (String.eqb name other) eqn:E; [|done].
    apply String.eqb_eq in E. congruence.
  - by rewrite IH.
Qed.

(** After [unlink] the name is gone. *)
Lemma resolve_remove_self (name : string) (t : node) :
  resolve [name] (remove [name] t) = None.
Proof.
  destruct t as [|m es]; [done|]. cbn [remove resolve].
  by rewrite entry_filter_self.
Qed.

Lemma resolve_remove_other (name other : string) (rest q : path) (t : node) :
  other ≠ name → resolve (other :: q) (remove (name :: rest) t) = resolve (other :: q) t.
Proof.
  intros Hne. destruct t as [|m es]; [done|].
  destruct rest as [|r rs].
  - cbn [resolve remove]. by rewrite entry_filter_other.
  - change (remove (name :: r :: rs) (Dir m es))
      with (Dir m (map (λ e, if String.eqb e.1 name
                             then (e.1, remove (r :: rs) e.2) else e) es)).
    cbn [resolve]. by rewrite (entry_map_other name other (remove (r :: rs))).
Qed.

Lemma resolve_put_other (name other : string) (rest q : path) (c t : node) :
  other ≠ name → resolve (other :: q) (put (name :: rest) c t) = resolve (other :: q) t.
Proof.
  intros Hne. destruct t as [|m es]; [done|].
  destruct (entry name es) eqn:E.
  - replace (put (name :: rest) c (Dir m es))
      with (Dir m (map (λ e, if String.eqb e.1 name
                             then (e.1, put rest c e.2) else e) es))
      by (cbn [put]; by rewrite E).
    cbn [resolve]. by rewrite (entry_map_other name other (put rest c)).
  - destruct rest; cbn [put]; rewrite E; cbn [resolve];
      [by rewrite entry_app_other | done].
Qed.

Lemma prefix_cons_same (a : string) (p q : path) :
  (a :: p) `prefix_of` (a :: q) ↔ p `prefix_of` q.
Proof.
  split.
  - intros [k Hk]. exists k. by injection Hk.
  - intros [k ->]. by exists k.
Qed.

(** Writing at a path leaves alone every path apart from it. *)
Lemma resolve_put_apart (p q : path) (c t : node) :
  apart q p → resolve q (put p c t) = resolve q t.
Proof.
  revert q t. induction p as [|a r IH]; intros q t [H1 H2].
  - exfalso. apply H2. apply prefix_nil.
  - destruct q as [|b q']; [exfalso; apply H1, prefix_nil|].
    destruct (decide (b = a)) as [->|Hne]; [|by apply resolve_put_other].
    assert (Hap : apart q' r).
    { split; intros Hp; [apply H1 | apply H2]; by apply prefix_cons_same. }
    destruct t as [|m es]; [done|].
    destruct (entry a es) as [child|] eqn:E.
    + replace (put (a :: r) c (Dir m es))
        with (Dir m (map (λ e, if String.eqb e.1 a
                               then (e.1, put r c e.2) else e) es))
        by (cbn [put]; by rewrite E).
      cbn [resolve]. rewrite (entry_map_self a (put r c)), E. cbn. by apply IH.
    + destruct r; [|by cbn [put]; rewrite E].
      exfalso. destruct Hap as [_ Hp]. apply Hp, prefix_nil.
Qed.

(** ** The build driver and the process manager: lemmas *)

Lemma os_rename_error (src dst : path) (t : node) (e : exn) :
  os_rename src dst t = inl e →
  e = FileNotFoundError ∨ e = IsADirectoryError ∨ e = NotADirectoryError.
Proof.
  unfold os_rename. intros H.
  repeat match type of H with
         | context [match ?x with _ => _ end] => destruct x
         end; naive_solver.
Qed.

Lemma out_paths_build_cmd (dll_ext flags : string) :
  known_dll_ext dll_ext →
  out_paths (build_cmd dll_ext flags) = [OUT_DIR ++ ["game_tmp" +:+ dll_ext]].
Proof. by intros [-> | ->]. Qed.

Lemma out_paths_exe_cmd : out_paths exe_cmd = [[EXE]].
Proof. done. Qed.

Lemma str_length_app (s1 s2 : string) :
  String.length (s1 +:+ s2) = String.length s1 + String.length s2.
Proof. induction s1 as [|c s1 IH]; simpl; [done | by rewrite IH]. Qed.

Lemma apart_heads (a b : string) (p q : path) : a ≠ b → apart (a :: p) (b :: q).
Proof. intros Hne. split; intros [k Hk]; injection Hk; congruence. Qed.

Lemma apart_artifact_tmp (dll_ext : string) :
  apart (OUT_DIR ++ ["game" +:+ dll_ext]) (OUT_DIR ++ ["game_tmp" +:+ dll_ext]).
Proof.
  assert (Hne : "game" +:+ dll_ext ≠ "game_tmp" +:+ dll_ext).
  { intros H. apply (f_equal String.length) in H.
    rewrite !str_length_app in H. cbn in H. lia. }
  split; intros [k Hk]; cbn in Hk; injection Hk; congruence.
Qed.

Section Driver.

Variable platform_system : string.
Variable odin : list string → node → Z * node.
Variable process_table : list string → world → exn + string.

(** [build_dll], case by case. *)
Lemma build_dll_eq (dll_ext flags : string) (w : world) :
  build_dll odin dll_ext flags w =
  let r := odin (build_cmd dll_ext flags) (w_tree w) in
  let w1 := emit [ERun (build_cmd dll_ext flags)]
              (set_tree r.2 (emit [EPrint ("Building game" +:+ dll_ext)] w)) in
  if (r.1 =? 0)%Z then
    match os_rename (OUT_DIR ++ ["game_tmp" +:+ dll_ext])
                    (OUT_DIR ++ ["game" +:+ dll_ext]) r.2 with
    | inl e => Raise e w1
    | inr t => Ok true (set_tree t w1)
    end
  else Ok false (emit [EPrint "Shared library build failed."] w1).
Proof.
  unfold build_dll, bind, try_except, print, subprocess_run, rename, ret.
  cbn [w_tree emit set_tree].
  destruct (odin (build_cmd dll_ext flags) (w_tree w)) as [rc t] eqn:E.
  cbn [fst snd]. destruct (rc =? 0)%Z; [|reflexivity].
  unfold emit, set_tree. cbn [w_tree w_environ w_last_mtimes w_trace].
  destruct (os_rename _ _ t) as [e|t'] eqn:Er; [|reflexivity].
  destruct (os_rename_error _ _ _ _ Er) as [-> | [-> | ->]]; reflexivity.
Qed.

Lemma build_and_run_binary_eq (w : world) :
  build_and_run_binary odin w =
  let r := odin exe_cmd (w_tree w) in
  let w1 := emit [ERun exe_cmd]
              (set_tree r.2 (emit [EPrint ("Building " +:+ EXE)] w)) in
  if (r.1 =? 0)%Z then Ok true w1
  else Ok false (emit [EPrint "Executable build failed."] w1).
Proof.
  unfold build_and_run_binary, bind, try_except, print, subprocess_run, ret.
  cbn [w_tree emit set_tree].
  destruct (odin exe_cmd (w_tree w)) as [rc t].
  cbn [fst snd]. destruct (rc =? 0)%Z; reflexivity.
Qed.

Lemma is_binary_running_eq (w : world) :
  is_binary_running platform_system process_table w =
  let w1 := emit [ECheckOutput (listing_cmd platform_system)] w in
  match process_table (listing_cmd platform_system) w with
  | inl _ => Ok false w1
  | inr out => Ok (str_contains EXE out) w1
  end.
Proof.
  unfold is_binary_running, listing_cmd, try_except, bind, check_output, ret.
  destruct (String.eqb platform_system "Windows");
    destruct (process_table _ w); reflexivity.
Qed.

Lemma child_env_eq (environ : gmap string string) :
  <["LD_LIBRARY_PATH" :=
      str_of_path OUT_DIR +:+ "/linux:" +:+ default "" (environ !! "LD_LIBRARY_PATH")]>
    environ = child_env environ.
Proof. done. Qed.

Lemma run_binary_eq (w : world) :
  run_binary platform_system process_table w =
  match is_binary_running platform_system process_table w with
  | Ok false w1 =>
      Popen ["./" +:+ EXE] (child_env (w_environ w))
            (emit [EPrint ("Starting " +:+ EXE +:+ "...")] w1)
  | Ok true w1 => Ok tt (emit [EPrint ("Hot reloading " +:+ EXE +:+ "...")] w1)
  | Raise e w1 => Raise e w1
  end.
Proof.
  unfold run_binary at 1. unfold bind at 1.
  rewrite is_binary_running_eq. cbn zeta.
  destruct (process_table _ w) as [e|out]; [|destruct (str_contains EXE out)];
    cbn [negb]; unfold bind, print, environ_copy; reflexivity.
Qed.

Lemma Popen_trace (argv : list string) (env : gmap string string) (w : world) :
  w_trace (world_of (Popen argv env w)) = w_trace w ++ [EPopen argv env] ∧
  w_tree (world_of (Popen argv env w)) = w_tree w.
Proof. unfold Popen. by destruct (resolve _ (w_tree w)) as [[]|]. Qed.

(** [run_binary] only ever adds to the trace, and leaves the tree alone. *)
Lemma run_binary_effect (w : world) :
  (∃ tail, w_trace (world_of (run_binary platform_system process_table w))
           = w_trace w ++ tail) ∧
  w_tree (world_of (run_binary platform_system process_table w)) = w_tree w.
Proof.
  rewrite run_binary_eq, is_binary_running_eq. cbn zeta.
  destruct (process_table _ w) as [e|out]; [|destruct (str_contains EXE out)].
  - destruct (Popen_trace ["./" +:+ EXE] (child_env (w_environ w))
      (emit [EPrint ("Starting " +:+ EXE +:+ "...")]
         (emit [ECheckOutput (listing_cmd platform_system)] w))) as [-> ->].
    cbn. split; [|done]. eexists. by rewrite <- !app_assoc.
  - cbn. split; [|done]. eexists. by rewrite <- !app_assoc.
  - destruct (Popen_trace ["./" +:+ EXE] (child_env (w_environ w))
      (emit [EPrint ("Starting " +:+ EXE +:+ "...")]
         (emit [ECheckOutput (listing_cmd platform_system)] w))) as [-> ->].
    cbn. split; [|done]. eexists. by rewrite <- !app_assoc.
Qed.

(** What [build_dll] leaves behind when it returns. *)
Lemma build_dll_returns (dll_ext flags : string) (w w1 : world) (b : bool) :
  build_dll odin dll_ext flags w = Ok b w1 →
  w_trace w1 = w_trace w ++ [EPrint ("Building game" +:+ dll_ext);
                             ERun (build_cmd dll_ext flags)]
                         ++ (if b then [] else [EPrint "Shared library build failed."]) ∧
  (b = false →
   (odin (build_cmd dll_ext flags) (w_tree w)).1 ≠ 0%Z ∧
   w_tree w1 = (odin (build_cmd dll_ext flags) (w_tree w)).2).
Proof.
  rewrite build_dll_eq. cbn zeta.
  destruct (odin (build_cmd dll_ext flags) (w_tree w)) as [rc t]. cbn [fst snd].
  destruct (rc =? 0)%Z eqn:Erc.
  - destruct (os_rename _ _ t); [done|]. intros [= <- <-]. cbn.
    split; [by rewrite <- !app_assoc | done].
  - intros [= <- <-]. cbn. split; [by rewrite <- !app_assoc|].
    intros _. split; [|done]. by apply Z.eqb_neq.
Qed.

(** Once [build_dll] has returned, with whatever answer, the executable
    build is the next thing that happens. *)
Lemma project_trace (dll_ext flags : string) (w w1 : world) (b : bool) :
  build_dll odin dll_ext flags w = Ok b w1 →
  ∃ tail,
    w_trace (world_of (build_and_run_project platform_system odin process_table
                         dll_ext flags w))
    = w_trace w ++ [EPrint ("Building game" +:+ dll_ext);
                    ERun (build_cmd dll_ext flags)]
             ++ (if b then [] else [EPrint "Shared library build failed."])
             ++ [EPrint ("Building " +:+ EXE); ERun exe_cmd] ++ tail.
Proof.
  intros Hdll. destruct (build_dll_returns _ _ _ _ _ Hdll) as [Htr _].
  unfold build_and_run_project, bind. rewrite Hdll, build_and_run_binary_eq.
  cbn zeta. destruct (odin exe_cmd (w_tree w1)) as [rc t]. cbn [fst snd].
  destruct (rc =? 0)%Z; [destruct b|]; cbn [andb].
  - destruct (run_binary_effect
                (emit [ERun exe_cmd] (set_tree t (emit [EPrint ("Building " +:+ EXE)] w1))))
      as [[tail ->] _].
    exists tail. cbn. rewrite Htr. by rewrite <- !app_assoc.
  - exists []. cbn. rewrite Htr. by rewrite <- !app_assoc.
  - exists [EPrint "Executable build failed."]. rewrite andb_false_r.
    cbn. rewrite Htr. by rewrite <- !app_assoc.
Qed.

End Driver.

(** ** The build driver and the process manager: the specification's
    properties *)

(** C7: when the process-listing query raises, whatever the error,
    [is_binary_running] answers [False] instead of passing the error on, and
    [run_binary] goes on to start the host executable: after the failed
    query it prints the start line and calls [Popen]. *)
Theorem query_failure_means_spawn (platform_system : string)
    (process_table : list string → world → exn + string) (w : world) (e : exn) :
  process_table (listing_cmd platform_system) w = inl e →
  is_binary_running platform_system process_table w
  = Ok false (emit [ECheckOutput (listing_cmd platform_system)] w) ∧
  w_trace (world_of (run_binary platform_system process_table w))
  = w_trace w ++ [ECheckOutput (listing_cmd platform_system);
                  EPrint "Starting game_hot_reload.bin...";
                  EPopen ["./game_hot_reload.bin"] (child_env (w_environ w))].
Proof.
  intros He. rewrite run_binary_eq, is_binary_running_eq. cbn zeta. rewrite He.
  split; [done|].
  destruct (Popen_trace ["./" +:+ EXE] (child_env (w_environ w))
      (emit [EPrint ("Starting " +:+ EXE +:+ "...")]
         (emit [ECheckOutput (listing_cmd platform_system)] w))) as [-> _].
  cbn. by rewrite <- !app_assoc.
Qed.

Lemma query_failure_means_spawn_witness :
  is_binary_running "Linux" no_ps fresh_world
  = Ok false (emit [ECheckOutput ["ps"; "aux"]] fresh_world) ∧
  w_trace (world_of (run_binary "Linux" no_ps fresh_world))
  = [ECheckOutput ["ps"; "aux"];
     EPrint "Starting game_hot_reload.bin...";
     EPopen ["./game_hot_reload.bin"] (child_env ∅)].
Proof.
  apply (query_failure_means_spawn "Linux" no_ps fresh_world
           (OtherError "ps: command not found")).
  reflexivity.
Defined.

(** C8: [is_binary_running] always answers.  If it answers [False],
    [run_binary] prints the start line and starts [./game_hot_reload.bin]
    with a copy of the environment in which [LD_LIBRARY_PATH] is
    [build/hot_reload/linux:] followed by its previous value (nothing when
    it was unset) and every other variable is as it was.  If it answers
    [True], [run_binary] prints the reload line and does nothing else: no
    process is started. *)
Theorem run_binary_starts_once (platform_system : string)
    (process_table : list string → world → exn + string) (w : world) :
  let o := run_binary platform_system process_table w in
  (∃ b, is_binary_running platform_system process_table w
        = Ok b (emit [ECheckOutput (listing_cmd platform_system)] w)) ∧
  (∀ w1, is_binary_running platform_system process_table w = Ok false w1 →
         w_trace (world_of o)
         = w_trace w1 ++ [EPrint "Starting game_hot_reload.bin...";
                          EPopen ["./game_hot_reload.bin"] (child_env (w_environ w))] ∧
         child_env (w_environ w) !! "LD_LIBRARY_PATH"
         = Some ("build/hot_reload/linux:" +:+
                 default "" (w_environ w !! "LD_LIBRARY_PATH")) ∧
         (∀ var, var ≠ "LD_LIBRARY_PATH" →
                 child_env (w_environ w) !! var = w_environ w !! var) ∧
         w_environ (world_of o) = w_environ w) ∧
  (∀ w1, is_binary_running platform_system process_table w = Ok true w1 →
         o = Ok tt (emit [EPrint "Hot reloading game_hot_reload.bin..."] w1)).
Proof.
  intros o. subst o. rewrite run_binary_eq. split; [|split].
  - rewrite is_binary_running_eq. cbn zeta.
    destruct (process_table _ w); eauto.
  - intros w1 H1. rewrite H1.
    assert (Henv : w_environ w1 = w_environ w).
    { rewrite is_binary_running_eq in H1. cbn zeta in H1.
      destruct (process_table _ w); by simplify_eq. }
    destruct (Popen_trace ["./" +:+ EXE] (child_env (w_environ w))
                (emit [EPrint ("Starting " +:+ EXE +:+ "...")] w1)) as [-> _].
    cbn. split; [by rewrite <- !app_assoc|].
    split; [apply lookup_insert_eq|].
    split; [intros var Hvar; by apply lookup_insert_ne|].
    unfold Popen. by destruct (resolve _ _) as [[]|].
  - intros w1 H1. by rewrite H1.
Qed.

Lemma run_binary_starts_once_witness :
  w_trace (world_of (run_binary "Linux" live_ps
                       (World demo_tree {["LD_LIBRARY_PATH" := "/opt/lib"]} ∅ [])))
  = [ECheckOutput ["ps"; "aux"];
     EPrint "Starting game_hot_reload.bin...";
     EPopen ["./game_hot_reload.bin"]
            {["LD_LIBRARY_PATH" := "build/hot_reload/linux:/opt/lib"]}].
Proof.
  destruct (run_binary_starts_once "Linux" live_ps
              (World demo_tree {["LD_LIBRARY_PATH" := "/opt/lib"]} ∅ []))
    as (_ & H & _).
  destruct (H _ eq_refl) as (-> & _). vm_compute. reflexivity.
Defined.

(** C10, as amended: [build_and_run_project] does not make the executable
    build depend on the answer of the module build.  Whenever [build_dll]
    returns, with [True] or with [False], the trace of the whole call shows the module compiler run, the
    failure line when the answer was [False], and then the executable
    compiler run.  In particular, when the module compiler exits with a
    non-zero status, [build_dll] answers [False] and the call goes on
    exactly as [build_and_run_binary] does from there. *)
Theorem both_builds_attempted (platform_system : string)
    (odin : list string → node → Z * node)
    (process_table : list string → world → exn + string)
    (dll_ext flags : string) (w : world) :
  let o := build_and_run_project platform_system odin process_table dll_ext flags w in
  (∀ b w1, build_dll odin dll_ext flags w = Ok b w1 →
     ∃ tail,
       w_trace (world_of o)
       = w_trace w ++ [EPrint ("Building game" +:+ dll_ext);
                       ERun (build_cmd dll_ext flags)]
                ++ (if b then [] else [EPrint "Shared library build failed."])
                ++ [EPrint "Building game_hot_reload.bin"; ERun exe_cmd] ++ tail) ∧
  ((odin (build_cmd dll_ext flags) (w_tree w)).1 ≠ 0%Z →
     ∃ w1, build_dll odin dll_ext flags w = Ok false w1 ∧
           o = (build_and_run_binary odin >> ret tt) w1 ∧
           returned o = Some tt).
Proof.
  intros o. subst o. split.
  - intros b w1. apply project_trace.
  - intros Hrc. apply Z.eqb_neq in Hrc.
    pose proof (build_dll_eq odin dll_ext flags w) as Hdll.
    cbn zeta in Hdll. rewrite Hrc in Hdll.
    eexists. split; [exact Hdll|].
    match type of Hdll with _ = Ok false ?w1 =>
      assert (Ho : build_and_run_project platform_system odin process_table
                     dll_ext flags w
                   = (build_and_run_binary odin >> ret tt) w1)
    end.
    { unfold build_and_run_project, bind. rewrite Hdll.
      rewrite build_and_run_binary_eq. cbn zeta.
      destruct (odin exe_cmd _) as [rc t]. cbn [fst snd].
      destruct (rc =? 0)%Z; reflexivity. }
    rewrite Ho. split; [reflexivity|].
    unfold bind. rewrite build_and_run_binary_eq. cbn zeta.
    destruct (odin exe_cmd _) as [rc t]. cbn [fst snd].
    destruct (rc =? 0)%Z; reflexivity.
Qed.

Lemma both_builds_attempted_witness :
  ∃ tail,
    w_trace (world_of (build_and_run_project "Linux" flaky_odin live_ps
                         ".so" "-Wl,-rpath=$ORIGIN/linux" fresh_world))
    = [EPrint "Building game.so";
       ERun (build_cmd ".so" "-Wl,-rpath=$ORIGIN/linux");
       EPrint "Shared library build failed.";
       EPrint "Building game_hot_reload.bin"; ERun exe_cmd] ++ tail.
Proof.
  destruct (both_builds_attempted "Linux" flaky_odin live_ps
              ".so" "-Wl,-rpath=$ORIGIN/linux" fresh_world) as [H1 H2].
  destruct H2 as (w1 & Hdll & _); [vm_compute; discriminate|].
  destruct (H1 false w1 Hdll) as [tail H].
  exists tail. exact H.
Defined.

(** C10 as first stated, for every invocation, fails when [build_dll] does
    not return: the compiler exits with status 0 and leaves nothing at the
    temporary path, the rename raises [FileNotFoundError] (not caught at
    lines 52-58), and [build_and_run_project] ends with that exception.  Its
    whole trace is the banner and the module compiler run: the executable
    build was not invoked. *)
Lemma executable_build_not_reached :
  let o := build_and_run_project "Linux" lazy_odin live_ps ".so" "-Wl" fresh_world in
  (lazy_odin (build_cmd ".so" "-Wl") (w_tree fresh_world)).1 = 0%Z ∧
  returned (build_dll lazy_odin ".so" "-Wl" fresh_world) = None ∧
  returned o = None ∧
  w_trace (world_of o) = [EPrint "Building game.so"; ERun (build_cmd ".so" "-Wl")].
Proof. vm_compute. repeat split. Qed.

(** ** What a build cycle leaves alone *)

Lemma os_rename_keeps (a b other : string) (p q r : path) (t t' : node) :
  os_rename (a :: p) (b :: q) t = inr t' → other ≠ a → other ≠ b →
  resolve (other :: r) t' = resolve (other :: r) t.
Proof.
  unfold os_rename. intros H Ha Hb.
  assert (Ht : t' = put (b :: q) (default t (resolve (a :: p) t)) (remove (a :: p) t)).
  { repeat match type of H with
           | context [match ?x with _ => _ end] => destruct x
           end; by simplify_eq. }
  rewrite Ht, resolve_put_other by done. by apply resolve_remove_other.
Qed.

Section Cycle.

Variable platform_system : string.
Variable odin : list string → node → Z * node.
Variable process_table : list string → world → exn + string.
Hypothesis odin_contract : writes_only_outputs odin.

Lemma exe_build_keeps (q : path) (w : world) :
  apart q [EXE] →
  resolve q (w_tree (world_of (build_and_run_binary odin w))) = resolve q (w_tree w).
Proof.
  intros Hq. rewrite build_and_run_binary_eq. cbn zeta.
  assert (H : resolve q (odin exe_cmd (w_tree w)).2 = resolve q (w_tree w)).
  { apply odin_contract. rewrite out_paths_exe_cmd. by constructor. }
  by destruct (_ =? _)%Z.
Qed.

(** A build cycle does not touch the stop marker. *)
Lemma project_keeps_marker (dll_ext flags : string) (w : world) :
  known_dll_ext dll_ext →
  resolve [EXIT_SIGNAL_FILE]
    (w_tree (world_of (build_and_run_project platform_system odin process_table
                         dll_ext flags w)))
  = resolve [EXIT_SIGNAL_FILE] (w_tree w).
Proof.
  intros Hext.
  assert (Hdll : resolve [EXIT_SIGNAL_FILE]
                   (w_tree (world_of (build_dll odin dll_ext flags w)))
                 = resolve [EXIT_SIGNAL_FILE] (w_tree w)).
  { rewrite build_dll_eq. cbn zeta.
    assert (H : resolve [EXIT_SIGNAL_FILE] (odin (build_cmd dll_ext flags) (w_tree w)).2
                = resolve [EXIT_SIGNAL_FILE] (w_tree w)).
    { apply odin_contract. rewrite out_paths_build_cmd by done.
      constructor; [|done]. by apply apart_heads. }
    destruct (_ =? _)%Z; [|done].
    destruct (os_rename _ _ _) as [e|t'] eqn:Er; [done|].
    cbn [world_of w_tree set_tree emit].
    rewrite <- H. by apply (os_rename_keeps _ _ _ _ _ _ _ _ Er). }
  unfold build_and_run_project, bind.
  destruct (build_dll odin dll_ext flags w) as [b w1|e w1]; [|done].
  cbn [world_of] in Hdll. rewrite <- Hdll.
  pose proof (exe_build_keeps [EXIT_SIGNAL_FILE] w1) as Hexe.
  destruct (build_and_run_binary odin w1) as [b2 w2|e w2];
    [|by apply Hexe, apart_heads].
  cbn [world_of] in Hexe. rewrite <- Hexe by (by apply apart_heads).
  destruct (b && b2); [|done].
  by destruct (run_binary_effect platform_system process_table w2) as [_ ->].
Qed.

End Cycle.

(** C2: in a build cycle whose [build_dll] answers [False],
    [build_and_run_project] runs the executable build and then returns
    without entering [run_binary] (nothing is queried, printed or started
    after the executable build), and what the in-place path
    [build/hot_reload/game<ext>] names is what it named before the cycle.
    This rests on the compiler writing only where [-out:] points: the
    module is built at [game_tmp<ext>] and a failed build is never
    renamed. *)
Theorem build_failure_isolated (platform_system : string)
    (odin : list string → node → Z * node)
    (process_table : list string → world → exn + string)
    (dll_ext flags : string) (w w1 : world) :
  writes_only_outputs odin → known_dll_ext dll_ext →
  build_dll odin dll_ext flags w = Ok false w1 →
  ∃ w2 tail,
    build_and_run_project platform_system odin process_table dll_ext flags w
    = Ok tt w2 ∧
    (tail = [] ∨ tail = [EPrint "Executable build failed."]) ∧
    w_trace w2 = w_trace w ++ [EPrint ("Building game" +:+ dll_ext);
                               ERun (build_cmd dll_ext flags);
                               EPrint "Shared library build failed.";
                               EPrint "Building game_hot_reload.bin";
                               ERun exe_cmd] ++ tail ∧
    resolve (OUT_DIR ++ ["game" +:+ dll_ext]) (w_tree w2)
    = resolve (OUT_DIR ++ ["game" +:+ dll_ext]) (w_tree w).
Proof.
  intros Hodin Hext Hdll.
  destruct (build_dll_returns _ _ _ _ _ _ Hdll) as [Htr Hfail].
  destruct (Hfail eq_refl) as [_ Htree].
  assert (Hart1 : resolve (OUT_DIR ++ ["game" +:+ dll_ext]) (w_tree w1)
                  = resolve (OUT_DIR ++ ["game" +:+ dll_ext]) (w_tree w)).
  { rewrite Htree. apply Hodin. rewrite out_paths_build_cmd by done.
    constructor; [apply apart_artifact_tmp | done]. }
  assert (Hart2 : resolve (OUT_DIR ++ ["game" +:+ dll_ext])
                     (w_tree (world_of (build_and_run_binary odin w1)))
                   = resolve (OUT_DIR ++ ["game" +:+ dll_ext]) (w_tree w1))
    by (by apply exe_build_keeps, apart_heads).
  unfold build_and_run_project, bind. rewrite Hdll.
  rewrite build_and_run_binary_eq in *. cbn zeta in *.
  destruct (odin exe_cmd (w_tree w1)) as [rc t]. cbn [fst snd] in *.
  destruct (rc =? 0)%Z; cbn [andb].
  - eexists _, []. split; [reflexivity|]. split; [by left|]. split.
    + cbn. rewrite Htr. by rewrite <- !app_assoc.
    + cbn in *. by rewrite Hart2.
  - eexists _, [EPrint "Executable build failed."].
    split; [reflexivity|]. split; [by right|]. split.
    + cbn. rewrite Htr. by rewrite <- !app_assoc.
    + cbn in *. by rewrite Hart2.
Qed.

Lemma flaky_odin_contract : writes_only_outputs flaky_odin.
Proof.
  intros argv t q Hq. unfold flaky_odin.
  destruct (out_paths argv) as [|out [|]]; [done| |done].
  apply Forall_cons in Hq as [Hq _].
  destruct (bool_decide _); by apply resolve_put_apart.
Qed.


Lemma build_failure_isolated_witness :
  ∃ w2 tail,
    build_and_run_project "Linux" flaky_odin live_ps ".so" "-Wl" fresh_world
    = Ok tt w2 ∧
    (tail = [] ∨ tail = [EPrint "Executable build failed."]) ∧
    w_trace w2 = w_trace fresh_world ++
                 [EPrint ("Building game" +:+ ".so");
                  ERun (build_cmd ".so" "-Wl");
                  EPrint "Shared library build failed.";
                  EPrint "Building game_hot_reload.bin";
                  ERun exe_cmd] ++ tail ∧
    resolve (OUT_DIR ++ ["game" +:+ ".so"]) (w_tree w2)
    = resolve (OUT_DIR ++ ["game" +:+ ".so"]) (w_tree fresh_world).
Proof.
  apply (build_failure_isolated "Linux" flaky_odin live_ps ".so" "-Wl" fresh_world
           (world_of (build_dll flaky_odin ".so" "-Wl" fresh_world))).
  - exact flaky_odin_contract.
  - by left.
  - vm_compute. reflexivity.
Defined.

(** The failed build of the witness did leave a partial file at the
    temporary path, next to the untouched module. *)
Example partial_build_left_aside :
  let w2 := world_of (build_and_run_project "Linux" flaky_odin live_ps
                        ".so" "-Wl" fresh_world) in
  resolve ["build"; "hot_reload"; "game_tmp.so"] (w_tree w2) = Some (File 30 "partial") ∧
  resolve ["build"; "hot_reload"; "game.so"] (w_tree w2) = Some (File 5 "old module").
Proof. vm_compute. by split. Qed.

(** ** The watch loop: lemmas *)

Lemma stop_step_breaks (idle : node → node) (w1 : world) (mtime : Z) (data : string) :
  resolve [EXIT_SIGNAL_FILE] (w_tree w1) = Some (File mtime data) →
  stop_step idle w1
  = Ok true (set_tree (remove [EXIT_SIGNAL_FILE] (w_tree w1))
               (emit [EPrint "Exit signal detected. Exiting..."] w1)).
Proof.
  intros Hmark.
  unfold stop_step, bind, exists_, path_exists, print, unlink, ret.
  rewrite Hmark. rewrite bool_decide_eq_true_2 by eauto.
  cbn [w_tree emit]. by rewrite Hmark.
Qed.

Lemma marker_gone (w : world) :
  path_exists (remove [EXIT_SIGNAL_FILE] (w_tree w)) [EXIT_SIGNAL_FILE] = false.
Proof.
  unfold path_exists. rewrite resolve_remove_self.
  apply bool_decide_eq_false_2. by intros [? ?].
Qed.

(** ** The watch loop: the specification's properties *)

(** C5: when the stop marker is a file at the stop check of a turn of the
    loop, that turn prints the exit line, unlinks the marker and leaves the
    loop without sleeping: the loop returns in this turn, and afterwards the
    marker does not exist. *)
Theorem stop_marker_consumed (platform_system : string)
    (odin : list string → node → Z * node)
    (process_table : list string → world → exn + string) (idle : node → node)
    (dll_ext flags : string) (w w1 : world) (mtime : Z) (data : string) :
  rebuild_step platform_system odin process_table dll_ext flags w = Ok tt w1 →
  resolve [EXIT_SIGNAL_FILE] (w_tree w1) = Some (File mtime data) →
  let w2 := set_tree (remove [EXIT_SIGNAL_FILE] (w_tree w1))
              (emit [EPrint "Exit signal detected. Exiting..."] w1) in
  stop_step idle w1 = Ok true w2 ∧
  (∀ fuel, watch_for_changes platform_system odin process_table idle (S fuel)
             dll_ext flags w = Some (Ok tt w2)) ∧
  path_exists (w_tree w2) [EXIT_SIGNAL_FILE] = false ∧
  w_trace w2 = w_trace w1 ++ [EPrint "Exit signal detected. Exiting..."].
Proof.
  intros Hstep Hmark w2.
  assert (Hstop : stop_step idle w1 = Ok true w2)
    by (by apply stop_step_breaks with mtime data).
  split; [done|]. split; [|split].
  - intros fuel. cbn [watch_for_changes]. unfold watch_turn, bind.
    by rewrite Hstep, Hstop.
  - apply marker_gone.
  - done.
Qed.

Lemma stop_marker_consumed_witness :
  let w1 := synced_world in
  let w2 := set_tree (remove [EXIT_SIGNAL_FILE] (w_tree w1))
              (emit [EPrint "Exit signal detected. Exiting..."] w1) in
  stop_step id w1 = Ok true w2 ∧
  (∀ fuel, watch_for_changes "Linux" good_odin live_ps id (S fuel)
             ".so" "-Wl" synced_world = Some (Ok tt w2)) ∧
  path_exists (w_tree w2) [EXIT_SIGNAL_FILE] = false ∧
  w_trace w2 = w_trace w1 ++ [EPrint "Exit signal detected. Exiting..."].
Proof.
  apply (stop_marker_consumed "Linux" good_odin live_ps id ".so" "-Wl"
           synced_world synced_world 20%Z "").
  - vm_compute. reflexivity.
  - vm_compute. reflexivity.
Defined.



(** The trace of that turn, in full. *)
Example rebuild_then_stop_trace :
  (w_trace ∘ world_of) (watch_turn "Linux" good_odin live_ps id ".so" "-Wl" fresh_world)
  = [EPrint "Detected change in source/a.odin.";
     EPrint "Rebuilding due to detected changes...";
     EPrint "Building game.so";
     ERun (build_cmd ".so" "-Wl");
     EPrint "Building game_hot_reload.bin";
     ERun exe_cmd;
     ECheckOutput ["ps"; "aux"];
     EPrint "Starting game_hot_reload.bin...";
     EPopen ["./game_hot_reload.bin"] {["LD_LIBRARY_PATH" := "build/hot_reload/linux:"]};
     EPrint "Exit signal detected. Exiting..."].
Proof. vm_compute. reflexivity. Qed.

(** ** More on the change detector *)

(** A scan that answers [True] stopped at the first stale file in walk
    order: everything before it is in step with the disk or gone. *)
Lemma check_paths_first (stat : path → option Z) (ps : list path)
    (last_mtimes : gmap path Z) :
  (check_paths stat ps last_mtimes).1.1 = true →
  ∃ before q after,
    ps = before ++ q :: after ∧
    (∀ p, p ∈ before → ¬ stale stat last_mtimes p) ∧
    stale stat last_mtimes q ∧
    (check_paths stat ps last_mtimes).2 = [detected_msg q] ∧
    inspected stat ps last_mtimes = before ++ [q] ∧
    (check_paths stat ps last_mtimes).1.2 !! q = stat q ∧
    (∀ p, is_Some (stat p) → p ≠ q →
          (check_paths stat ps last_mtimes).1.2 !! p = last_mtimes !! p).
Proof.
  revert last_mtimes. induction ps as [|p ps IH]; intros lm; [discriminate|].
  cbn [check_paths inspected]. destruct (stat p) as [mtime|] eqn:Ep.
  - destruct (bool_decide (lm !! p ≠ Some mtime)) eqn:Eb.
    + intros _. exists [], p, ps. apply bool_decide_eq_true_1 in Eb.
      split; [done|]. split; [intros ? H; by apply elem_of_nil in H|].
      split; [by exists mtime|]. split; [done|]. split; [done|]. cbn. split.
      * by rewrite lookup_insert_eq.
      * intros p' _ Hne. by rewrite lookup_insert_ne.
    + intros Ht.
      destruct (IH lm Ht) as (before & q & after & -> & Hb & Hq & Hout & Hi & Hc & Ho).
      exists (p :: before), q, after. split; [done|].
      split; [|by rewrite Hi].
      intros p' Hp'. apply elem_of_cons in Hp' as [->|Hp']; [|by apply Hb].
      intros (m & Hm & Hne). apply bool_decide_eq_false_1 in Eb. apply Eb. congruence.
  - intros Ht.
    destruct (IH _ Ht) as (before & q & after & -> & Hb & Hq & Hout & Hi & Hc & Ho).
    exists (p :: before), q, after. split; [done|].
    split; [|split; [by apply (stale_delete stat lm q p)|]].
    + intros p' Hp'. apply elem_of_cons in Hp' as [->|Hp'].
      * intros (m & Hm & _). congruence.
      * intros Hst. apply (Hb p' Hp'). by apply stale_delete.
    + split; [done|]. split; [by rewrite Hi|]. split; [done|].
      intros p' Hs Hne. rewrite Ho by done. apply lookup_delete_ne.
      intros ->. rewrite Ep in Hs. by destruct Hs.
Qed.

Lemma check_paths_false_out (stat : path → option Z) (ps : list path)
    (last_mtimes : gmap path Z) :
  (check_paths stat ps last_mtimes).1.1 = false →
  (check_paths stat ps last_mtimes).2 = [] ∧
  inspected stat ps last_mtimes = ps.
Proof.
  revert last_mtimes. induction ps as [|p ps IH]; intros lm; [done|].
  cbn [check_paths inspected]. destruct (stat p) as [mtime|].
  - destruct (bool_decide _); [discriminate|]. intros H.
    destruct (IH lm H) as [-> ->]. done.
  - intros H. destruct (IH _ H) as [-> ->]. done.
Qed.

(** Entries of paths the listing does not show are never touched. *)
Lemma check_paths_unlisted (stat : path → option Z) (ps : list path)
    (last_mtimes : gmap path Z) (p : path) :
  p ∉ ps → (check_paths stat ps last_mtimes).1.2 !! p = last_mtimes !! p.
Proof.
  revert last_mtimes. induction ps as [|q ps IH]; intros lm Hp; [done|].
  apply not_elem_of_cons in Hp as [Hne Hp]. cbn [check_paths].
  destruct (stat q) as [mtime|].
  - destruct (bool_decide _); [|by apply IH]. cbn. by rewrite lookup_insert_ne.
  - rewrite IH by done. by rewrite lookup_delete_ne.
Qed.

Lemma check_paths_ext (stat1 stat2 : path → option Z) (ps : list path)
    (last_mtimes : gmap path Z) :
  (∀ p, p ∈ ps → stat1 p = stat2 p) →
  check_paths stat1 ps last_mtimes = check_paths stat2 ps last_mtimes.
Proof.
  revert last_mtimes. induction ps as [|q ps IH]; intros lm H; [done|].
  cbn [check_paths]. rewrite <- (H q) by left.
  assert (Hrest : ∀ p, p ∈ ps → stat1 p = stat2 p) by (intros p Hp; apply H; by right).
  destruct (stat1 q); [destruct (bool_decide _); [done|]|]; by apply IH.
Qed.

(** X1: modification detection (lines 127-134): a tracked file whose recorded
    modification time differs from the one on disk makes the scan answer
    [True]; when it is the only file out of step, the scan commits its new
    time, prints its line and changes nothing else. *)
Theorem modified_file_detected (stat : path → option Z)
    (listing : list (path * list string * list string))
    (last_mtimes : gmap path Z) (p : path) (old mtime : Z) :
  p ∈ tracked_paths listing → stat p = Some mtime →
  last_mtimes !! p = Some old → old ≠ mtime →
  (check_dirs stat listing last_mtimes).1.1 = true ∧
  ((∀ q, q ∈ tracked_paths listing → q ≠ p → last_mtimes !! q = stat q) →
   check_dirs stat listing last_mtimes
   = (true, <[p := mtime]> last_mtimes, [detected_msg p])).
Proof.
  intros Hin Hp Hold Hne. rewrite !check_dirs_flat.
  assert (Hst : last_mtimes !! p ≠ Some mtime) by congruence.
  split.
  - apply check_paths_true. exists p. split; [done|]. by exists mtime.
  - intros Hoth. by apply check_paths_single.
Qed.

Lemma modified_file_detected_witness :
  check_dirs (stat_mtime demo_tree) (os_walk demo_tree ["source"])
             (<[src_b := 7%Z]> demo_snapshot)
  = (true, <[src_b := 12%Z]> (<[src_b := 7%Z]> demo_snapshot),
     ["Detected change in source/sub/b.odin."]).
Proof.
  destruct (modified_file_detected (stat_mtime demo_tree) (os_walk demo_tree ["source"])
              (<[src_b := 7%Z]> demo_snapshot) src_b 7%Z 12%Z) as [_ H].
  - vm_compute. repeat constructor.
  - vm_compute. reflexivity.
  - vm_compute. reflexivity.
  - discriminate.
  - apply H. intros q Hq Hne. vm_compute in Hq.
    repeat (apply elem_of_cons in Hq as [->|Hq]);
      first [ by apply elem_of_nil in Hq
            | (vm_compute; reflexivity)
            | (exfalso; apply Hne; reflexivity) ].
Defined.

(** X2: what one scan reports (lines 118-141).  It answers [True] exactly when
    some listed tracked file is stale.  When it answers [False] it prints
    nothing, has inspected every tracked file and leaves the entry of every
    file that exists as it was.  When it answers [True] it stopped at the
    first stale file in walk order: that one file is committed, its line is
    the only line printed, the files before it were inspected and found in
    step, and no other existing file has its entry touched. *)
Theorem scan_reports_first_change (stat : path → option Z)
    (listing : list (path * list string * list string))
    (last_mtimes : gmap path Z) :
  let r := check_dirs stat listing last_mtimes in
  (r.1.1 = true ↔ ∃ p, p ∈ tracked_paths listing ∧ stale stat last_mtimes p) ∧
  (r.1.1 = false →
     r.2 = [] ∧
     inspected stat (tracked_paths listing) last_mtimes = tracked_paths listing ∧
     ∀ p, is_Some (stat p) → r.1.2 !! p = last_mtimes !! p) ∧
  (r.1.1 = true →
     ∃ before q after,
       tracked_paths listing = before ++ q :: after ∧
       (∀ p, p ∈ before → ¬ stale stat last_mtimes p) ∧
       stale stat last_mtimes q ∧
       r.2 = [detected_msg q] ∧
       inspected stat (tracked_paths listing) last_mtimes = before ++ [q] ∧
       r.1.2 !! q = stat q ∧
       (∀ p, is_Some (stat p) → p ≠ q → r.1.2 !! p = last_mtimes !! p)).
Proof.
  intros r. subst r. rewrite check_dirs_flat. split; [apply check_paths_true|].
  split; [|apply check_paths_first].
  intros Hf. destruct (check_paths_false_out _ _ _ Hf) as [Hout Hins].
  split; [done|]. split; [done|]. intros p [m Hm].
  destruct (decide (p ∈ tracked_paths listing)) as [Hin|Hin];
    [|by apply check_paths_unlisted].
  destruct (check_paths_lookup stat (tracked_paths listing) last_mtimes p) as [H|H];
    [done|].
  rewrite H, Hm. destruct (decide (last_mtimes !! p = Some m)) as [Heq|Hne]; [done|].
  assert ((check_paths stat (tracked_paths listing) last_mtimes).1.1 = true) as Ht
    by (apply check_paths_true; exists p; split; [done | by exists m]).
  congruence.
Qed.

Lemma scan_reports_first_change_witness :
  let r := check_dirs (stat_mtime demo_tree) (os_walk demo_tree ["source"])
                      {[src_a := 10%Z]} in
  ∃ before q after,
    tracked_paths (os_walk demo_tree ["source"]) = before ++ q :: after ∧
    r.2 = [detected_msg q] ∧ r.1.2 !! q = stat_mtime demo_tree q.
Proof.
  destruct (scan_reports_first_change (stat_mtime demo_tree)
              (os_walk demo_tree ["source"]) {[src_a := 10%Z]}) as (_ & _ & H).
  destruct H as (before & q & after & H1 & _ & _ & H4 & _ & H6 & _).
  - vm_compute. reflexivity.
  - by exists before, q, after.
Defined.

(** X3: files without the [.odin] suffix do not matter (lines 122-123), nor
    does anything [stat] would say about other paths: two listings with the
    same tracked files, and two disks that agree on those files, give the
    same answer, the same snapshot and the same output. *)
Theorem untracked_files_ignored (stat1 stat2 : path → option Z)
    (listing1 listing2 : list (path * list string * list string))
    (last_mtimes : gmap path Z) :
  tracked_paths listing1 = tracked_paths listing2 →
  (∀ p, p ∈ tracked_paths listing1 → stat1 p = stat2 p) →
  check_dirs stat1 listing1 last_mtimes = check_dirs stat2 listing2 last_mtimes.
Proof.
  intros Hl Hs. rewrite !check_dirs_flat, <- Hl. by apply check_paths_ext.
Qed.

Lemma untracked_files_ignored_witness :
  check_dirs (stat_mtime demo_tree) (os_walk demo_tree ["source"]) {[src_a := 10%Z]}
  = check_dirs (stat_mtime tree_notes_edited) (os_walk tree_notes_edited ["source"])
               {[src_a := 10%Z]}.
Proof.
  apply untracked_files_ignored.
  - vm_compute. reflexivity.
  - intros q Hq. vm_compute in Hq.
    repeat (apply elem_of_cons in Hq as [->|Hq]);
      first [ by apply elem_of_nil in Hq | (vm_compute; reflexivity) ].
Defined.

(** X4: the scan only ever writes or drops entries of files the walk lists
    (lines 120-137): the entry of any other path survives every scan.  So
    the entry of a file that was deleted before a scan, and is therefore not
    listed, stays in the snapshot however often the loop polls. *)
Theorem unlisted_entry_persists (stat : path → option Z)
    (listing : list (path * list string * list string)) (k : nat)
    (last_mtimes : gmap path Z) (p : path) :
  p ∉ tracked_paths listing →
  after_polls stat listing k last_mtimes !! p = last_mtimes !! p.
Proof.
  intros Hp. revert last_mtimes. induction k as [|k IH]; intros lm; [done|].
  cbn [after_polls]. rewrite IH, check_dirs_flat. by apply check_paths_unlisted.
Qed.

Lemma unlisted_entry_persists_witness :
  after_polls (stat_mtime tree_without_b) (os_walk tree_without_b ["source"]) 5
              demo_snapshot !! src_b = Some 12%Z.
Proof.
  rewrite (unlisted_entry_persists (stat_mtime tree_without_b)
             (os_walk tree_without_b ["source"]) 5 demo_snapshot src_b).
  - vm_compute. reflexivity.
  - apply (bool_decide_unpack _). vm_compute. exact I.
Defined.

(** X5: on a disk that no longer changes the scans settle (lines 130-134: each
    scan that answers [True] commits one stale file): after at most as many
    scans as there are stale tracked paths, all of which answer [True], the
    next scan answers [False]. *)
Theorem polls_settle (stat : path → option Z)
    (listing : list (path * list string * list string))
    (last_mtimes : gmap path Z) :
  ∃ k, k ≤ length (filter (stale stat last_mtimes) (tracked_paths listing)) ∧
       (∀ j, j < k →
          (check_dirs stat listing (after_polls stat listing j last_mtimes)).1.1 = true) ∧
       (check_dirs stat listing (after_polls stat listing k last_mtimes)).1.1 = false.
Proof.
  remember (length (filter (stale stat last_mtimes) (tracked_paths listing))) as n eqn:Hn.
  assert (Hle : length (filter (stale stat last_mtimes) (tracked_paths listing)) ≤ n)
    by lia.
  clear Hn. revert last_mtimes Hle. induction n as [|n IH]; intros lm Hle.
  - exists 0. split; [lia|]. split; [intros j Hj; lia|]. cbn [after_polls].
    rewrite check_dirs_flat.
    destruct (check_paths stat (tracked_paths listing) lm).1.1 eqn:E; [|done].
    apply check_paths_true in E as (p & Hp & Hst).
    assert (p ∈ filter (stale stat lm) (tracked_paths listing)) as Hf
      by (by apply list_elem_of_filter).
    destruct (filter _ _); [by apply elem_of_nil in Hf | cbn in Hle; lia].
  - destruct (check_paths stat (tracked_paths listing) lm).1.1 eqn:E.
    + destruct (check_paths_trigger _ _ _ E) as (q & Hq & Hqs & Hqc & Hoth).
      set (lm1 := (check_paths stat (tracked_paths listing) lm).1.2) in *.
      assert (Hlt : length (filter (stale stat lm1) (tracked_paths listing))
                    < length (filter (stale stat lm) (tracked_paths listing))).
      { apply (length_filter_shrinks _ _ _ q); [|done|done|].
        - intros r (m & Hm & Hr). exists m. split; [done|].
          destruct (decide (r = q)) as [->|Hrq]; [congruence|].
          rewrite <- Hoth; [done | by rewrite Hm | done].
        - intros (m & Hm & Hr). congruence. }
      destruct (IH lm1) as (k & Hk & Htrue & Hfalse); [lia|].
      exists (S k). split; [lia|]. split.
      * intros [|j] Hj; cbn [after_polls].
        -- by rewrite check_dirs_flat.
        -- rewrite (check_dirs_flat stat listing lm). apply Htrue. lia.
      * cbn [after_polls]. by rewrite (check_dirs_flat stat listing lm).
    + exists 0. split; [lia|]. split; [intros j Hj; lia|]. cbn [after_polls].
      by rewrite check_dirs_flat.
Qed.

Lemma populate_paths_fails (stat : path → option Z) (ps : list path)
    (acc : gmap path Z) :
  populate_paths stat ps acc = None ↔ ∃ p, p ∈ ps ∧ stat p = None.
Proof.
  revert acc. induction ps as [|q ps IH]; intros acc; cbn [populate_paths].
  - split; [done|]. intros (p & Hp & _). by apply elem_of_nil in Hp.
  - destruct (stat q) as [m|] eqn:Eq.
    + rewrite IH. split; intros (p & Hp & Hs).
      * exists p. split; [by right | done].
      * apply elem_of_cons in Hp as [->|Hp]; [congruence | by exists p].
    + split; [|done]. intros _. exists q. split; [left | done].
Qed.

(** X6: [populate_last_mtimes] (lines 104-112) and the first scan after it.
    When it returns it has touched nothing but the snapshot, which now
    holds exactly the tracked files with their current times, whatever it
    held before; a scan of the same disk then answers [False] and changes
    nothing. *)
Theorem populate_then_quiet (source_dir : path) (w w' : world) :
  populate_last_mtimes source_dir w = Ok tt w' →
  w' = set_last_mtimes (w_last_mtimes w') w ∧
  (∀ p, w_last_mtimes w' !! p
        = if decide (p ∈ tracked_paths (os_walk (w_tree w) source_dir))
          then stat_mtime (w_tree w) p else None) ∧
  (∀ p, p ∈ tracked_paths (os_walk (w_tree w) source_dir) →
        is_Some (w_last_mtimes w' !! p)) ∧
  check_for_changes source_dir w' = Ok false w'.
Proof.
  intros H. destruct (populate_in_sync _ _ _ H) as (Htree & Hsync & Hout).
  assert (Hw : w' = set_last_mtimes (w_last_mtimes w') w).
  { unfold populate_last_mtimes in H.
    destruct (populate_dirs _ _ ∅); by simplify_eq. }
  split; [done|].
  assert (Hquiet : check_for_changes source_dir w' = Ok false w').
  { rewrite check_for_changes_scan. cbn zeta. rewrite check_dirs_flat.
    rewrite check_paths_in_sync by done.
    cbn. by rewrite set_last_mtimes_same, emit_nothing. }
  rewrite Htree in Hsync, Hout. split; [|split; [|done]].
  - intros p. destruct (decide _) as [Hin|Hin]; [|by apply Hout].
    unfold in_sync in Hsync. rewrite Forall_forall in Hsync. by apply Hsync.
  - intros p Hin. unfold in_sync in Hsync. rewrite Forall_forall in Hsync.
    rewrite (Hsync p Hin).
    destruct (stat_mtime (w_tree w) p) eqn:Ep; [done|]. exfalso.
    unfold populate_last_mtimes in H. rewrite populate_dirs_flat in H.
    assert (populate_paths (stat_mtime (w_tree w))
              (tracked_paths (os_walk (w_tree w) source_dir)) ∅ = None) as E
      by (apply populate_paths_fails; by exists p).
    by rewrite E in H.
Qed.

Lemma populate_then_quiet_witness :
  check_for_changes ["source"]
    (world_of (populate_last_mtimes ["source"]
                 (World demo_tree ∅ {[["stale"; "key.odin"] := 1%Z]} [])))
  = Ok false synced_world.
Proof.
  destruct (populate_then_quiet ["source"]
              (World demo_tree ∅ {[["stale"; "key.odin"] := 1%Z]} []) synced_world)
    as (_ & _ & _ & H).
  - vm_compute. reflexivity.
  - exact H.
Defined.

(** X7: unlike the scan, [populate_last_mtimes] does not catch
    [FileNotFoundError] (lines 107-112): it raises exactly when some listed
    tracked file cannot be [stat]ed, and then the global snapshot is left as
    it was, since it is only assigned once the whole comprehension has been
    evaluated. *)
Theorem populate_raises_iff_vanished (stat : path → option Z)
    (listing : list (path * list string * list string)) :
  populate_dirs stat listing ∅ = None ↔
  ∃ p, p ∈ tracked_paths listing ∧ stat p = None.
Proof. rewrite populate_dirs_flat. apply populate_paths_fails. Qed.

Lemma populate_raises_iff_vanished_witness :
  populate_dirs racy_stat racy_listing ∅ = None.
Proof.
  apply (populate_raises_iff_vanished racy_stat racy_listing).
  exists src_b. split; [vm_compute; repeat constructor | vm_compute; reflexivity].
Defined.

(** ** More on the file-system tree *)

Lemma resolve_app (p q : path) (t : node) :
  resolve (p ++ q) t = resolve p t ≫= resolve q.
Proof.
  revert t. induction p as [|a p IH]; intros t; [done|].
  cbn [app resolve]. destruct t as [|m es]; [done|].
  destruct (entry a es); [apply IH | done].
Qed.

Lemma entry_app_new (name : string) (c : node) (es : list (string * node)) :
  entry name es = None → entry name (es ++ [(name, c)]) = Some c.
Proof.
  induction es as [|[n c'] es IH]; cbn.
  - by rewrite String.eqb_refl.
  - destruct (String.eqb n name); [done | exact IH].
Qed.

Lemma remove_cons2 (a b : string) (rest : path) (m : Z) (es : list (string * node)) :
  remove (a :: b :: rest) (Dir m es)
  = Dir m (map (λ e, if String.eqb e.1 a then (e.1, remove (b :: rest) e.2) else e) es).
Proof. reflexivity. Qed.

Lemma put_cons_found (a : string) (rest : path) (c child : node) (m : Z)
    (es : list (string * node)) :
  entry a es = Some child →
  put (a :: rest) c (Dir m es)
  = Dir m (map (λ e, if String.eqb e.1 a then (e.1, put rest c e.2) else e) es).
Proof. intros E. cbn [put]. by rewrite E. Qed.

(** What was removed is gone. *)
Lemma resolve_remove_same (p : path) (t : node) :
  p ≠ [] → resolve p (remove p t) = None.
Proof.
  revert t. induction p as [|a [|b rest] IH]; intros t Hp; [done| |].
  - apply resolve_remove_self.
  - destruct t as [|m es]; [done|]. rewrite remove_cons2.
    cbn [resolve]. rewrite (entry_map_self a (remove (b :: rest))).
    destruct (entry a es) as [child|]; [|done]. cbn. by apply IH.
Qed.

(** Removing a path leaves alone every path apart from it. *)
Lemma resolve_remove_apart (p q : path) (t : node) :
  apart q p → resolve q (remove p t) = resolve q t.
Proof.
  revert q t. induction p as [|a r IH]; intros q t [H1 H2].
  - exfalso. apply H2, prefix_nil.
  - destruct q as [|b q']; [exfalso; apply H1, prefix_nil|].
    destruct (decide (b = a)) as [->|Hne]; [|by apply resolve_remove_other].
    assert (Hap : apart q' r).
    { split; intros Hp; [apply H1 | apply H2]; by apply prefix_cons_same. }
    destruct t as [|m es]; [done|].
    destruct r as [|c r']; [exfalso; destruct Hap as [_ Hp]; apply Hp, prefix_nil|].
    rewrite remove_cons2. cbn [resolve].
    rewrite (entry_map_self a (remove (c :: r'))).
    destruct (entry a es) as [child|]; [|done]. cbn. by apply IH.
Qed.

(** What was put is there, provided the parent is a directory. *)
Lemma resolve_put_same (p : path) (c t : node) (m : Z) (es : list (string * node)) :
  p ≠ [] → resolve (removelast p) t = Some (Dir m es) →
  resolve p (put p c t) = Some c.
Proof.
  revert t m es. induction p as [|a [|b rest] IH]; intros t m es Hp Hpar; [done| |].
  - cbn in Hpar. injection Hpar as ->.
    destruct (entry a es) as [child|] eqn:E.
    + rewrite (put_cons_found _ _ _ _ _ _ E). cbn [resolve].
      by rewrite (entry_map_self a (put [] c)), E.
    + cbn [put]. rewrite E. cbn [resolve]. by rewrite entry_app_new.
  - change (removelast (a :: b :: rest)) with (a :: removelast (b :: rest)) in Hpar.
    destruct t as [|m0 es0]; [done|]. cbn [resolve] in Hpar.
    destruct (entry a es0) as [child|] eqn:E; [|done].
    rewrite (put_cons_found _ _ _ _ _ _ E). cbn [resolve].
    rewrite (entry_map_self a (put (b :: rest) c)), E. cbn.
    by apply (IH child m es).
Qed.

(** Removing an entry keeps its parent a directory. *)
Lemma resolve_parent_after_remove (dir : path) (name : string) (t : node)
    (m : Z) (es : list (string * node)) :
  resolve dir t = Some (Dir m es) →
  resolve dir (remove (dir ++ [name]) t)
  = Some (Dir m (filter (λ e, negb (String.eqb e.1 name)) es)).
Proof.
  revert t. induction dir as [|a dir IH]; intros t H.
  - cbn in H. by injection H as ->.
  - destruct t as [|m0 es0]; [done|]. cbn [resolve] in H.
    destruct (entry a es0) as [child|] eqn:E; [|done].
    replace ((a :: dir) ++ [name]) with (a :: (dir ++ [name])) by done.
    destruct (dir ++ [name]) as [|b rest] eqn:Ed; [by destruct dir|].
    rewrite remove_cons2. cbn [resolve].
    rewrite (entry_map_self a (remove (b :: rest))), E.
    cbn [fmap option_fmap option_map]. by apply IH.
Qed.

Lemma apart_siblings (dir : path) (a b : string) :
  a ≠ b → apart (dir ++ [a]) (dir ++ [b]).
Proof.
  intros Hne. split; intros Hp; apply prefix_app_inv in Hp;
    destruct Hp as [k Hk]; injection Hk; congruence.
Qed.

Lemma apart_sym (p q : path) : apart p q → apart q p.
Proof. intros [H1 H2]. by split. Qed.

(** [os.rename] of a file to a sibling name: it succeeds unless the target
    is a directory, and then the target names the file, the source is gone
    and nothing apart from the two paths has changed. *)
Lemma os_rename_sibling (dir : path) (a b : string) (t : node) (mt : Z) (data : string) :
  a ≠ b →
  resolve (dir ++ [a]) t = Some (File mt data) →
  (∀ m es, resolve (dir ++ [b]) t ≠ Some (Dir m es)) →
  ∃ t', os_rename (dir ++ [a]) (dir ++ [b]) t = inr t' ∧
        resolve (dir ++ [b]) t' = Some (File mt data) ∧
        resolve (dir ++ [a]) t' = None ∧
        (∀ q, apart q (dir ++ [a]) → apart q (dir ++ [b]) → resolve q t' = resolve q t).
Proof.
  intros Hne Hsrc Hdst.
  assert (Hdir : ∃ m es, resolve dir t = Some (Dir m es)).
  { rewrite resolve_app in Hsrc. destruct (resolve dir t) as [[|m es]|]; [done| |done].
    by exists m, es. }
  destruct Hdir as (m & es & Hdir).
  exists (put (dir ++ [b]) (File mt data) (remove (dir ++ [a]) t)).
  split; [|split; [|split]].
  - unfold os_rename. rewrite Hsrc, removelast_last, Hdir.
    destruct (resolve (dir ++ [b]) t) as [[|m' es']|] eqn:E; [done| |done].
    by destruct (Hdst m' es').
  - apply (resolve_put_same _ _ _ m (filter (λ e, negb (String.eqb e.1 a)) es));
      [by destruct dir|].
    rewrite removelast_last. by apply resolve_parent_after_remove.
  - rewrite resolve_put_apart by (by apply apart_siblings).
    apply resolve_remove_same. by destruct dir.
  - intros q Ha Hb. rewrite resolve_put_apart by done. by apply resolve_remove_apart.
Qed.

(** ** More on the build driver *)

Lemma tmp_name_differs (dll_ext : string) :
  "game_tmp" +:+ dll_ext ≠ "game" +:+ dll_ext.
Proof.
  intros H. apply (f_equal String.length) in H.
  rewrite !str_length_app in H. cbn in H. lia.
Qed.

(** X8: the success path of [build_dll] (lines 52-55).  When the compiler
    exits with status 0 and has left a file at the temporary path, and the
    in-place path is not a directory, [build_dll] answers [True]; the
    in-place path then names exactly the file the compiler wrote, the
    temporary path names nothing, nothing apart from these two paths differs
    from what the compiler left, and no failure line is printed. *)
Theorem build_dll_installs_module (odin : list string → node → Z * node)
    (dll_ext flags : string) (w : world) (mt : Z) (data : string) :
  let built := odin (build_cmd dll_ext flags) (w_tree w) in
  built.1 = 0%Z →
  resolve (OUT_DIR ++ ["game_tmp" +:+ dll_ext]) built.2 = Some (File mt data) →
  (∀ m es, resolve (OUT_DIR ++ ["game" +:+ dll_ext]) built.2 ≠ Some (Dir m es)) →
  ∃ w1,
    build_dll odin dll_ext flags w = Ok true w1 ∧
    resolve (OUT_DIR ++ ["game" +:+ dll_ext]) (w_tree w1) = Some (File mt data) ∧
    resolve (OUT_DIR ++ ["game_tmp" +:+ dll_ext]) (w_tree w1) = None ∧
    (∀ q, apart q (OUT_DIR ++ ["game_tmp" +:+ dll_ext]) →
          apart q (OUT_DIR ++ ["game" +:+ dll_ext]) →
          resolve q (w_tree w1) = resolve q built.2) ∧
    w_trace w1 = w_trace w ++ [EPrint ("Building game" +:+ dll_ext);
                               ERun (build_cmd dll_ext flags)].
Proof.
  intros built Hrc Htmp Hdst. subst built.
  destruct (os_rename_sibling OUT_DIR _ _ _ mt data (tmp_name_differs dll_ext) Htmp Hdst)
    as (t' & Hren & Hnew & Hgone & Hframe).
  rewrite build_dll_eq. cbn zeta. rewrite Hrc. cbn [Z.eqb]. rewrite Hren.
  eexists. split; [reflexivity|]. cbn [w_tree set_tree emit w_trace].
  split; [done|]. split; [done|]. split; [done|]. by rewrite <- app_assoc.
Qed.

Lemma build_dll_installs_module_witness :
  ∃ w1,
    build_dll good_odin ".so" "-Wl" fresh_world = Ok true w1 ∧
    resolve ["build"; "hot_reload"; "game.so"] (w_tree w1) = Some (File 31 "ELF") ∧
    resolve ["build"; "hot_reload"; "game_tmp.so"] (w_tree w1) = None.
Proof.
  destruct (build_dll_installs_module good_odin ".so" "-Wl" fresh_world 31%Z "ELF")
    as (w1 & H1 & H2 & H3 & _).
  - vm_compute. reflexivity.
  - vm_compute. reflexivity.
  - intros m es. vm_compute. discriminate.
  - exists w1. by repeat split.
Defined.

(** X9: an edge of [build_dll] (lines 52-58): only [CalledProcessError] is
    caught.  A compiler that exits with status 0 without leaving anything at
    the temporary path makes the rename raise [FileNotFoundError], which
    [build_dll] passes on; [build_and_run_project] then passes it on too,
    without running the executable build, and the watch loop ends with that
    exception instead of going round again. *)
Theorem build_dll_missing_output (platform_system : string)
    (odin : list string → node → Z * node)
    (process_table : list string → world → exn + string) (idle : node → node)
    (dll_ext flags : string) (w : world) :
  let built := odin (build_cmd dll_ext flags) (w_tree w) in
  built.1 = 0%Z →
  resolve (OUT_DIR ++ ["game_tmp" +:+ dll_ext]) built.2 = None →
  let w1 := emit [ERun (build_cmd dll_ext flags)]
              (set_tree built.2 (emit [EPrint ("Building game" +:+ dll_ext)] w)) in
  build_dll odin dll_ext flags w = Raise FileNotFoundError w1 ∧
  build_and_run_project platform_system odin process_table dll_ext flags w
  = Raise FileNotFoundError w1 ∧
  (∀ w0 fuel,
     check_for_changes ["source"] w0 = Ok true w →
     watch_for_changes platform_system odin process_table idle (S fuel) dll_ext flags w0
     = Some (Raise FileNotFoundError
               (emit [ERun (build_cmd dll_ext flags)]
                  (set_tree built.2
                     (emit [EPrint ("Building game" +:+ dll_ext)]
                        (emit [EPrint "Rebuilding due to detected changes..."] w)))))).
Proof.
  intros built Hrc Htmp w1.
  assert (Hdll : ∀ v, w_tree v = w_tree w →
            build_dll odin dll_ext flags v
            = Raise FileNotFoundError
                (emit [ERun (build_cmd dll_ext flags)]
                   (set_tree built.2 (emit [EPrint ("Building game" +:+ dll_ext)] v)))).
  { intros v Hv. rewrite build_dll_eq. cbn zeta. rewrite Hv. fold built.
    rewrite Hrc. cbn [Z.eqb]. unfold os_rename. by rewrite Htmp. }
  split; [by apply Hdll|]. split.
  - unfold build_and_run_project, bind. by rewrite Hdll.
  - intros w0 fuel Hcheck. cbn [watch_for_changes].
    unfold watch_turn, rebuild_step, bind. rewrite Hcheck.
    unfold print, build_and_run_project, bind. by rewrite Hdll.
Qed.

Lemma build_dll_missing_output_witness :
  build_and_run_project "Linux" lazy_odin live_ps ".so" "-Wl" fresh_world
  = Raise FileNotFoundError
      (emit [ERun (build_cmd ".so" "-Wl")]
         (set_tree demo_tree (emit [EPrint "Building game.so"] fresh_world))).
Proof.
  destruct (build_dll_missing_output "Linux" lazy_odin live_ps id ".so" "-Wl" fresh_world)
    as (_ & H & _).
  - reflexivity.
  - vm_compute. reflexivity.
  - exact H.
Defined.

(** X10: the in-place module changes only when [build_dll] answers [True]
    (lines 52-58): if it answers [False] or raises, what
    [build/hot_reload/game<ext>] names is what it named before the call.
    (The compiler writes only where [-out:] points.) *)
Theorem module_changes_only_on_success (odin : list string → node → Z * node)
    (dll_ext flags : string) (w : world) :
  writes_only_outputs odin → known_dll_ext dll_ext →
  returned (build_dll odin dll_ext flags w) ≠ Some true →
  resolve (OUT_DIR ++ ["game" +:+ dll_ext])
    (w_tree (world_of (build_dll odin dll_ext flags w)))
  = resolve (OUT_DIR ++ ["game" +:+ dll_ext]) (w_tree w).
Proof.
  intros Hodin Hext Hret.
  assert (H : resolve (OUT_DIR ++ ["game" +:+ dll_ext])
                (odin (build_cmd dll_ext flags) (w_tree w)).2
              = resolve (OUT_DIR ++ ["game" +:+ dll_ext]) (w_tree w)).
  { apply Hodin. rewrite out_paths_build_cmd by done.
    constructor; [apply apart_artifact_tmp | done]. }
  rewrite build_dll_eq in *. cbn zeta in *.
  destruct (_ =? _)%Z; [|done].
  destruct (os_rename _ _ _); [done|]. by destruct Hret.
Qed.

Lemma module_changes_only_on_success_witness :
  resolve (OUT_DIR ++ ["game" +:+ ".so"])
    (w_tree (world_of (build_dll flaky_odin ".so" "-Wl" fresh_world)))
  = resolve (OUT_DIR ++ ["game" +:+ ".so"]) (w_tree fresh_world).
Proof.
  apply (module_changes_only_on_success flaky_odin ".so" "-Wl" fresh_world).
  - exact flaky_odin_contract.
  - by left.
  - vm_compute. discriminate.
Defined.

(** X11: [build_and_run_project] (lines 97-101) starts the host process only
    after two successful builds: if its trace gains a [Popen], then
    [build_dll] answered [True] and the executable compiler then exited with
    status 0.  Conversely, in that case the call ends exactly as
    [run_binary] does after the two builds. *)
Theorem host_started_only_after_two_successes (platform_system : string)
    (odin : list string → node → Z * node)
    (process_table : list string → world → exn + string)
    (dll_ext flags : string) (w : world) :
  let o := build_and_run_project platform_system odin process_table dll_ext flags w in
  (∀ argv env,
     EPopen argv env ∈ drop (length (w_trace w)) (w_trace (world_of o)) →
     ∃ w1, build_dll odin dll_ext flags w = Ok true w1 ∧
           (odin exe_cmd (w_tree w1)).1 = 0%Z) ∧
  (∀ w1, build_dll odin dll_ext flags w = Ok true w1 →
         (odin exe_cmd (w_tree w1)).1 = 0%Z →
         o = run_binary platform_system process_table
               (emit [ERun exe_cmd]
                  (set_tree (odin exe_cmd (w_tree w1)).2
                     (emit [EPrint "Building game_hot_reload.bin"] w1)))).
Proof.
  intros o. subst o. split.
  - intros argv env Hin.
    destruct (build_dll odin dll_ext flags w) as [b w1|e w1] eqn:Hdll.
    + destruct (build_dll_returns _ _ _ _ _ _ Hdll) as [Htr _].
      unfold build_and_run_project, bind in Hin. rewrite Hdll in Hin.
      rewrite build_and_run_binary_eq in Hin. cbn zeta in Hin.
      destruct (odin exe_cmd (w_tree w1)) as [rc t] eqn:Eexe. cbn [fst snd] in Hin.
      destruct (rc =? 0)%Z eqn:Erc.
      * destruct b.
        -- exists w1. split; [done|]. rewrite Eexe. by apply Z.eqb_eq.
        -- exfalso. cbn in Hin. rewrite Htr in Hin.
           rewrite <- !app_assoc, drop_app_length in Hin. cbn in Hin.
           repeat (apply elem_of_cons in Hin as [Hin|Hin]; [discriminate|]).
           by apply elem_of_nil in Hin.
      * exfalso. rewrite andb_false_r in Hin. cbn in Hin. rewrite Htr in Hin.
        rewrite <- !app_assoc, drop_app_length in Hin. destruct b; cbn in Hin;
          repeat (apply elem_of_cons in Hin as [Hin|Hin]; [discriminate|]);
          by apply elem_of_nil in Hin.
    + exfalso. unfold build_and_run_project, bind in Hin. rewrite Hdll in Hin.
      cbn [world_of] in Hin. rewrite build_dll_eq in Hdll. cbn zeta in Hdll.
      destruct (_ =? _)%Z; [|done].
      destruct (os_rename _ _ _); [|done]. injection Hdll as _ <-.
      cbn in Hin. rewrite <- !app_assoc, drop_app_length in Hin. cbn in Hin.
      repeat (apply elem_of_cons in Hin as [Hin|Hin]; [discriminate|]).
      by apply elem_of_nil in Hin.
  - intros w1 Hdll Hrc. unfold build_and_run_project, bind. rewrite Hdll.
    rewrite build_and_run_binary_eq. cbn zeta. rewrite Hrc. done.
Qed.

Lemma host_started_only_after_two_successes_witness :
  ∃ w1, build_dll good_odin ".so" "-Wl" fresh_world = Ok true w1 ∧
        (good_odin exe_cmd (w_tree w1)).1 = 0%Z.
Proof.
  destruct (host_started_only_after_two_successes "Linux" good_odin live_ps
              ".so" "-Wl" fresh_world) as [H _].
  apply (H ["./game_hot_reload.bin"] (child_env ∅)).
  vm_compute. repeat constructor.
Defined.

(** ** More on the process manager *)

Lemma prefix_spec (needle haystack : string) :
  String.prefix needle haystack = true ↔ ∃ post, haystack = needle +:+ post.
Proof.
  revert haystack. induction needle as [|a needle IH]; intros haystack.
  - split; [intros _; by exists haystack | intros _; by destruct haystack].
  - destruct haystack as [|b haystack]; cbn.
    + split; [done | intros [? [=]]].
    + destruct (ascii_dec a b) as [->|Hne].
      * rewrite IH. split; intros [post H]; exists post; [by rewrite H | by injection H].
      * split; [done|]. intros [post H]. injection H as -> _. by destruct Hne.
Qed.

(** [needle in haystack] holds exactly when the haystack splits around the
    needle. *)
Lemma str_contains_spec (needle haystack : string) :
  str_contains needle haystack = true ↔
  ∃ pre post, haystack = pre +:+ needle +:+ post.
Proof.
  induction haystack as [|c haystack IH].
  - cbn [str_contains]. rewrite orb_false_r, prefix_spec. split.
    + intros [post H]. by exists "", post.
    + intros (pre & post & H). destruct pre; [by exists post | done].
  - cbn [str_contains]. rewrite orb_true_iff, prefix_spec, IH. split.
    + intros [[post H]|(pre & post & H)].
      * by exists "", post.
      * exists (String c pre), post. by rewrite H.
    + intros (pre & post & H). destruct pre as [|c' pre].
      * left. by exists post.
      * right. injection H as -> ->. by exists pre, post.
Qed.

(** X12: liveness is a substring test on the process listing (lines 74-83, 87):
    when the listing can be read, [is_binary_running] answers [True] exactly
    when the executable's name occurs somewhere in it, as part of any line;
    and whenever it occurs, [run_binary] starts nothing and only prints the
    reload line. *)
Theorem running_iff_name_occurs (platform_system : string)
    (process_table : list string → world → exn + string) (w : world) (out : string) :
  process_table (listing_cmd platform_system) w = inr out →
  (returned (is_binary_running platform_system process_table w) = Some true ↔
   ∃ pre post, out = pre +:+ "game_hot_reload.bin" +:+ post) ∧
  ((∃ pre post, out = pre +:+ "game_hot_reload.bin" +:+ post) →
   run_binary platform_system process_table w
   = Ok tt (emit [EPrint "Hot reloading game_hot_reload.bin..."]
              (emit [ECheckOutput (listing_cmd platform_system)] w))).
Proof.
  intros Hout. rewrite run_binary_eq, is_binary_running_eq. cbn zeta. rewrite Hout.
  cbn [returned]. split.
  - rewrite <- (str_contains_spec EXE out). split; [by intros [= ->] | by intros ->].
  - intros H. apply (str_contains_spec EXE out) in H. by rewrite H.
Qed.

Lemma running_iff_name_occurs_witness :
  run_binary "Linux" editor_ps fresh_world
  = Ok tt (emit [EPrint "Hot reloading game_hot_reload.bin..."]
             (emit [ECheckOutput ["ps"; "aux"]] fresh_world)).
Proof.
  destruct (running_iff_name_occurs "Linux" editor_ps fresh_world
              "user 77 vim notes/game_hot_reload.bin.txt" eq_refl) as [_ H].
  apply H. by exists "user 77 vim notes/", ".txt".
Defined.

(** ** More on the watch loop *)

Lemma check_for_changes_in_sync (source_dir : path) (w : world) :
  in_sync (stat_mtime (w_tree w)) (tracked_paths (os_walk (w_tree w) source_dir))
          (w_last_mtimes w) →
  check_for_changes source_dir w = Ok false w.
Proof.
  intros Hs. rewrite check_for_changes_scan. cbn zeta. rewrite check_dirs_flat.
  rewrite check_paths_in_sync by done. cbn.
  by rewrite set_last_mtimes_same, emit_nothing.
Qed.

Lemma stop_step_sleeps (idle : node → node) (w : world) :
  resolve [EXIT_SIGNAL_FILE] (w_tree w) = None →
  stop_step idle w = Ok false (emit [ESleep 1] (set_tree (idle (w_tree w)) w)).
Proof.
  intros Hm. unfold stop_step, bind, exists_, path_exists. rewrite Hm.
  rewrite bool_decide_eq_false_2 by (by intros [? ?]). done.
Qed.

(** X13: a turn of the loop with nothing to do (lines 147-157): when the
    snapshot is in step with the disk and there is no stop marker, the turn
    builds nothing, prints nothing and starts nothing; it sleeps one second
    and the loop goes round again. *)
Theorem idle_turn_only_sleeps (platform_system : string)
    (odin : list string → node → Z * node)
    (process_table : list string → world → exn + string) (idle : node → node)
    (dll_ext flags : string) (w : world) :
  in_sync (stat_mtime (w_tree w)) (tracked_paths (os_walk (w_tree w) ["source"]))
          (w_last_mtimes w) →
  resolve [EXIT_SIGNAL_FILE] (w_tree w) = None →
  let w' := emit [ESleep 1] (set_tree (idle (w_tree w)) w) in
  watch_turn platform_system odin process_table idle dll_ext flags w = Ok false w' ∧
  ∀ fuel, watch_for_changes platform_system odin process_table idle (S fuel)
            dll_ext flags w
          = watch_for_changes platform_system odin process_table idle fuel
              dll_ext flags w'.
Proof.
  intros Hs Hm w'.
  assert (Hturn : watch_turn platform_system odin process_table idle dll_ext flags w
                  = Ok false w').
  { unfold watch_turn, rebuild_step, bind.
    rewrite check_for_changes_in_sync by done. unfold ret.
    by apply stop_step_sleeps. }
  split; [done|]. intros fuel. cbn [watch_for_changes]. by rewrite Hturn.
Qed.

Lemma idle_turn_only_sleeps_witness :
  watch_turn "Linux" good_odin live_ps id ".so" "-Wl" quiet_world
  = Ok false (emit [ESleep 1] quiet_world).
Proof.
  destruct (idle_turn_only_sleeps "Linux" good_odin live_ps id ".so" "-Wl" quiet_world)
    as [H _].
  - unfold in_sync. apply (bool_decide_unpack _). vm_compute. exact I.
  - vm_compute. reflexivity.
  - exact H.
Defined.

(** X14: a build failure does not end the watch loop (lines 52-58, 97-101,
    147-157).  In a turn that detects a change, finds no stop marker and in
    which the module compiler exits with a non-zero status, the turn prints
    the failure, still runs the executable build, starts nothing, sleeps and
    lets the loop go round again.  The failure does not roll the snapshot
    back: the turn ends with the snapshot the scan left, in which the file
    that set the turn off is committed with its current modification time.
    The scan of the next turn therefore answers [True] exactly when some
    file listed then is new or modified against that snapshot, which may be
    another file that had changed already, each scan committing one.  (The
    compiler writes only where [-out:] points.) *)
Theorem failed_build_keeps_watching (platform_system : string)
    (odin : list string → node → Z * node)
    (process_table : list string → world → exn + string) (idle : node → node)
    (dll_ext flags : string) (w w1 : world) :
  writes_only_outputs odin → known_dll_ext dll_ext →
  check_for_changes ["source"] w = Ok true w1 →
  (odin (build_cmd dll_ext flags) (w_tree w)).1 ≠ 0%Z →
  resolve [EXIT_SIGNAL_FILE] (w_tree w) = None →
  ∃ w2 tail,
    watch_turn platform_system odin process_table idle dll_ext flags w = Ok false w2 ∧
    (∀ fuel, watch_for_changes platform_system odin process_table idle (S fuel)
               dll_ext flags w
             = watch_for_changes platform_system odin process_table idle fuel
                 dll_ext flags w2) ∧
    (tail = [] ∨ tail = [EPrint "Executable build failed."]) ∧
    w_trace w2 = w_trace w1 ++
                 [EPrint "Rebuilding due to detected changes...";
                  EPrint ("Building game" +:+ dll_ext);
                  ERun (build_cmd dll_ext flags);
                  EPrint "Shared library build failed.";
                  EPrint "Building game_hot_reload.bin";
                  ERun exe_cmd] ++ tail ++ [ESleep 1] ∧
    w_last_mtimes w2 = w_last_mtimes w1 ∧
    (∃ q, q ∈ tracked_paths (os_walk (w_tree w) ["source"]) ∧
          stale (stat_mtime (w_tree w)) (w_last_mtimes w) q ∧
          w_last_mtimes w2 !! q = stat_mtime (w_tree w) q) ∧
    (∃ b w3, check_for_changes ["source"] w2 = Ok b w3 ∧
             (b = true ↔
              ∃ p, p ∈ tracked_paths (os_walk (w_tree w2) ["source"]) ∧
                   stale (stat_mtime (w_tree w2)) (w_last_mtimes w2) p)).
Proof.
  intros Hodin Hext Hcheck Hrc Hm.
  assert (Htree1 : w_tree w1 = w_tree w).
  { rewrite check_for_changes_scan in Hcheck. cbn zeta in Hcheck. by simplify_eq. }
  assert (Htrig : ∃ q, q ∈ tracked_paths (os_walk (w_tree w) ["source"]) ∧
                       stale (stat_mtime (w_tree w)) (w_last_mtimes w) q ∧
                       w_last_mtimes w1 !! q = stat_mtime (w_tree w) q).
  { rewrite check_for_changes_scan in Hcheck. cbn zeta in Hcheck.
    rewrite check_dirs_flat in Hcheck. injection Hcheck as Hb Hw1.
    destruct (check_paths_trigger _ _ _ Hb) as (q & Hq & Hst & Hc & _).
    exists q. split; [done|]. split; [done|]. by rewrite <- Hw1. }
  set (w1' := emit [EPrint "Rebuilding due to detected changes..."] w1).
  pose proof (project_keeps_marker platform_system odin process_table Hodin
                dll_ext flags w1' Hext) as Hkeep.
  assert (Hproj : ∃ w2 tail,
            build_and_run_project platform_system odin process_table dll_ext flags w1'
            = Ok tt w2 ∧
            (tail = [] ∨ tail = [EPrint "Executable build failed."]) ∧
            w_trace w2 = w_trace w1 ++
                 [EPrint "Rebuilding due to detected changes...";
                  EPrint ("Building game" +:+ dll_ext);
                  ERun (build_cmd dll_ext flags);
                  EPrint "Shared library build failed.";
                  EPrint "Building game_hot_reload.bin";
                  ERun exe_cmd] ++ tail ∧
            w_last_mtimes w2 = w_last_mtimes w1).
  { unfold build_and_run_project, bind. rewrite build_dll_eq. cbn zeta.
    change (w_tree w1') with (w_tree w1). rewrite Htree1.
    apply Z.eqb_neq in Hrc. rewrite Hrc.
    rewrite build_and_run_binary_eq. cbn zeta.
    destruct (odin exe_cmd _) as [rc t]. cbn [fst snd].
    destruct (rc =? 0)%Z; cbn [andb].
    - eexists _, []. split; [reflexivity|]. split; [by left|].
      cbn. split; [by rewrite <- !app_assoc | done].
    - eexists _, [EPrint "Executable build failed."]. split; [reflexivity|].
      split; [by right|]. cbn. split; [by rewrite <- !app_assoc | done]. }
  destruct Hproj as (w2 & tail & Hproj & Htail & Htr & Hlm).
  rewrite Hproj in Hkeep. cbn [world_of] in Hkeep.
  change (w_tree w1') with (w_tree w1) in Hkeep. rewrite Htree1, Hm in Hkeep.
  assert (Hturn : watch_turn platform_system odin process_table idle dll_ext flags w
                  = Ok false (emit [ESleep 1] (set_tree (idle (w_tree w2)) w2))).
  { unfold watch_turn, rebuild_step, bind. rewrite Hcheck. unfold print.
    fold w1'. rewrite Hproj. by apply stop_step_sleeps. }
  exists (emit [ESleep 1] (set_tree (idle (w_tree w2)) w2)), tail.
  split; [done|]. split; [|split; [done|split; [|split; [done|split]]]].
  - intros fuel. cbn [watch_for_changes]. by rewrite Hturn.
  - cbn. rewrite Htr. by rewrite <- !app_assoc.
  - destruct Htrig as (q & Hq & Hst & Hc). exists q.
    split; [done|]. split; [done|]. cbn. by rewrite Hlm.
  - eexists _, _. split; [apply check_for_changes_scan|].
    cbn zeta. rewrite check_dirs_flat. apply check_paths_true.
Qed.

Lemma failed_build_keeps_watching_witness :
  ∃ w2, watch_turn "Linux" flaky_odin live_ps id ".so" "-Wl" unseen_world = Ok false w2 ∧
        w_last_mtimes w2 = {[src_a := 10%Z]}.
Proof.
  destruct (failed_build_keeps_watching "Linux" flaky_odin live_ps id ".so" "-Wl"
              unseen_world (world_of (check_for_changes ["source"] unseen_world)))
    as (w2 & tail & H1 & _ & _ & _ & H5 & _).
  - exact flaky_odin_contract.
  - by left.
  - vm_compute. reflexivity.
  - vm_compute. discriminate.
  - vm_compute. reflexivity.
  - exists w2. split; [done|]. rewrite H5. vm_compute. reflexivity.
Defined.

(** ** Start-up: lemmas *)

Lemma entry_map_const (name : string) (c' : node) (es : list (string * node)) :
  entry name (map (λ e, if String.eqb e.1 name then (e.1, c') else e) es)
  = (λ _, c') <$> entry name es.
Proof. apply (entry_map_self name (λ _, c')). Qed.

Lemma entry_map_const_other (name other : string) (c' : node)
    (es : list (string * node)) :
  other ≠ name →
  entry other (map (λ e, if String.eqb e.1 name then (e.1, c') else e) es)
  = entry other es.
Proof. apply (entry_map_other name other (λ _, c')). Qed.

(** [mkdir_p] makes the path a directory. *)
Lemma mkdir_p_made (now : Z) (p : path) (t t' : node) :
  mkdir_p now p t = inr t' → ∃ m es, resolve p t' = Some (Dir m es).
Proof.
  revert t t'. induction p as [|a p IH]; intros t t' H.
  - destruct t as [|m es]; [done|]. injection H as <-. by exists m, es.
  - destruct t as [|m es]; [done|]. cbn [mkdir_p] in H.
    destruct (entry a es) as [c|] eqn:E.
    + destruct (mkdir_p now p c) as [e|c'] eqn:Ec; [done|]. injection H as <-.
      cbn [resolve]. rewrite entry_map_const, E. cbn. by apply (IH c).
    + destruct (mkdir_p now p (Dir now [])) as [e|c'] eqn:Ec; [done|].
      injection H as <-. cbn [resolve]. rewrite entry_app_new by done.
      by apply (IH (Dir now [])).
Qed.

(** A directory [mkdir_p] had to make is empty and stamped [now]. *)
Lemma mkdir_p_fresh (now : Z) (p : path) (t t' : node) :
  mkdir_p now p t = inr t' → resolve p t = None →
  resolve p t' = Some (Dir now []).
Proof.
  revert t t'. induction p as [|a p IH]; intros t t' H Hnone; [done|].
  destruct t as [|m es]; [done|]. cbn [mkdir_p] in H. cbn [resolve] in Hnone.
  destruct (entry a es) as [c|] eqn:E.
  - destruct (mkdir_p now p c) as [e|c'] eqn:Ec; [done|]. injection H as <-.
    cbn [resolve]. rewrite entry_map_const, E. cbn. by apply (IH c).
  - destruct (mkdir_p now p (Dir now [])) as [e|c'] eqn:Ec; [done|].
    injection H as <-. cbn [resolve]. rewrite entry_app_new by done.
    destruct p as [|b p']; [by injection Ec as <-|].
    by apply (IH (Dir now [])).
Qed.

(** [mkdir_p] leaves alone every path apart from the one it makes. *)
Lemma mkdir_p_apart (now : Z) (p q : path) (t t' : node) :
  mkdir_p now p t = inr t' → apart q p → resolve q t' = resolve q t.
Proof.
  revert q t t'. induction p as [|a p IH]; intros q t t' H [H1 H2].
  - exfalso. apply H2, prefix_nil.
  - destruct q as [|b q']; [exfalso; apply H1, prefix_nil|].
    destruct t as [|m es]; [done|]. cbn [mkdir_p] in H.
    destruct (decide (b = a)) as [->|Hne].
    + assert (Hap : apart q' p).
      { split; intros Hp; [apply H1 | apply H2]; by apply prefix_cons_same. }
      destruct (entry a es) as [c|] eqn:E.
      * destruct (mkdir_p now p c) as [e|c'] eqn:Ec; [done|]. injection H as <-.
        cbn [resolve]. rewrite entry_map_const, E. cbn. by apply (IH q' c).
      * destruct (mkdir_p now p (Dir now [])) as [e|c'] eqn:Ec; [done|].
        injection H as <-. cbn [resolve]. rewrite entry_app_new, E by done.
        rewrite (IH q' (Dir now []) c' Ec Hap).
        destruct q' as [|x q'']; [|done].
        exfalso. destruct Hap as [Hp _]. apply Hp, prefix_nil.
    + destruct (entry a es) as [c|] eqn:E.
      * destruct (mkdir_p now p c) as [e|c'] eqn:Ec; [done|]. injection H as <-.
        cbn [resolve]. by rewrite entry_map_const_other.
      * destruct (mkdir_p now p (Dir now [])) as [e|c'] eqn:Ec; [done|].
        injection H as <-. cbn [resolve]. by rewrite entry_app_other.
Qed.

(** Under an existing directory, making a missing child succeeds. *)
Lemma mkdir_p_child (now : Z) (dir : path) (name : string) (t : node)
    (m : Z) (es : list (string * node)) :
  resolve dir t = Some (Dir m es) → resolve (dir ++ [name]) t = None →
  ∃ t', mkdir_p now (dir ++ [name]) t = inr t'.
Proof.
  revert t. induction dir as [|a dir IH]; intros t Hdir Hnone.
  - cbn in Hdir. injection Hdir as ->. cbn in *.
    destruct (entry name es); [done|]. by eexists.
  - destruct t as [|m0 es0]; [done|]. cbn [resolve app] in *.
    destruct (entry a es0) as [c|] eqn:E; [|done].
    destruct (IH c Hdir Hnone) as [c' Hc]. cbn [mkdir_p]. rewrite E, Hc. by eexists.
Qed.

(** Writing a child keeps the parent a directory. *)
Lemma resolve_put_child_dir (dir : path) (name : string) (c t : node)
    (m : Z) (es : list (string * node)) :
  resolve dir t = Some (Dir m es) →
  ∃ es', resolve dir (put (dir ++ [name]) c t) = Some (Dir m es').
Proof.
  revert t. induction dir as [|a dir IH]; intros t Hdir.
  - cbn in Hdir. injection Hdir as ->. cbn [app put].
    destruct (entry name es); by eexists.
  - destruct t as [|m0 es0]; [done|]. cbn [resolve] in Hdir.
    destruct (entry a es0) as [child|] eqn:E; [|done].
    replace ((a :: dir) ++ [name]) with (a :: (dir ++ [name])) by done.
    rewrite (put_cons_found _ _ _ _ _ _ E). cbn [resolve].
    rewrite (entry_map_self a (put (dir ++ [name]) c)), E. cbn. by apply IH.
Qed.

Lemma apart_child (q dir : path) (name : string) :
  apart q dir → apart q (dir ++ [name]).
Proof.
  intros [H1 H2]. split; intros Hp.
  - destruct Hp as [k Hk]. induction k as [|x k' _] using rev_ind.
    + apply H2. exists [name]. rewrite app_nil_r in Hk. by rewrite Hk.
    + apply H1. exists k'. rewrite app_assoc in Hk. by apply app_inj_tail in Hk as [? _].
  - apply H2. by apply prefix_app_l in Hp.
Qed.

Lemma resolve_under_empty (dir : path) (name : string) (t : node) (m : Z) :
  resolve dir t = Some (Dir m []) → resolve (dir ++ [name]) t = None.
Proof. intros H. by rewrite resolve_app, H. Qed.

Lemma write_bytes_ok (now : Z) (dir : path) (name data : string) (w : world)
    (m : Z) (es : list (string * node)) :
  resolve dir (w_tree w) = Some (Dir m es) →
  (∀ m' es', resolve (dir ++ [name]) (w_tree w) ≠ Some (Dir m' es')) →
  write_bytes now (dir ++ [name]) data w
  = Ok tt (set_tree (put (dir ++ [name]) (File now data) (w_tree w)) w).
Proof.
  intros Hdir Hdst. unfold write_bytes. rewrite removelast_last, Hdir.
  destruct (resolve (dir ++ [name]) (w_tree w)) as [[|m' es']|] eqn:E; [done| |done].
  by destruct (Hdst m' es').
Qed.

(** The staging loop over files with distinct names, into a directory in
    which none of those names is a directory. *)
Lemma stage_files_ok (now : Z) (dir : path) (files : list (string * node)) (w : world)
    (m : Z) (es : list (string * node)) :
  resolve dir (w_tree w) = Some (Dir m es) →
  NoDup files.*1 →
  (∀ name n, (name, n) ∈ files → is_dir n = false) →
  (∀ name m' es', name ∈ files.*1 →
                  resolve (dir ++ [name]) (w_tree w) ≠ Some (Dir m' es')) →
  ∃ t', stage_files now dir files w = Ok tt (set_tree t' w) ∧
        (∃ es', resolve dir t' = Some (Dir m es')) ∧
        (∀ name mt data, (name, File mt data) ∈ files →
                         resolve (dir ++ [name]) t' = Some (File now data)) ∧
        (∀ q, (∀ name, name ∈ files.*1 → apart q (dir ++ [name])) →
              resolve q t' = resolve q (w_tree w)).
Proof.
  revert w es. induction files as [|[name n] files IH]; intros w es Hdir Hnd Hfiles Hdst.
  - exists (w_tree w). split; [by destruct w|]. split; [by exists es|].
    split; [|done]. intros ? ? ? H. by apply elem_of_nil in H.
  - cbn [fmap list_fmap fst] in Hnd. apply NoDup_cons in Hnd as [Hfresh Hnd].
    destruct n as [mt0 data0|]; [|by specialize (Hfiles name _ ltac:(left))].
    cbn [stage_files]. unfold bind.
    rewrite (write_bytes_ok now dir name data0 w m es Hdir)
      by (intros m' es'; apply Hdst; left).
    set (t1 := put (dir ++ [name]) (File now data0) (w_tree w)).
    destruct (resolve_put_child_dir dir name (File now data0) (w_tree w) m es Hdir)
      as [es1 Hdir1]. fold t1 in Hdir1.
    assert (Hsib : ∀ other, other ∈ files.*1 → apart (dir ++ [other]) (dir ++ [name])).
    { intros other Ho. apply apart_siblings. intros ->. done. }
    destruct (IH (set_tree t1 w) es1) as (t' & Hrun & Hd' & Hstaged & Hframe).
    + done.
    + done.
    + intros name' n' Hin. apply (Hfiles name' n'). by right.
    + intros name' m' es' Hin. cbn [w_tree set_tree]. unfold t1.
      rewrite resolve_put_apart by (by apply Hsib). apply Hdst. by right.
    + exists t'. split; [by rewrite Hrun; destruct w|]. split; [done|]. split.
      * intros name' mt data Hin. apply elem_of_cons in Hin as [[= -> -> ->]|Hin].
        -- rewrite Hframe by (intros other Ho; apply apart_sym; by apply Hsib).
           cbn [w_tree set_tree]. unfold t1.
           apply (resolve_put_same _ _ _ m es); [by destruct dir|].
           by rewrite removelast_last.
        -- by apply (Hstaged name' mt data).
      * intros q Hq. rewrite Hframe by (intros other Ho; apply Hq; by right).
        cbn [w_tree set_tree]. unfold t1. apply resolve_put_apart. apply Hq. left.
Qed.

Lemma mkdir_p_error (now : Z) (p : path) (t : node) (e : exn) :
  mkdir_p now p t = inl e →
  e = NotADirectoryError ∨ e = OtherError "FileExistsError".
Proof.
  revert t. induction p as [|a p IH]; intros t H.
  - destruct t; [|done]. injection H as <-. by right.
  - destruct t as [|m es]; [injection H as <-; by left|]. cbn [mkdir_p] in H.
    destruct (entry a es) as [c|].
    + destruct (mkdir_p now p c) as [e'|c'] eqn:Ec; [|done].
      injection H as <-. by apply (IH c).
    + destruct (mkdir_p now p (Dir now [])) as [e'|c'] eqn:Ec; [|done].
      injection H as <-. by apply (IH (Dir now [])).
Qed.

(** However the staging loop ends, it has changed the tree and nothing
    else, only below the directory it stages into, and that directory is
    still a directory. *)
Lemma stage_files_confined (now : Z) (dir : path) (files : list (string * node))
    (w : world) (m : Z) (es : list (string * node)) :
  resolve dir (w_tree w) = Some (Dir m es) →
  let o := stage_files now dir files w in
  world_of o = set_tree (w_tree (world_of o)) w ∧
  (∃ es', resolve dir (w_tree (world_of o)) = Some (Dir m es')) ∧
  (∀ q, apart q dir → resolve q (w_tree (world_of o)) = resolve q (w_tree w)).
Proof.
  revert w es. induction files as [|[name n] files IH]; intros w es Hdir o; subst o.
  - cbn. split; [by destruct w|]. split; [by exists es | done].
  - cbn [stage_files]. destruct n as [mt data|];
      [|cbn; split; [by destruct w|]; split; [by exists es | done]].
    unfold bind, write_bytes. rewrite removelast_last, Hdir.
    assert (Hstay : world_of (Raise (A:=unit) IsADirectoryError w)
                    = set_tree (w_tree (world_of (Raise (A:=unit) IsADirectoryError w))) w
                    ∧ (∃ es', resolve dir (w_tree w) = Some (Dir m es'))
                    ∧ (∀ q, apart q dir → resolve q (w_tree w) = resolve q (w_tree w)))
      by (cbn; split; [by destruct w|]; split; [by exists es | done]).
    set (w1 := set_tree (put (dir ++ [name]) (File now data) (w_tree w)) w).
    destruct (resolve_put_child_dir dir name (File now data) (w_tree w) m es Hdir)
      as [es1 Hdir1].
    destruct (IH w1 es1 Hdir1) as (Hw & Hd & Hframe).
    assert (Hgo : world_of (stage_files now dir files w1)
                    = set_tree (w_tree (world_of (stage_files now dir files w1))) w
                  ∧ (∃ es', resolve dir (w_tree (world_of (stage_files now dir files w1)))
                            = Some (Dir m es'))
                  ∧ (∀ q, apart q dir →
                          resolve q (w_tree (world_of (stage_files now dir files w1)))
                          = resolve q (w_tree w))).
    { split; [by rewrite Hw; destruct w|]. split; [done|].
      intros q Hq. rewrite Hframe by done. cbn [w1 w_tree set_tree].
      apply resolve_put_apart. by apply apart_child. }
    destruct (resolve (dir ++ [name]) (w_tree w)) as [[|m' es']|]; [| exact Hstay |].
    + fold w1. by destruct (stage_files now dir files w1).
    + fold w1. by destruct (stage_files now dir files w1).
Qed.

Lemma matches_raylib_spec (name : string) :
  matches_raylib name = true ↔
  ∃ x y, name = "libraylib" +:+ x +:+ ".so" +:+ y.
Proof.
  assert (Hdrop : ∀ r, str_drop 9 ("libraylib" +:+ r) = r) by done.
  unfold matches_raylib. rewrite andb_true_iff, prefix_spec. split.
  - intros [[rest ->] H]. rewrite Hdrop in H.
    apply (str_contains_spec ".so" rest) in H as (x & y & ->). by exists x, y.
  - intros (x & y & ->). split; [by eexists|]. rewrite Hdrop.
    apply (str_contains_spec ".so"). by exists x, y.
Qed.

Section StartupFacts.

Variable platform_system : string.
Variable platform_machine : string.
Variable ROOT : string.
Variable vendor_linux : list (string * node).
Variable now : Z.

Local Abbreviation setup :=
  (setup_environment platform_system platform_machine ROOT vendor_linux now).

Lemma setup_darwin (w : world) :
  String.eqb platform_system "Darwin" = true →
  setup w = Ok (".dylib",
                "-Wl,-rpath " +:+ ROOT +:+ "/vendor/raylib/" +:+
                (if String.eqb platform_machine "arm64" then "macos-arm66" else "macos"))
               w.
Proof. intros H. unfold setup_environment. by rewrite H. Qed.

Lemma setup_present (w : world) :
  String.eqb platform_system "Darwin" = false →
  is_Some (resolve (OUT_DIR ++ ["linux"]) (w_tree w)) →
  setup w = Ok (".so", "-Wl,-rpath=$ORIGIN/linux") w.
Proof.
  intros H Hp. unfold setup_environment. rewrite H.
  unfold bind, exists_, path_exists. by rewrite bool_decide_eq_true_2.
Qed.

Lemma setup_absent (w : world) :
  String.eqb platform_system "Darwin" = false →
  resolve (OUT_DIR ++ ["linux"]) (w_tree w) = None →
  setup w =
  match mkdir_p now (OUT_DIR ++ ["linux"]) (w_tree w) with
  | inl e => Raise e w
  | inr t =>
      match stage_files now (OUT_DIR ++ ["linux"])
              (filter (λ e, matches_raylib e.1 = true) vendor_linux) (set_tree t w) with
      | Ok _ w' => Ok (".so", "-Wl,-rpath=$ORIGIN/linux") w'
      | Raise e w' => Raise e w'
      end
  end.
Proof.
  intros H Hp. unfold setup_environment. rewrite H.
  unfold bind, exists_, path_exists, mkdir. rewrite Hp.
  rewrite bool_decide_eq_false_2 by (by intros [? ?]). cbn [negb].
  destruct (mkdir_p _ _ _); [done|]. by destruct (stage_files _ _ _ _).
Qed.

(** The world after [setup_environment], however it ends: only the tree
    has changed, only at and below [build/hot_reload/linux]. *)
Lemma setup_confined (w : world) :
  world_of (setup w) = set_tree (w_tree (world_of (setup w))) w ∧
  (∀ q, apart q (OUT_DIR ++ ["linux"]) →
        resolve q (w_tree (world_of (setup w))) = resolve q (w_tree w)) ∧
  (is_Some (resolve (OUT_DIR ++ ["linux"]) (w_tree w)) ∨
   String.eqb platform_system "Darwin" = true → world_of (setup w) = w).
Proof.
  destruct (String.eqb platform_system "Darwin") eqn:Hsys.
  { rewrite setup_darwin by done. cbn. split; [by destruct w | done]. }
  destruct (resolve (OUT_DIR ++ ["linux"]) (w_tree w)) as [n|] eqn:Hl.
  { rewrite setup_present by (by rewrite ?Hl). cbn. split; [by destruct w | done]. }
  rewrite setup_absent by done.
  destruct (mkdir_p now (OUT_DIR ++ ["linux"]) (w_tree w)) as [e|t] eqn:Hmk.
  { cbn. split; [by destruct w|]. split; [done|]. intros [[? [=]]|[=]]. }
  destruct (mkdir_p_made _ _ _ _ Hmk) as (m & es & Hdir).
  destruct (stage_files_confined now (OUT_DIR ++ ["linux"])
              (filter (λ e, matches_raylib e.1 = true) vendor_linux)
              (set_tree t w) m es Hdir) as (Hw & _ & Hframe).
  assert (H : ∀ o : outcome unit,
            o = stage_files now (OUT_DIR ++ ["linux"])
                  (filter (λ e, matches_raylib e.1 = true) vendor_linux) (set_tree t w) →
            world_of (match o with
                      | Ok _ w' => Ok (".so", "-Wl,-rpath=$ORIGIN/linux") w'
                      | Raise e w' => Raise e w'
                      end) = world_of o) by (by intros []).
  rewrite (H _ eq_refl). split; [by rewrite Hw; destruct w|]. split.
  - intros q Hq. rewrite Hframe by done. cbn [w_tree set_tree].
    by apply (mkdir_p_apart _ _ _ _ _ Hmk).
  - intros [[? [=]]|[=]].
Qed.

End StartupFacts.

Section StartupProperties.

Variable platform_system : string.
Variable platform_machine : string.
Variable ROOT : string.
Variable vendor_linux : list (string * node).
Variable now : Z.

Local Abbreviation setup :=
  (setup_environment platform_system platform_machine ROOT vendor_linux now).

Lemma setup_result (w w' : world) (cfg : string * string) :
  setup w = Ok cfg w' →
  (String.eqb platform_system "Darwin" = true ∧
   cfg = (".dylib",
          "-Wl,-rpath " +:+ ROOT +:+ "/vendor/raylib/" +:+
          (if String.eqb platform_machine "arm64" then "macos-arm66" else "macos"))) ∨
  (String.eqb platform_system "Darwin" = false ∧
   cfg = (".so", "-Wl,-rpath=$ORIGIN/linux") ∧
   is_Some (resolve (OUT_DIR ++ ["linux"]) (w_tree w'))).
Proof.
  destruct (String.eqb platform_system "Darwin") eqn:Hsys.
  { rewrite setup_darwin by done. intros [= <- <-]. by left. }
  right. split; [done|].
  destruct (resolve (OUT_DIR ++ ["linux"]) (w_tree w)) as [n|] eqn:Hl.
  { rewrite setup_present in H by (by rewrite ?Hl). injection H as <- <-.
    by rewrite Hl. }
  rewrite setup_absent in H by done.
  destruct (mkdir_p now (OUT_DIR ++ ["linux"]) (w_tree w)) as [e|t] eqn:Hmk; [done|].
  destruct (mkdir_p_made _ _ _ _ Hmk) as (m & es & Hdir).
  destruct (stage_files_confined now (OUT_DIR ++ ["linux"])
              (filter (λ e, matches_raylib e.1 = true) vendor_linux)
              (set_tree t w) m es Hdir) as (_ & [es' Hd] & _).
  destruct (stage_files _ _ _ _) as [[] w1|e w1]; [|done].
  injection H as <- <-. split; [done|]. cbn [world_of] in Hd. by rewrite Hd.
Qed.

(** X15: [setup_environment] (lines 16-37), however it ends, changes nothing
    but the tree: it prints nothing, starts nothing and leaves the snapshot
    alone.  In the tree it changes nothing off the line of
    [build/hot_reload/linux]: every path that is neither that directory, nor
    below it, nor one of its ancestors names what it named before.  (The
    ancestors [build] and [build/hot_reload] are made when they are missing,
    line 30.)  When it returns, the suffix is [.dylib] on Darwin and [.so]
    everywhere else, and on Darwin the whole world is as it was. *)
Theorem setup_environment_confined (w : world) :
  let o := setup w in
  world_of o = set_tree (w_tree (world_of o)) w ∧
  (∀ q, apart q (OUT_DIR ++ ["linux"]) →
        resolve q (w_tree (world_of o)) = resolve q (w_tree w)) ∧
  (platform_system = "Darwin" → world_of o = w) ∧
  (∀ cfg w', o = Ok cfg w' →
     known_dll_ext cfg.1 ∧ (cfg.1 = ".dylib" ↔ platform_system = "Darwin")).
Proof.
  intros o. subst o.
  destruct (setup_confined platform_system platform_machine ROOT vendor_linux now w)
    as (Hw & Hframe & Hsame).
  split; [done|]. split; [done|]. split.
  - intros ->. apply Hsame. by right.
  - intros cfg w' H. apply setup_result in H as [[Hsys ->]|(Hsys & -> & _)]; cbn.
    + apply String.eqb_eq in Hsys. split; [by right | done].
    + apply String.eqb_neq in Hsys. split; [by left | done].
Qed.

(** X16: [setup_environment] stages at most once (lines 28-35): once it has
    returned, running it again returns the same pair and changes nothing,
    since the staging is guarded by the existence of
    [build/hot_reload/linux]. *)
Theorem setup_environment_idempotent (w w' : world) (cfg : string * string) :
  setup w = Ok cfg w' → setup w' = Ok cfg w'.
Proof.
  intros H. apply setup_result in H as [[Hsys ->]|(Hsys & -> & Hl)].
  - by apply setup_darwin.
  - by apply setup_present.
Qed.

(** X17: a staging error is not repaired (lines 29-35).  When a vendor entry
    that matches the pattern is a directory, [read_bytes] raises
    [IsADirectoryError] in the middle of the loop; the directory
    [build/hot_reload/linux] exists by then, so the next run skips the
    staging altogether and returns as if nothing were missing. *)
Theorem staging_error_not_repaired (w w' : world) :
  setup w = Raise IsADirectoryError w' →
  setup w' = Ok (".so", "-Wl,-rpath=$ORIGIN/linux") w'.
Proof.
  intros H.
  destruct (String.eqb platform_system "Darwin") eqn:Hsys;
    [by rewrite setup_darwin in H|].
  destruct (resolve (OUT_DIR ++ ["linux"]) (w_tree w)) as [n|] eqn:Hl;
    [by rewrite setup_present in H by (by rewrite ?Hl)|].
  rewrite setup_absent in H by done.
  destruct (mkdir_p now (OUT_DIR ++ ["linux"]) (w_tree w)) as [e|t] eqn:Hmk.
  { injection H as -> _. by destruct (mkdir_p_error _ _ _ _ Hmk). }
  destruct (mkdir_p_made _ _ _ _ Hmk) as (m & es & Hdir).
  destruct (stage_files_confined now (OUT_DIR ++ ["linux"])
              (filter (λ e, matches_raylib e.1 = true) vendor_linux)
              (set_tree t w) m es Hdir) as (_ & [es' Hd] & _).
  destruct (stage_files _ _ _ _) as [[] w1|e w1]; [done|].
  injection H as -> ->. apply setup_present; [done|]. cbn [world_of] in Hd.
  by rewrite Hd.
Qed.

(** X18: what the staging puts in place (lines 28-35).  Off Darwin, when
    [build/hot_reload] is a directory without a [linux] entry, the vendor
    names are distinct and every entry matching [libraylib*.so*] is a file,
    [setup_environment] returns; afterwards [build/hot_reload/linux] holds
    one file per matching vendor file, with the same bytes, and nothing
    else. *)
Theorem setup_environment_stages_libraries (w : world) (m : Z)
    (es : list (string * node)) :
  platform_system ≠ "Darwin" →
  resolve OUT_DIR (w_tree w) = Some (Dir m es) →
  resolve (OUT_DIR ++ ["linux"]) (w_tree w) = None →
  NoDup vendor_linux.*1 →
  (∀ name n, (name, n) ∈ vendor_linux → matches_raylib name = true → is_dir n = false) →
  ∃ w',
    setup w = Ok (".so", "-Wl,-rpath=$ORIGIN/linux") w' ∧
    (∀ name mt data,
       (name, File mt data) ∈ vendor_linux → matches_raylib name = true →
       resolve (OUT_DIR ++ ["linux"; name]) (w_tree w') = Some (File now data)) ∧
    (∀ name,
       ¬ (name ∈ vendor_linux.*1 ∧ matches_raylib name = true) →
       resolve (OUT_DIR ++ ["linux"; name]) (w_tree w') = None).
Proof.
  intros Hsys Hout Hl Hnd Hfiles. apply String.eqb_neq in Hsys.
  rewrite setup_absent by done.
  destruct (mkdir_p_child now OUT_DIR "linux" (w_tree w) m es Hout Hl) as [t Hmk].
  rewrite Hmk. pose proof (mkdir_p_fresh _ _ _ _ Hmk Hl) as Hfresh.
  set (files := filter (λ e, matches_raylib e.1 = true) vendor_linux).
  destruct (stage_files_ok now (OUT_DIR ++ ["linux"]) files (set_tree t w) now [])
    as (t' & Hrun & _ & Hstaged & Hframe).
  - done.
  - apply (sublist_NoDup _ vendor_linux.*1); [done|].
    apply fmap_sublist. apply sublist_filter.
  - intros name n Hin. apply list_elem_of_filter in Hin as [Hm Hin].
    by apply (Hfiles name n).
  - intros name m' es' _. cbn [w_tree set_tree].
    by rewrite (resolve_under_empty _ _ _ _ Hfresh).
  - rewrite Hrun. eexists. split; [reflexivity|]. cbn [w_tree set_tree].
    change (OUT_DIR ++ ["linux"]) with ["build"; "hot_reload"; "linux"] in *.
    split.
    + intros name mt data Hin Hm. apply (Hstaged name mt data).
      by apply list_elem_of_filter.
    + intros name Hno.
      change (OUT_DIR ++ ["linux"; name]) with (["build"; "hot_reload"; "linux"] ++ [name]).
      rewrite Hframe.
      * by apply (resolve_under_empty _ _ _ now).
      * intros other Ho. apply apart_siblings. intros ->. apply Hno.
        apply list_elem_of_fmap in Ho as ([n' c] & -> & Ho).
        apply list_elem_of_filter in Ho as [Hm Ho]. split; [|done].
        apply list_elem_of_fmap. by exists (n', c).
Qed.

End StartupProperties.

Lemma setup_environment_idempotent_witness :
  let w' := world_of (setup_environment "Linux" "x86_64" "/opt/odin" demo_vendor 50%Z
                        fresh_world) in
  setup_environment "Linux" "x86_64" "/opt/odin" demo_vendor 50%Z w'
  = Ok (".so", "-Wl,-rpath=$ORIGIN/linux") w'.
Proof.
  intros w'.
  apply (setup_environment_idempotent "Linux" "x86_64" "/opt/odin" demo_vendor 50%Z
           fresh_world).
  vm_compute. reflexivity.
Defined.

Lemma staging_error_not_repaired_witness :
  let w' := world_of (setup_environment "Linux" "x86_64" "/opt/odin" bad_vendor 50%Z
                        fresh_world) in
  setup_environment "Linux" "x86_64" "/opt/odin" bad_vendor 50%Z w'
  = Ok (".so", "-Wl,-rpath=$ORIGIN/linux") w' ∧
  resolve ["build"; "hot_reload"; "linux"; "libraylib.so"] (w_tree w')
  = Some (File 50 "so") ∧
  resolve ["build"; "hot_reload"; "linux"; "libraylib.so.5.5.0"] (w_tree w') = None.
Proof.
  intros w'. split; [|by vm_compute].
  apply (staging_error_not_repaired "Linux" "x86_64" "/opt/odin" bad_vendor 50%Z
           fresh_world).
  vm_compute. reflexivity.
Defined.

Lemma setup_environment_stages_libraries_witness :
  ∃ w',
    setup_environment "Linux" "x86_64" "/opt/odin" demo_vendor 50%Z fresh_world
    = Ok (".so", "-Wl,-rpath=$ORIGIN/linux") w' ∧
    resolve ["build"; "hot_reload"; "linux"; "libraylib.so.5.5.0"] (w_tree w')
    = Some (File 50 "so550") ∧
    resolve ["build"; "hot_reload"; "linux"; "libraylib.a"] (w_tree w') = None.
Proof.
  destruct (setup_environment_stages_libraries "Linux" "x86_64" "/opt/odin" demo_vendor
              50%Z fresh_world 0%Z [("game.so", File 5 "old module")])
    as (w' & H1 & H2 & H3).
  - discriminate.
  - vm_compute. reflexivity.
  - vm_compute. reflexivity.
  - apply (bool_decide_unpack _). vm_compute. exact I.
  - intros name n Hin Hm. vm_compute in Hin.
    repeat (apply elem_of_cons in Hin as [[= -> ->]|Hin]);
      first [ by apply elem_of_nil in Hin | reflexivity | (vm_compute in Hm; discriminate) ].
  - exists w'. split; [done|]. split.
    + apply (H2 "libraylib.so.5.5.0" 3%Z "so550"); [|reflexivity].
      vm_compute. repeat constructor.
    + apply (H3 "libraylib.a"). intros [_ Hm]. vm_compute in Hm. discriminate.
Defined.

(** ** [main] *)

(** X19: [main] enters the loop with a snapshot taken after the first build
    (lines 160-173).  Whenever the start-up returns, the suffix it hands to
    the loop is one of the two known ones and the snapshot is in step with
    the disk; so the first scan of the loop answers [False], the first turn
    rebuilds nothing, and [main] goes straight to the stop check. *)
Theorem main_starts_in_sync (platform_system platform_machine ROOT : string)
    (vendor_linux : list (string * node)) (now : Z)
    (odin : list string → node → Z * node)
    (process_table : list string → world → exn + string) (idle : node → node)
    (w w' : world) (cfg : string * string) :
  startup platform_system platform_machine ROOT vendor_linux now odin process_table w
  = Ok cfg w' →
  known_dll_ext cfg.1 ∧
  check_for_changes ["source"] w' = Ok false w' ∧
  rebuild_step platform_system odin process_table cfg.1 cfg.2 w' = Ok tt w' ∧
  ∀ fuel,
    main platform_system platform_machine ROOT vendor_linux now odin process_table idle
         (S fuel) w
    = match stop_step idle w' with
      | Ok true w'' => Some (Ok tt w'')
      | Ok false w'' =>
          watch_for_changes platform_system odin process_table idle fuel cfg.1 cfg.2 w''
      | Raise e w'' => Some (Raise e w'')
      end.
Proof.
  intros H.
  assert (Hparts : ∃ w0 w1 wp,
            setup_environment platform_system platform_machine ROOT vendor_linux now w0
            = Ok cfg w1 ∧
            populate_last_mtimes ["source"] wp = Ok tt (set_last_mtimes (w_last_mtimes w') wp) ∧
            w' = emit [EPrint "Watching for changes in .odin files..."]
                   (set_last_mtimes (w_last_mtimes w') wp)).
  { unfold startup, bind in H.
    destruct (mkdir now OUT_DIR w) as [[] w0|]; [|done].
    destruct (setup_environment _ _ _ _ _ w0) as [cfg' w1|] eqn:Hs; [|done].
    destruct (build_and_run_project _ _ _ _ _ w1) as [[] w2|]; [|done].
    unfold print in H.
    destruct (populate_last_mtimes ["source"] _) as [[] w3|] eqn:Hp; [|done].
    injection H as <- <-. eexists w0, w1, _. split; [done|].
    assert (Hw3 : w3 = set_last_mtimes (w_last_mtimes w3)
                         (emit [EPrint "Populating initial file modification times..."] w2)).
    { unfold populate_last_mtimes in Hp. destruct (populate_dirs _ _ ∅); by simplify_eq. }
    split; [by rewrite Hp, Hw3 | by rewrite Hw3 at 1]. }
  destruct Hparts as (w0 & w1 & wp & Hs & Hp & Hw').
  assert (Hext : known_dll_ext cfg.1).
  { apply setup_result in Hs as [[_ ->]|(_ & -> & _)]; [by right | by left]. }
  assert (Hcheck : check_for_changes ["source"] w' = Ok false w').
  { apply check_for_changes_in_sync.
    destruct (populate_in_sync _ _ _ Hp) as (_ & Hsync & _).
    rewrite Hw'. exact Hsync. }
  assert (Hstep : rebuild_step platform_system odin process_table cfg.1 cfg.2 w' = Ok tt w')
    by (unfold rebuild_step, bind; by rewrite Hcheck).
  split; [done|]. split; [done|]. split; [done|].
  intros fuel. unfold main. rewrite H. cbn [watch_for_changes].
  unfold watch_turn, bind. rewrite Hstep. by destruct (stop_step idle w') as [[]|].
Qed.

Lemma main_starts_in_sync_witness :
  main "Linux" "x86_64" "/opt/odin" demo_vendor 50%Z flaky_odin live_ps id 1 fresh_world
  = Some (Ok tt
            (set_tree
               (remove [EXIT_SIGNAL_FILE]
                  (w_tree (world_of (startup "Linux" "x86_64" "/opt/odin" demo_vendor 50%Z
                                       flaky_odin live_ps fresh_world))))
               (emit [EPrint "Exit signal detected. Exiting..."]
                  (world_of (startup "Linux" "x86_64" "/opt/odin" demo_vendor 50%Z
                               flaky_odin live_ps fresh_world))))).
Proof.
  destruct (main_starts_in_sync "Linux" "x86_64" "/opt/odin" demo_vendor 50%Z
              flaky_odin live_ps id fresh_world
              (world_of (startup "Linux" "x86_64" "/opt/odin" demo_vendor 50%Z
                           flaky_odin live_ps fresh_world))
              (".so", "-Wl,-rpath=$ORIGIN/linux")) as (_ & _ & _ & H).
  - vm_compute. reflexivity.
  - rewrite (H 0). vm_compute. reflexivity.
Defined.


(** ** The web build: properties *)

Section WebFacts.

Variable sh : string → gmap string string → node → Z * string * node.
Variable emsdk_dir : string.
Variable emsdk_script_is_file : bool.
Variable cwd : string.
Variable splitlines : string → list string.
Variable strip : string → string.
Variable now : Z.

Lemma shell_run_eq (command : string) (w : world) :
  Web.shell_run sh command None w
  = Ok ((sh command (w_environ w) (w_tree w)).1)
       (emit [ERun ["/bin/sh"; "-c"; command]]
          (set_tree (sh command (w_environ w) (w_tree w)).2 w)).
Proof.
  unfold Web.shell_run. cbn [default].
  by destruct (sh command (w_environ w) (w_tree w)) as [[rc out] t].
Qed.

Lemma shell_run_checked_eq (command : string) (w : world) :
  Web.shell_run_checked sh command None w
  = let r := sh command (w_environ w) (w_tree w) in
    let w' := emit [ERun ["/bin/sh"; "-c"; command]] (set_tree r.2 w) in
    if (r.1.1 =? 0)%Z then Ok r.1 w' else Raise (CalledProcessError r.1.1) w'.
Proof.
  unfold Web.shell_run_checked, bind. rewrite shell_run_eq. cbn zeta.
  by destruct (_ =? _)%Z.
Qed.

Lemma run_command_eq (command : string) (w : world) :
  Web.run_command sh command None w = Web.shell_run_checked sh command None w.
Proof.
  unfold Web.run_command, bind.
  by destruct (Web.shell_run_checked sh command None w).
Qed.

(** [main] is its two halves in sequence; what the sourced script prints
    goes into a local dictionary that nothing reads. *)
Lemma main_split (w : world) :
  Web.main sh emsdk_dir emsdk_script_is_file cwd splitlines strip now w
  = (Web.before_build sh emsdk_dir emsdk_script_is_file now >>
     Web.build_steps sh cwd strip) w.
Proof.
  unfold Web.main, Web.before_build, Web.build_steps.
  change (path_of_string "build/web") with ["build"; "web"].
  change (path_of_string ("build/web" +:+ "/game.wasm.o"))
    with ["build"; "web"; "game.wasm.o"].
  unfold bind, print, environ_copy, ret.
  destruct (mkdir now ["build"; "web"] _) as [[] w2|]; [|reflexivity].
  destruct emsdk_script_is_file; [|reflexivity].
  rewrite shell_run_eq. destruct (_ =? _)%Z; reflexivity.
Qed.

Lemma before_build_trace (w : world) :
  ∃ tail,
    w_trace (world_of (Web.before_build sh emsdk_dir emsdk_script_is_file now w))
    = w_trace w ++ EPrint ("Emscripten path: " +:+ emsdk_dir) :: tail ∧
    (tail = [] ∨
     tail = [ERun ["/bin/sh"; "-c";
                   "source " +:+ (emsdk_dir +:+ "/emsdk_env.sh") +:+ " && env"]]).
Proof.
  unfold Web.before_build, bind, print, mkdir. cbn [w_tree emit].
  destruct (mkdir_p now ["build"; "web"] (w_tree w)); [by exists []; split; [|left]|].
  destruct emsdk_script_is_file; [|by exists []; split; [|left]].
  rewrite shell_run_eq. eexists. split; [|by right]. cbn. by rewrite <- app_assoc.
Qed.

End WebFacts.

Section WebProperties.

Variable sh : string → gmap string string → node → Z * string * node.
Variable emsdk_dir : string.
Variable emsdk_script_is_file : bool.
Variable cwd : string.
Variable splitlines : string → list string.
Variable strip : string → string.
Variable now : Z.

Local Abbreviation web_main :=
  (Web.main sh emsdk_dir emsdk_script_is_file cwd splitlines strip now).

(** X20: [build_web.py] stops at a failed Odin build ([run_command], lines
    6-11, and lines 40-48): when the Odin build exits with a non-zero
    status, [main] raises instead of returning, and the only commands it
    has run are the sourcing of [emsdk_env.sh] and that build; neither
    [odin root] nor [emcc] is run. *)
Theorem web_build_stops_at_failed_odin (w : world) :
  (∀ env t, (sh Web.odin_command env t).1.1 ≠ 0%Z) →
  returned (web_main w) = None ∧
  ∀ c, ERun ["/bin/sh"; "-c"; c] ∈ drop (length (w_trace w)) (w_trace (world_of (web_main w))) →
       c = "source " +:+ (emsdk_dir +:+ "/emsdk_env.sh") +:+ " && env" ∨
       c = Web.odin_command.
Proof.
  intros Hfail. rewrite main_split. unfold bind.
  destruct (before_build_trace sh emsdk_dir emsdk_script_is_file now w) as (tail & Htr & Htail).
  destruct (Web.before_build sh emsdk_dir emsdk_script_is_file now w) as [[] w0|e w0].
  - unfold Web.build_steps, bind. rewrite run_command_eq, shell_run_checked_eq.
    cbn zeta. specialize (Hfail (w_environ w0) (w_tree w0)).
    apply Z.eqb_neq in Hfail. rewrite Hfail. split; [done|].
    intros c Hin. cbn in Hin, Htr. rewrite Htr, <- app_assoc, drop_app_length in Hin.
    destruct Htail as [-> | ->]; cbn in Hin;
      repeat (apply elem_of_cons in Hin as [Hin|Hin]);
      try discriminate; try (by apply elem_of_nil in Hin);
      injection Hin as ->; auto.
  - split; [done|]. intros c Hin. cbn in Hin, Htr. rewrite Htr, drop_app_length in Hin.
    destruct Htail as [-> | ->];
      repeat (apply elem_of_cons in Hin as [Hin|Hin]);
      try discriminate; try (by apply elem_of_nil in Hin);
      injection Hin as ->; auto.
Qed.

(** X21: the intermediate object does not outlive a successful web build (lines
    80-83): whenever [main] returns, [build/web/game.wasm.o] does not exist,
    and the last two lines printed are the summary. *)
Theorem web_build_removes_intermediate (w w' : world) :
  web_main w = Ok tt w' →
  resolve ["build"; "web"; "game.wasm.o"] (w_tree w') = None ∧
  ∃ before,
    w_trace w' = before ++ [EPrint "Web build created in build/web";
                            EPrint ("file: file://" +:+ cwd +:+ "/build/web/index.html")].
Proof.
  rewrite main_split. unfold bind at 1.
  destruct (Web.before_build _ _ _ _ w) as [[] w0|]; [|done].
  unfold Web.build_steps, bind.
  destruct (Web.run_command sh Web.odin_command None w0) as [r1 w1|]; [|done].
  destruct (Web.shell_run_checked sh "odin root" None w1) as [r2 w2|]; [|done].
  destruct (Web.run_command sh _ None w2) as [r3 w3|]; [|done].
  unfold exists_, path_exists, print.
  destruct (resolve ["build"; "web"; "game.wasm.o"] (w_tree w3)) as [n|] eqn:E.
  - rewrite bool_decide_eq_true_2 by eauto. unfold unlink. rewrite E.
    pose proof (resolve_remove_same ["build"; "web"; "game.wasm.o"] (w_tree w3)
                  ltac:(discriminate)) as Hgone.
    destruct n; [|done]. intros H. injection H as <-. split.
    + exact Hgone.
    + exists (w_trace w3). cbn [w_tree emit set_tree w_trace]. by rewrite <- app_assoc.
  - rewrite bool_decide_eq_false_2 by (by intros [? ?]). unfold ret.
    intros [= <-]. cbn [w_tree emit set_tree w_trace]. split; [done|].
    exists (w_trace w3). by rewrite <- app_assoc.
Qed.

End WebProperties.

(** X22: the environment read from [emsdk_env.sh] is never used (lines 25-37 and
    the calls of [run_command] after them, which pass no [env]).  Two shells
    that agree on exit statuses and on what they do to the disk, and on what
    every command other than the sourcing prints, make [main] end in the
    same way, whatever the sourced script prints and however its output is
    split into lines. *)
Theorem emsdk_environment_unused
    (sh1 sh2 : string → gmap string string → node → Z * string * node)
    (emsdk_dir : string) (emsdk_script_is_file : bool) (cwd : string)
    (splitlines1 splitlines2 : string → list string) (strip : string → string)
    (now : Z) (w : world) :
  (∀ c env t, (sh1 c env t).1.1 = (sh2 c env t).1.1 ∧ (sh1 c env t).2 = (sh2 c env t).2) →
  (∀ c env t, String.prefix "source " c = false → sh1 c env t = sh2 c env t) →
  Web.main sh1 emsdk_dir emsdk_script_is_file cwd splitlines1 strip now w
  = Web.main sh2 emsdk_dir emsdk_script_is_file cwd splitlines2 strip now w.
Proof.
  intros Hsame Hout. rewrite !main_split. unfold bind.
  assert (Hpre : Web.before_build sh1 emsdk_dir emsdk_script_is_file now w
                 = Web.before_build sh2 emsdk_dir emsdk_script_is_file now w).
  { unfold Web.before_build, bind.
    destruct (print _ w) as [[] w1|]; [|done].
    destruct (mkdir now _ w1) as [[] w2|]; [|done].
    destruct emsdk_script_is_file; [|done].
    rewrite !shell_run_eq.
    by destruct (Hsame ("source " +:+ (emsdk_dir +:+ "/emsdk_env.sh") +:+ " && env")
                   (w_environ w2) (w_tree w2)) as [_ ->]. }
  rewrite Hpre.
  destruct (Web.before_build sh2 _ _ _ w) as [[] w0|]; [|done].
  assert (Hrun : ∀ c v, String.prefix "source " c = false →
            Web.shell_run_checked sh1 c None v = Web.shell_run_checked sh2 c None v).
  { intros c v Hc. rewrite !shell_run_checked_eq. cbn zeta. by rewrite Hout. }
  unfold Web.build_steps, bind. rewrite !run_command_eq.
  rewrite (Hrun Web.odin_command) by done.
  destruct (Web.shell_run_checked sh2 Web.odin_command None w0) as [r1 w1|]; [|done].
  rewrite (Hrun "odin root") by done.
  destruct (Web.shell_run_checked sh2 "odin root" None w1) as [r2 w2|]; [|done].
  rewrite !run_command_eq. by rewrite (Hrun (Web.emcc_command _)).
Qed.

Lemma web_build_stops_at_failed_odin_witness :
  returned (Web.main broken_sh "/home/dev/.emsdk" true "/work" (split_newline "")
              drop_newlines 70%Z fresh_world) = None.
Proof.
  apply (web_build_stops_at_failed_odin broken_sh "/home/dev/.emsdk" true "/work"
           (split_newline "") drop_newlines 70%Z fresh_world).
  intros env t. cbn. discriminate.
Defined.

Lemma web_build_removes_intermediate_witness :
  resolve ["build"; "web"; "game.wasm.o"]
    (w_tree (world_of (Web.main demo_sh "/home/dev/.emsdk" true "/work" (split_newline "")
                         drop_newlines 70%Z fresh_world))) = None.
Proof.
  apply (web_build_removes_intermediate demo_sh "/home/dev/.emsdk" true "/work"
           (split_newline "") drop_newlines 70%Z fresh_world).
  vm_compute. reflexivity.
Defined.

(** The object file was there before the clean-up: the Odin build of the
    witness had written it. *)
Example web_object_was_written :
  resolve ["build"; "web"; "game.wasm.o"]
    (demo_sh Web.odin_command ∅ (Dir 0 [("build", Dir 0 [("web", Dir 0 [])])])).2
  = Some (File 60 "wasm object").
Proof. vm_compute. reflexivity. Qed.

Lemma emsdk_environment_unused_witness :
  Web.main demo_sh "/home/dev/.emsdk" true "/work" (split_newline "") drop_newlines
    70%Z fresh_world
  = Web.main other_sh "/home/dev/.emsdk" true "/work" (λ _, []) drop_newlines
    70%Z fresh_world.
Proof.
  apply emsdk_environment_unused.
  - intros c env t. unfold other_sh.
    destruct (String.prefix "source " c) eqn:E; [|done].
    apply prefix_spec in E as [post ->]. by cbn.
  - intros c env t Hc. unfold other_sh. by rewrite Hc.
Defined.
